(** * AIVideoAnalyzerV2: frame selection, detection fusion and hazard
      classification

    A shallow embedding of [scripts/analyze_frames_openrouter.py] and
    [scripts/extract_frames_opencv.py], and the properties of the design
    document that are decided by that code.

    Conventions of the embedding.
    - Python [str] values are [string]s of 8-bit characters read as ASCII;
      characters above 127 are outside the model.
    - Confidences, thresholds and similarity scores are inputs that the code
      only compares; they are modelled as exact rationals [Q].  The
      coordinates of a detection are written as rationals too, and stand
      for the binary64 values nearest to them ([PyFloat.nearest]): the
      arithmetic on them (centers, areas, distances) is that of binary64
      floats ([PrimFloat]), and so is the arithmetic of the grid locator
      ([1.0 / 3.0], [0.05]).  The times of the extraction loop are kept
      exact, see [FrameExtractor].
    - Calls into OpenCV, the file system, the network and the C library
      ([pow]) are parameters of the definitions that use them; a call that
      can raise returns an [outcome]. *)

From Stdlib Require Import Reals Qreals Lra.
From Stdlib Require Import Bool Arith ZArith QArith Qminmax Qround List Lia Lqa.
From Stdlib Require Import Ascii String DecimalString.
From Stdlib Require Import Floats.
Import ListNotations.

#[local] Set Warnings "-inexact-float,-register-all".

Local Open Scope string_scope.
Local Open Scope list_scope.

(** ** Python string operations used by the scripts *)

Module PyStr.

Definition code (c : ascii) : nat := nat_of_ascii c.

Definition is_ascii_upper (c : ascii) : bool :=
  (65 <=? code c)%nat && (code c <=? 90)%nat.

Definition is_ascii_lower (c : ascii) : bool :=
  (97 <=? code c)%nat && (code c <=? 122)%nat.

(** [str.isspace] on the ASCII range: TAB, LF, VT, FF, CR, FS, GS, RS, US
    and the blank. *)
Definition is_space (c : ascii) : bool :=
  ((9 <=? code c)%nat && (code c <=? 13)%nat)
  || ((28 <=? code c)%nat && (code c <=? 32)%nat).

Definition is_digit (c : ascii) : bool :=
  (48 <=? code c)%nat && (code c <=? 57)%nat.

Definition lower_char (c : ascii) : ascii :=
  if is_ascii_upper c then ascii_of_nat (code c + 32) else c.

Definition upper_char (c : ascii) : ascii :=
  if is_ascii_lower c then ascii_of_nat (code c - 32) else c.

(** [s.lower()] and [s.upper()] *)
Fixpoint lower (s : string) : string :=
  match s with
  | EmptyString => EmptyString
  | String c t => String (lower_char c) (lower t)
  end.

Fixpoint upper (s : string) : string :=
  match s with
  | EmptyString => EmptyString
  | String c t => String (upper_char c) (upper t)
  end.

(** [hay.startswith(needle)] *)
Fixpoint startswith (needle hay : string) : bool :=
  match needle, hay with
  | EmptyString, _ => true
  | String _ _, EmptyString => false
  | String a n', String b h' => Ascii.eqb a b && startswith n' h'
  end.

(** [needle in hay] *)
Fixpoint contains (needle hay : string) : bool :=
  startswith needle hay
  || match hay with
     | EmptyString => false
     | String _ h' => contains needle h'
     end.

(** [any(item in s for item in items)] *)
Definition any_in (items : list string) (s : string) : bool :=
  existsb (fun item => contains item s) items.

Fixpoint lstrip (s : string) : string :=
  match s with
  | EmptyString => EmptyString
  | String c t => if is_space c then lstrip t else s
  end.

(** Drops trailing white space; the auxiliary result is [None] when the
    whole suffix is white space. *)
Fixpoint rstrip_aux (s : string) : option string :=
  match s with
  | EmptyString => None
  | String c t =>
      match rstrip_aux t with
      | Some t' => Some (String c t')
      | None => if is_space c then None else Some (String c EmptyString)
      end
  end.

Definition rstrip (s : string) : string :=
  match rstrip_aux s with Some r => r | None => EmptyString end.

(** [s.strip()] *)
Definition strip (s : string) : string := rstrip (lstrip s).

(** [s.replace(a, b)] for one-character [a] and [b] *)
Fixpoint replace_char (a b : ascii) (s : string) : string :=
  match s with
  | EmptyString => EmptyString
  | String c t =>
      String (if Ascii.eqb c a then b else c) (replace_char a b t)
  end.

(** [s.split(sep)] for a one-character separator: never the empty list. *)
Fixpoint split_char (sep : ascii) (s : string) : list string :=
  match s with
  | EmptyString => [EmptyString]
  | String c t =>
      if Ascii.eqb c sep then EmptyString :: split_char sep t
      else match split_char sep t with
           | [] => [String c EmptyString]
           | w :: ws => String c w :: ws
           end
  end.

(** [", ".join(parts)] and friends *)
Fixpoint join (sep : string) (parts : list string) : string :=
  match parts with
  | [] => EmptyString
  | [p] => p
  | p :: ps => p ++ sep ++ join sep ps
  end.

Example strip_both_sides : strip "  a b  " = "a b".
Proof. reflexivity. Qed.

Example strip_blank : strip "   " = "".
Proof. reflexivity. Qed.

Example split_keeps_empty_parts : split_char "," "a,,b," = ["a"; ""; "b"; ""].
Proof. reflexivity. Qed.

Example split_empty : split_char "," "" = [""].
Proof. reflexivity. Qed.

Example contains_inside : contains "car" "a cart" = true.
Proof. reflexivity. Qed.

Example contains_absent : contains "bag" "backpack" = false.
Proof. reflexivity. Qed.

Example join_three : join ", " ["a"; "b"; "c"] = "a, b, c".
Proof. reflexivity. Qed.

End PyStr.

(** ** Numbers *)

Module PyNum.

Local Open Scope Q_scope.

Definition Qltb (a b : Q) : bool := negb (Qle_bool b a).

(** Python's [max(a, b)]: the first argument unless the second is
    strictly greater. *)
Definition py_max (a b : Q) : Q := if Qltb a b then b else a.

(** Python's [min(a, b)]: the first argument unless the second is
    strictly smaller. *)
Definition py_min (a b : Q) : Q := if Qltb b a then b else a.

Lemma Qltb_lt (a b : Q) : Qltb a b = true <-> a < b.
Proof.
  unfold Qltb. rewrite negb_true_iff.
  split; intro H.
  - apply Qnot_le_lt. intro Hle. apply Qle_bool_iff in Hle. congruence.
  - destruct (Qle_bool b a) eqn:E; [|reflexivity].
    apply Qle_bool_iff in E. exfalso. apply (Qlt_not_le _ _ H E).
Qed.

Lemma Qltb_ge (a b : Q) : Qltb a b = false <-> b <= a.
Proof.
  unfold Qltb. rewrite negb_false_iff. apply Qle_bool_iff.
Qed.

Lemma py_max_ge_r (a b : Q) : b <= py_max a b.
Proof.
  unfold py_max. destruct (Qltb a b) eqn:E.
  - apply Qle_refl.
  - now apply Qltb_ge.
Qed.

Lemma py_max_ge_l (a b : Q) : a <= py_max a b.
Proof.
  unfold py_max. destruct (Qltb a b) eqn:E.
  - apply Qltb_lt in E. now apply Qlt_le_weak.
  - apply Qle_refl.
Qed.

End PyNum.

(** ** Floats *)

Module PyFloat.

(** The float that a number written in a program or in a JSON text
    denotes: the binary64 value nearest to it, ties to even.  The quotient
    is taken with at least 56 significant bits and a sticky bit, and is
    rounded once.  A rational that is a binary64 value denotes itself. *)
Definition nearest (q : Q) : float :=
  let n := Z.abs (Qnum q) in
  let d := Zpos (Qden q) in
  let s := Z.max 0 (Z.log2 d + 56 - Z.log2 n) in
  let scaled := (n * 2 ^ s)%Z in
  let sticky := if (scaled mod d =? 0)%Z then 0%Z else 1%Z in
  let f := SF2Prim (binary_normalize prec emax (2 * (scaled / d) + sticky)
                                     (- s - 1) false) in
  if (Qnum q <? 0)%Z then (- f)%float else f.

(** The exact value of a finite float (0 for the others). *)
Definition value (f : float) : Q :=
  match Prim2SF f with
  | S754_finite s m e =>
      ((if s then inject_Z (Zneg m) else inject_Z (Zpos m)) * Qpower 2 e)%Q
  | _ => 0%Q
  end.

Example nearest_tenth : nearest (1 # 10) = 0.1%float.
Proof. vm_compute. reflexivity. Qed.

Example nearest_long_decimal :
  nearest (39699999999999996 # 100000000000000000)
  = 0.39699999999999996%float.
Proof. vm_compute. reflexivity. Qed.

Example nearest_negative_third :
  nearest (- 1 # 3) = (- (1 / 3))%float.
Proof. vm_compute. reflexivity. Qed.

(** A binary64 value is the float nearest to itself. *)
Example nearest_of_value :
  map (fun f => nearest (value f)) [0.1; 0.7; 1; 0.30000000000000004]%float
  = [0.1; 0.7; 1; 0.30000000000000004]%float.
Proof. vm_compute. reflexivity. Qed.

(** The sum of two floats is rounded. *)
Example sum_is_rounded :
  (nearest (1 # 10) + nearest (2 # 10))%float = 0.30000000000000004%float.
Proof. vm_compute. reflexivity. Qed.

End PyFloat.

(** ** Detections *)

(** A box [{"x": .., "y": .., "w": .., "h": ..}].  Each coordinate [q]
    stands for the float [PyFloat.nearest q]. *)
Record bbox : Type := mk_bbox { box_x : Q; box_y : Q; box_w : Q; box_h : Q }.

(** One entry of the list built by [detect_objects_with_yolo]. *)
Record detection : Type := mk_detection {
  class_name : string;
  confidence : Q;
  det_bbox : bbox;
  safety_category : string;
  potential_hazard : bool;
  model_used : string;
  detection_id : string
}.

(** ** HazardClassifier *)

Module HazardClassifier.
Import PyStr PyNum.
Local Open Scope Q_scope.

Definition vehicle_tier : list string :=
  ["car"; "truck"; "forklift"; "vehicle"; "bicycle"].
Definition blocking_tier : list string :=
  ["table"; "desk"; "cabinet"; "ladder"; "cart"; "box"; "container"].
Definition small_tier : list string :=
  ["person"; "chair"; "bag"; "bottle"; "phone"].

(** [get_adaptive_confidence_threshold(class_name)]; the [scene_context]
    argument is never read. *)
Definition get_adaptive_confidence_threshold (cls : string) : Q :=
  let class_lower := lower cls in
  if any_in vehicle_tier class_lower then 20 # 100
  else if any_in blocking_tier class_lower then 25 # 100
  else if any_in small_tier class_lower then 35 # 100
  else 30 # 100.

(** The four keyword groups of [critical_hazards], in dictionary order. *)
Definition critical_hazards : list (string * list string) :=
  [ ("vehicles", ["car"; "truck"; "bus"; "motorcycle"; "bicycle"; "motorbike"]);
    ("blocking_furniture", ["table"; "desk"; "cabinet"; "shelf"; "couch"; "wardrobe"]);
    ("large_containers", ["box"; "container"; "barrel"; "bin"; "crate"; "pallet"]);
    ("equipment", ["ladder"; "cart"; "trolley"; "machine"; "forklift"]) ].

(** [center_x] and [center_y], computed on floats. *)
Definition center_x (b : bbox) : float :=
  (PyFloat.nearest (box_x b) + PyFloat.nearest (box_w b) / 2)%float.
Definition center_y (b : bbox) : float :=
  (PyFloat.nearest (box_y b) + PyFloat.nearest (box_h b) / 2)%float.

(** [0.2 <= center_x <= 0.8 and 0.3 <= center_y <= 0.9] *)
Definition in_pathway (b : bbox) : bool :=
  PrimFloat.leb 0.2 (center_x b) && PrimFloat.leb (center_x b) 0.8
  && PrimFloat.leb 0.3 (center_y b) && PrimFloat.leb (center_y b) 0.9.

(** The loop over [critical_hazards.items()]: the first group whose
    keyword occurs and whose zone test passes returns [True]. *)
Fixpoint scan_critical (groups : list (string * list string))
         (class_lower : string) (b : bbox) : bool :=
  match groups with
  | [] => false
  | (_, items) :: rest =>
      if any_in items class_lower
      then (if in_pathway b then true else scan_critical rest class_lower b)
      else scan_critical rest class_lower b
  end.

(** [is_critical_safety_hazard(class_name, confidence, bbox_position,
    base_threshold)] *)
Definition is_critical_safety_hazard
           (cls : string) (conf : Q) (b : bbox) (base_threshold : Q) : bool :=
  let adaptive_threshold := get_adaptive_confidence_threshold cls in
  let effective_threshold := py_max base_threshold adaptive_threshold in
  if Qltb conf effective_threshold then false
  else scan_critical critical_hazards (lower cls) b.

Definition default_base_threshold : Q := 20 # 100.

Definition safety_categories : list (string * list string) :=
  [ ("vehicle", ["car"; "truck"; "bus"; "motorcycle"; "bicycle"]);
    ("person", ["person"]);
    ("equipment", ["chair"; "desk"; "table"; "laptop"; "monitor"; "keyboard"]);
    ("container", ["bottle"; "cup"; "bowl"; "box"; "suitcase"; "handbag"; "backpack"]);
    ("obstacles", ["bench"; "potted plant"; "vase"; "sports ball"]);
    ("waste", ["trash"; "recycling"; "garbage"]);
    ("warning", ["stop sign"; "traffic light"; "fire hydrant"]);
    ("structure", ["door"; "window"; "wall"]) ].

Fixpoint first_category (table : list (string * list string))
         (class_lower : string) : string :=
  match table with
  | [] => "other"
  | (category, items) :: rest =>
      if any_in items class_lower then category
      else first_category rest class_lower
  end.

(** [classify_object_for_safety(class_name)] *)
Definition classify_object_for_safety (cls : string) : string :=
  first_category safety_categories (lower cls).

(** *** Results *)

Lemma effective_threshold_ge_adaptive (cls : string) (base : Q) :
  get_adaptive_confidence_threshold cls
  <= py_max base (get_adaptive_confidence_threshold cls).
Proof. apply py_max_ge_r. Qed.

(** The value of the adaptive threshold, tier by tier: the first tier
    with a keyword occurring in the lower-cased class name decides. *)
Lemma adaptive_threshold_tiers (cls : string) :
  (any_in vehicle_tier (lower cls) = true ->
     get_adaptive_confidence_threshold cls = 20 # 100)
  /\ (any_in vehicle_tier (lower cls) = false ->
      any_in blocking_tier (lower cls) = true ->
      get_adaptive_confidence_threshold cls = 25 # 100)
  /\ (any_in vehicle_tier (lower cls) = false ->
      any_in blocking_tier (lower cls) = false ->
      any_in small_tier (lower cls) = true ->
      get_adaptive_confidence_threshold cls = 35 # 100)
  /\ (any_in vehicle_tier (lower cls) = false ->
      any_in blocking_tier (lower cls) = false ->
      any_in small_tier (lower cls) = false ->
      get_adaptive_confidence_threshold cls = 30 # 100).
Proof.
  unfold get_adaptive_confidence_threshold.
  repeat split; intros; repeat
    match goal with H : _ = _ |- _ => rewrite H; clear H end; reflexivity.
Qed.

Example threshold_car : get_adaptive_confidence_threshold "car" = 20 # 100.
Proof. reflexivity. Qed.

Example threshold_dining_table :
  get_adaptive_confidence_threshold "Dining Table" = 25 # 100.
Proof. reflexivity. Qed.

Example threshold_handbag :
  get_adaptive_confidence_threshold "handbag" = 35 # 100.
Proof. reflexivity. Qed.

Example threshold_dog : get_adaptive_confidence_threshold "dog" = 30 # 100.
Proof. reflexivity. Qed.

(** Matching is by substring and the vehicle tier is tried first, so a
    class name containing [cart] already matches [car]. *)
Example threshold_cart : get_adaptive_confidence_threshold "cart" = 20 # 100.
Proof. reflexivity. Qed.

(** Below the effective threshold nothing is a hazard. *)
Lemma below_effective_threshold_not_hazard
      (cls : string) (conf : Q) (b : bbox) (base : Q) :
  conf < py_max base (get_adaptive_confidence_threshold cls) ->
  is_critical_safety_hazard cls conf b base = false.
Proof.
  intros H. unfold is_critical_safety_hazard.
  apply Qltb_lt in H. now rewrite H.
Qed.

(** [py_max] is the maximum of its arguments. *)
Lemma py_max_is_max (a b : Q) :
  a <= py_max a b /\ b <= py_max a b /\ (py_max a b = a \/ py_max a b = b).
Proof.
  split; [apply py_max_ge_l|]. split; [apply py_max_ge_r|].
  unfold py_max. destruct (Qltb a b); auto.
Qed.

(** C6. A detection whose confidence is strictly below the adaptive
    threshold of its class is never a hazard, whatever the box and the
    base floor given by the caller: the test is made against the effective
    threshold, which is the maximum of the floor and the adaptive value.
    The adaptive value is 0.20 when a vehicle keyword occurs in the class
    name, else 0.25 when a blocking furniture or container keyword occurs,
    else 0.35 when a small portable item keyword occurs, and 0.30
    otherwise. *)
Theorem below_adaptive_threshold_not_hazard
        (cls : string) (conf : Q) (b : bbox) (base : Q) :
  conf < get_adaptive_confidence_threshold cls ->
  let adaptive := get_adaptive_confidence_threshold cls in
  let effective := py_max base adaptive in
  is_critical_safety_hazard cls conf b base = false
  /\ (base <= effective /\ adaptive <= effective
      /\ (effective = base \/ effective = adaptive))
  /\ (forall conf', conf' < effective ->
                    is_critical_safety_hazard cls conf' b base = false)
  /\ adaptive =
     (if any_in vehicle_tier (lower cls) then 20 # 100
      else if any_in blocking_tier (lower cls) then 25 # 100
      else if any_in small_tier (lower cls) then 35 # 100
      else 30 # 100).
Proof.
  intros Hlt adaptive effective. split; [|split; [|split]].
  - apply below_effective_threshold_not_hazard.
    eapply Qlt_le_trans; [exact Hlt|apply effective_threshold_ge_adaptive].
  - apply py_max_is_max.
  - intros conf'. apply below_effective_threshold_not_hazard.
  - reflexivity.
Qed.

Lemma below_adaptive_threshold_not_hazard_witness :
  (19 # 100) < get_adaptive_confidence_threshold "truck"
  /\ is_critical_safety_hazard "truck" (19 # 100)
       (mk_bbox (4 # 10) (4 # 10) (2 # 10) (2 # 10)) (1 # 10) = false.
Proof.
  split.
  - reflexivity.
  - pose proof (below_adaptive_threshold_not_hazard "truck" (19 # 100)
                  (mk_bbox (4 # 10) (4 # 10) (2 # 10) (2 # 10)) (1 # 10)) as H.
    assert (Hlt : (19 # 100) < get_adaptive_confidence_threshold "truck")
      by reflexivity.
    exact (proj1 (H Hlt)).
Defined.

End HazardClassifier.

(** ** DetectionDeduplicator *)

Module DetectionDeduplicator.
Import PyStr PyNum.
Local Open Scope Q_scope.

Definition distance_threshold_default : Q := 1 # 10.

(** [(x + w/2, y + h/2)], on floats. *)
Definition center (b : bbox) : float * float :=
  ((PyFloat.nearest (box_x b) + PyFloat.nearest (box_w b) / 2)%float,
   (PyFloat.nearest (box_y b) + PyFloat.nearest (box_h b) / 2)%float).

(** [==] on the dictionaries. *)
Definition bbox_eqb (a b : bbox) : bool :=
  Qeq_bool (box_x a) (box_x b) && Qeq_bool (box_y a) (box_y b)
  && Qeq_bool (box_w a) (box_w b) && Qeq_bool (box_h a) (box_h b).

Definition detection_eqb (a b : detection) : bool :=
  String.eqb (class_name a) (class_name b)
  && Qeq_bool (confidence a) (confidence b)
  && bbox_eqb (det_bbox a) (det_bbox b)
  && String.eqb (safety_category a) (safety_category b)
  && Bool.eqb (potential_hazard a) (potential_hazard b)
  && String.eqb (model_used a) (model_used b)
  && String.eqb (detection_id a) (detection_id b).

(** [lst.remove(e)]: drops the first element equal to [e].  The code only
    removes an element it is iterating over, so the [ValueError] of an
    absent element cannot occur. *)
Fixpoint list_remove (e : detection) (l : list detection) : list detection :=
  match l with
  | [] => []
  | x :: t => if detection_eqb x e then t else x :: list_remove e t
  end.

Lemma bbox_eqb_refl (b : bbox) : bbox_eqb b b = true.
Proof.
  unfold bbox_eqb. rewrite !andb_true_iff.
  repeat split; apply Qeq_bool_iff; reflexivity.
Qed.

Lemma detection_eqb_refl (d : detection) : detection_eqb d d = true.
Proof.
  unfold detection_eqb.
  rewrite !String.eqb_refl, bbox_eqb_refl, Bool.eqb_reflx.
  replace (Qeq_bool (confidence d) (confidence d)) with true; [reflexivity|].
  symmetry. apply Qeq_bool_iff. reflexivity.
Qed.

Section Deduplicator.

(** [v ** e] on floats is the function [pow] of the C library, which is
    accurate to about one unit in the last place but need not round
    correctly.  It is a parameter of the deduplicator. *)
Variable pow : float -> float -> float.

(** [distance], with [center1] the center of the new detection and
    [center2] the one of the accepted detection. *)
Definition distance (detection existing : detection) : float :=
  let center1 := center (det_bbox detection) in
  let center2 := center (det_bbox existing) in
  pow (pow (fst center1 - fst center2) 2
       + pow (snd center1 - snd center2) 2)%float
      0.5%float.

(** [distance < distance_threshold] *)
Definition distance_lt (detection existing : detection) (t : Q) : bool :=
  PrimFloat.ltb (distance detection existing) (PyFloat.nearest t).

(** The inner [for existing in unique_detections] loop.  [Some u] is the
    list after a duplicate was found ([is_duplicate = True], [break]);
    [None] means the loop ended without finding one. *)
Fixpoint scan_existing (det : detection) (todo unique : list detection)
         (t : Q) : option (list detection) :=
  match todo with
  | [] => None
  | existing :: rest =>
      if String.eqb (class_name det) (class_name existing) then
        if distance_lt det existing t then
          Some (if Qltb (confidence existing) (confidence det)
                then list_remove existing unique ++ [det]
                else unique)
        else scan_existing det rest unique t
      else scan_existing det rest unique t
  end.

(** One iteration of the outer loop. *)
Definition dedup_step (t : Q) (unique : list detection) (det : detection)
  : list detection :=
  match scan_existing det unique unique t with
  | Some unique' => unique'
  | None => unique ++ [det]
  end.

(** [remove_duplicate_detections(detections, distance_threshold)] *)
Definition remove_duplicate_detections
           (detections : list detection) (t : Q) : list detection :=
  match detections with
  | [] => []
  | _ => fold_left (dedup_step t) detections []
  end.

(** *** Results *)

(** What the function does on a two-element input, case by case. *)
Lemma dedup_pair (d1 d2 : detection) (t : Q) :
  remove_duplicate_detections [d1; d2] t =
  if String.eqb (class_name d2) (class_name d1) && distance_lt d2 d1 t
  then (if Qltb (confidence d1) (confidence d2) then [d2] else [d1])
  else [d1; d2].
Proof.
  unfold remove_duplicate_detections. simpl.
  unfold dedup_step at 2. simpl.
  unfold dedup_step. simpl.
  destruct (String.eqb (class_name d2) (class_name d1)); simpl; [|reflexivity].
  destruct (distance_lt d2 d1 t); simpl; [|reflexivity].
  destruct (Qltb (confidence d1) (confidence d2)); [|reflexivity].
  now rewrite detection_eqb_refl.
Qed.

(** The scan stops at the first accepted detection of the class that is
    within the threshold. *)
Lemma scan_existing_first_match (det d1 : detection) (t : Q)
      (before after unique : list detection) :
  (forall e, In e before ->
             String.eqb (class_name det) (class_name e) && distance_lt det e t
             = false) ->
  class_name d1 = class_name det ->
  distance_lt det d1 t = true ->
  scan_existing det (before ++ d1 :: after) unique t
  = Some (if Qltb (confidence d1) (confidence det)
          then list_remove d1 unique ++ [det]
          else unique).
Proof.
  intros Hbefore Hc Hd.
  induction before as [|e rest IH]; simpl.
  - now rewrite Hc, String.eqb_refl, Hd.
  - assert (He := Hbefore e (or_introl eq_refl)).
    assert (Hrest : forall x, In x rest ->
              String.eqb (class_name det) (class_name x)
              && distance_lt det x t = false)
      by (intros x Hx; apply Hbefore; now right).
    destruct (String.eqb (class_name det) (class_name e)); simpl in He.
    + rewrite He. exact (IH Hrest).
    + exact (IH Hrest).
Qed.

(** A detection that ties with the accepted detection it duplicates
    leaves the accepted list as it is, at any position of the list. *)
Lemma scan_existing_tie (det : detection) (unique : list detection) (t : Q)
      (u : list detection) :
  scan_existing det unique unique t = Some u ->
  (forall e, In e unique -> ~ confidence e < confidence det) ->
  u = unique.
Proof.
  intros Hscan Hno.
  assert (G : forall todo, incl todo unique ->
              scan_existing det todo unique t = Some u -> u = unique).
  { induction todo as [|e rest IH]; simpl; intros Hin Hs; [discriminate|].
    assert (He : In e unique) by (apply Hin; now left).
    assert (Hrest : incl rest unique)
      by (intros x Hx; apply Hin; now right).
    destruct (String.eqb (class_name det) (class_name e)); [|now apply IH].
    destruct (distance_lt det e t); [|now apply IH].
    destruct (Qltb (confidence e) (confidence det)) eqn:E.
    - apply Qltb_lt in E. exfalso. exact (Hno e He E).
    - now inversion Hs. }
  apply (G unique); [apply incl_refl|exact Hscan].
Qed.

(** A detection that meets a tie first changes nothing in the run. *)
Lemma dedup_step_tie (d1 d2 : detection) (t : Q)
      (before after : list detection) :
  (forall e, In e before ->
             String.eqb (class_name d2) (class_name e) && distance_lt d2 e t
             = false) ->
  class_name d1 = class_name d2 ->
  distance_lt d2 d1 t = true ->
  confidence d1 == confidence d2 ->
  dedup_step t (before ++ d1 :: after) d2 = before ++ d1 :: after.
Proof.
  intros Hb Hc Hd Heq. unfold dedup_step.
  rewrite (scan_existing_first_match d2 d1 t before after _ Hb Hc Hd).
  assert (E : Qltb (confidence d1) (confidence d2) = false).
  { apply Qltb_ge. rewrite Heq. apply Qle_refl. }
  now rewrite E.
Qed.

(** C5, as the code has it.  For an input of exactly two detections of
    the same class, what decides is the distance between the box centers
    as the code computes it, on floats and with [pow]: when that distance
    is strictly below 0.1, exactly one detection is returned, and it is
    the one with the higher confidence; when it is not, both are returned.
    When the class names differ, both are returned in their order, wherever
    their centers are. *)
Theorem dedup_two_detections (d1 d2 : detection) :
  (class_name d1 = class_name d2 ->
   distance_lt d2 d1 distance_threshold_default = true ->
   (remove_duplicate_detections [d1; d2] distance_threshold_default = [d1]
    \/ remove_duplicate_detections [d1; d2] distance_threshold_default = [d2])
   /\ (confidence d2 < confidence d1 ->
       remove_duplicate_detections [d1; d2] distance_threshold_default = [d1])
   /\ (confidence d1 < confidence d2 ->
       remove_duplicate_detections [d1; d2] distance_threshold_default = [d2]))
  /\ (distance_lt d2 d1 distance_threshold_default = false ->
      remove_duplicate_detections [d1; d2] distance_threshold_default
      = [d1; d2])
  /\ (class_name d1 <> class_name d2 ->
      remove_duplicate_detections [d1; d2] distance_threshold_default
      = [d1; d2]).
Proof.
  split; [|split].
  - intros Hc Hd. rewrite dedup_pair.
    rewrite Hc, String.eqb_refl, Hd. cbn [andb].
    destruct (Qltb (confidence d1) (confidence d2)) eqn:E.
    + apply Qltb_lt in E. repeat split; auto.
      intro H. exfalso. apply (Qlt_irrefl (confidence d1)).
      eapply Qlt_trans; eassumption.
    + apply Qltb_ge in E. repeat split; auto.
      intro H. exfalso. exact (Qlt_not_le _ _ H E).
  - intros Hd. rewrite dedup_pair, Hd, andb_false_r. reflexivity.
  - intro Hne. rewrite dedup_pair.
    destruct (String.eqb (class_name d2) (class_name d1)) eqn:E.
    + apply String.eqb_eq in E. congruence.
    + reflexivity.
Qed.

(** C10, as the code has it.  A detection that ties with an accepted
    detection of its class, and whose computed distance to it is below the
    threshold, is dropped and the accepted one stays, the replacement test
    being a strict comparison, provided the accepted one is the first of
    its class within the threshold that the scan meets: the run goes on as
    if the later detection were absent.  In particular, on an input of
    exactly the two detections the earlier one alone is returned. *)
Theorem dedup_tie_keeps_earlier (d1 d2 : detection) :
  class_name d1 = class_name d2 ->
  distance_lt d2 d1 distance_threshold_default = true ->
  confidence d1 == confidence d2 ->
  remove_duplicate_detections [d1; d2] distance_threshold_default = [d1]
  /\ forall pre post before after : list detection,
       fold_left (dedup_step distance_threshold_default) pre []
       = before ++ d1 :: after ->
       (forall e, In e before ->
                  String.eqb (class_name d2) (class_name e)
                  && distance_lt d2 e distance_threshold_default = false) ->
       fold_left (dedup_step distance_threshold_default) (pre ++ [d2]) []
       = before ++ d1 :: after
       /\ remove_duplicate_detections (pre ++ d2 :: post)
                                      distance_threshold_default
          = remove_duplicate_detections (pre ++ post)
                                        distance_threshold_default.
Proof.
  intros Hc Hd Heq. split.
  - rewrite dedup_pair, Hc, String.eqb_refl, Hd. cbn [andb].
    assert (E : Qltb (confidence d1) (confidence d2) = false).
    { apply Qltb_ge. rewrite Heq. apply Qle_refl. }
    now rewrite E.
  - intros pre post before after Hpre Hbefore.
    assert (Hstep : fold_left (dedup_step distance_threshold_default)
                              (pre ++ [d2]) []
                    = before ++ d1 :: after).
    { rewrite fold_left_app, Hpre. cbn [fold_left].
      now apply dedup_step_tie. }
    split; [exact Hstep|].
    assert (Hfold : fold_left (dedup_step distance_threshold_default)
                              (pre ++ d2 :: post) []
                    = fold_left (dedup_step distance_threshold_default)
                                (pre ++ post) []).
    { change (d2 :: post) with ([d2] ++ post).
      rewrite app_assoc, (fold_left_app _ (pre ++ [d2])), Hstep, <- Hpre.
      now rewrite <- fold_left_app. }
    unfold remove_duplicate_detections.
    destruct pre as [|p pre'].
    + simpl in Hpre. destruct before; discriminate.
    + simpl app in *. exact Hfold.
Qed.

End Deduplicator.

(** *** The Euclidean distance, for comparison

    What [distance] would be without rounding: the distance between the
    centers of the boxes, in the reals. *)

Definition center_distance_sq (d e : detection) : Q :=
  let cx1 := box_x (det_bbox d) + box_w (det_bbox d) / 2 in
  let cy1 := box_y (det_bbox d) + box_h (det_bbox d) / 2 in
  let cx2 := box_x (det_bbox e) + box_w (det_bbox e) / 2 in
  let cy2 := box_y (det_bbox e) + box_h (det_bbox e) / 2 in
  (cx1 - cx2) * (cx1 - cx2) + (cy1 - cy2) * (cy1 - cy2).

Definition center_distance (d e : detection) : R :=
  R_sqrt.sqrt (Q2R (center_distance_sq d e)).

(** The detection whose coordinates are written as the exact values of
    the floats that the coordinates of [d] stand for. *)
Definition rounded (d : detection) : detection :=
  let b := det_bbox d in
  let r := fun q => PyFloat.value (PyFloat.nearest q) in
  mk_detection (class_name d) (confidence d)
               (mk_bbox (r (box_x b)) (r (box_y b)) (r (box_w b)) (r (box_h b)))
               (safety_category d) (potential_hazard d) (model_used d)
               (detection_id d).

Lemma center_distance_sq_nonneg (d e : detection) :
  0 <= center_distance_sq d e.
Proof.
  unfold center_distance_sq.
  set (a := box_x (det_bbox d) + box_w (det_bbox d) / 2
            - (box_x (det_bbox e) + box_w (det_bbox e) / 2)).
  set (b := box_y (det_bbox d) + box_h (det_bbox d) / 2
            - (box_y (det_bbox e) + box_h (det_bbox e) / 2)).
  assert (Ha : 0 <= a * a) by (destruct (Qlt_le_dec a 0); nra).
  assert (Hb : 0 <= b * b) by (destruct (Qlt_le_dec b 0); nra).
  lra.
Qed.

(** How a Euclidean distance below a positive bound is checked on given
    detections: on the squares. *)
Lemma center_distance_below (d e : detection) (t : Q) :
  0 < t -> center_distance_sq d e < t * t ->
  (center_distance d e < Q2R t)%R.
Proof.
  intros Ht Hlt. unfold center_distance.
  pose proof (center_distance_sq_nonneg d e) as Hd.
  apply Qle_Rle in Hd. rewrite RMicromega.Q2R_0 in Hd.
  apply Qlt_Rlt in Ht, Hlt. rewrite RMicromega.Q2R_0 in Ht.
  rewrite Q2R_mult in Hlt.
  rewrite <- (sqrt_square (Q2R t)) by Lra.lra.
  apply sqrt_lt_1_alt. Lra.lra.
Qed.

(** A [pow] that rounds correctly at the two exponents of [distance]: the
    rounded product at 2 and the rounded square root at 0.5. *)
Definition rounded_pow (x y : float) : float :=
  if PrimFloat.eqb y 2 then (x * x)%float
  else if PrimFloat.eqb y 0.5 then PrimFloat.sqrt x
  else nan.

(** A float and its two neighbours. *)
Definition around (v : float) : list float := [next_down v; v; next_up v].

(** A [pow] whose error at the two exponents is below one unit in the last
    place, as the C libraries in use promise: the result is the correctly
    rounded one or a neighbour of it. *)
Definition accurate (pow : float -> float -> float) : Prop :=
  forall x : float,
    In (pow x 2%float) (around (x * x)%float)
    /\ In (pow x 0.5%float) (around (PrimFloat.sqrt x)).

(** The values that [distance] can take with an accurate [pow]. *)
Definition possible_distances (detection existing : detection) : list float :=
  let center1 := center (det_bbox detection) in
  let center2 := center (det_bbox existing) in
  let dx := (fst center1 - fst center2)%float in
  let dy := (snd center1 - snd center2)%float in
  flat_map (fun sx =>
              flat_map (fun sy => around (PrimFloat.sqrt (sx + sy)%float))
                       (around (dy * dy)%float))
           (around (dx * dx)%float).

Lemma rounded_pow_accurate : accurate rounded_pow.
Proof.
  intros x. unfold rounded_pow, around.
  assert (E2 : PrimFloat.eqb 2 2 = true) by reflexivity.
  assert (E5 : PrimFloat.eqb 0.5 2 = false) by reflexivity.
  assert (E0 : PrimFloat.eqb 0.5 0.5 = true) by reflexivity.
  rewrite E2, E5, E0. split; right; left; reflexivity.
Qed.

Lemma distance_possible (pow : float -> float -> float)
      (detection existing : detection) :
  accurate pow ->
  In (distance pow detection existing)
     (possible_distances detection existing).
Proof.
  intros Hpow. unfold distance, possible_distances. cbv zeta.
  set (dx := (fst (center (det_bbox detection))
              - fst (center (det_bbox existing)))%float).
  set (dy := (snd (center (det_bbox detection))
              - snd (center (det_bbox existing)))%float).
  apply in_flat_map. exists (pow dx 2%float).
  split; [exact (proj1 (Hpow dx))|].
  apply in_flat_map. exists (pow dy 2%float).
  split; [exact (proj1 (Hpow dy))|].
  exact (proj2 (Hpow (pow dx 2 + pow dy 2)%float)).
Qed.

(** A verdict of the distance test that all possible distances agree on
    is the verdict with every accurate [pow]. *)
Lemma distance_lt_settled (pow : float -> float -> float)
      (detection existing : detection) (t : Q) (verdict : bool) :
  accurate pow ->
  forallb (fun r => Bool.eqb (PrimFloat.ltb r (PyFloat.nearest t)) verdict)
          (possible_distances detection existing) = true ->
  distance_lt pow detection existing t = verdict.
Proof.
  intros Hpow Hall. rewrite forallb_forall in Hall.
  apply Bool.eqb_prop. apply Hall. now apply distance_possible.
Qed.

Definition chair_a : detection :=
  mk_detection "chair" (6 # 10) (mk_bbox (40 # 100) (40 # 100) (2 # 10) (2 # 10))
               "equipment" false "nano" "chair_0.400_0.400".
Definition chair_b : detection :=
  mk_detection "chair" (8 # 10) (mk_bbox (42 # 100) (41 # 100) (2 # 10) (2 # 10))
               "equipment" false "small" "chair_0.420_0.410".
Definition table_a : detection :=
  mk_detection "dining table" (5 # 10)
               (mk_bbox (40 # 100) (40 # 100) (2 # 10) (2 # 10))
               "equipment" true "nano" "dining table_0.400_0.400".
Definition chair_c : detection :=
  mk_detection "chair" (6 # 10) (mk_bbox (45 # 100) (40 # 100) (2 # 10) (2 # 10))
               "equipment" false "medium" "chair_0.450_0.400".

Example distance_of_chairs :
  distance rounded_pow chair_c chair_a = 0.050000000000000044%float
  /\ distance_lt rounded_pow chair_c chair_a distance_threshold_default = true.
Proof. split; vm_compute; reflexivity. Qed.

Lemma dedup_two_detections_witness :
  remove_duplicate_detections rounded_pow [chair_a; chair_b]
                              distance_threshold_default
  = [chair_b]
  /\ remove_duplicate_detections rounded_pow [chair_a; table_a]
                                 distance_threshold_default
     = [chair_a; table_a].
Proof.
  split.
  - apply (proj1 (dedup_two_detections rounded_pow chair_a chair_b));
      [reflexivity|vm_compute; reflexivity|reflexivity].
  - apply (proj2 (proj2 (dedup_two_detections rounded_pow chair_a table_a))).
    discriminate.
Defined.

(** Two chairs side by side.  The centers of their boxes are at 0.428 and
    at 0.52799999999999996, less than 0.1 apart; the code computes the
    second center as 0.528 and the difference of the centers as
    0.10000000000000003. *)
Definition chair_left : detection :=
  mk_detection "chair" (6 # 10)
               (mk_bbox (301 # 1000) (4 # 10) (254 # 1000) (2 # 10))
               "equipment" false "nano" "chair_0.301_0.400".
Definition chair_right : detection :=
  mk_detection "chair" (8 # 10)
               (mk_bbox (39699999999999996 # 100000000000000000) (4 # 10)
                        (262 # 1000) (2 # 10))
               "equipment" false "small" "chair_0.397_0.400".

(** C5, as stated, fails at the threshold: two detections of one class
    whose centers are at a Euclidean distance strictly below 0.1, whether
    the coordinates are read as the decimals written or as the floats
    nearest to them, are both returned, because the distance that the code
    computes is rounded to a value above 0.1.  This is so with a [pow]
    that rounds correctly and with every accurate [pow]. *)
Lemma dedup_keeps_both_below_threshold :
  class_name chair_left = class_name chair_right
  /\ (center_distance chair_left chair_right
      < Q2R distance_threshold_default)%R
  /\ (center_distance (rounded chair_left) (rounded chair_right)
      < Q2R distance_threshold_default)%R
  /\ distance rounded_pow chair_right chair_left = 0.10000000000000003%float
  /\ remove_duplicate_detections rounded_pow [chair_left; chair_right]
                                 distance_threshold_default
     = [chair_left; chair_right]
  /\ (forall pow, accurate pow ->
        remove_duplicate_detections pow [chair_left; chair_right]
                                    distance_threshold_default
        = [chair_left; chair_right]).
Proof.
  split; [reflexivity|]. split; [|split; [|split; [|split]]].
  - apply center_distance_below; vm_compute; reflexivity.
  - apply center_distance_below; vm_compute; reflexivity.
  - vm_compute. reflexivity.
  - vm_compute. reflexivity.
  - intros pow Hpow. rewrite dedup_pair.
    rewrite (distance_lt_settled pow chair_right chair_left
               distance_threshold_default false Hpow)
      by (vm_compute; reflexivity).
    now rewrite andb_false_r.
Qed.

Lemma dedup_tie_keeps_earlier_witness :
  remove_duplicate_detections rounded_pow [chair_a; chair_c]
                              distance_threshold_default
  = [chair_a].
Proof.
  apply (dedup_tie_keeps_earlier rounded_pow chair_a chair_c);
    [reflexivity|vm_compute; reflexivity|reflexivity].
Defined.

(** Three chairs in a row: the third is within the threshold of both
    others, the first two are further apart.  The second and the third
    have the same confidence, the first a lower one. *)
Definition chair_first : detection :=
  mk_detection "chair" (5 # 10) (mk_bbox (30 # 100) (40 # 100) (2 # 10) (2 # 10))
               "equipment" false "nano" "chair_0.300_0.400".
Definition chair_second : detection :=
  mk_detection "chair" (6 # 10) (mk_bbox (45 # 100) (40 # 100) (2 # 10) (2 # 10))
               "equipment" false "nano" "chair_0.450_0.400".
Definition chair_third : detection :=
  mk_detection "chair" (6 # 10) (mk_bbox (38 # 100) (40 # 100) (2 # 10) (2 # 10))
               "equipment" false "small" "chair_0.380_0.400".

(** C10, as stated, fails when the two detections are not alone: the
    later of two tied detections of one class within the threshold
    replaces a third, less confident detection, which the scan meets
    first, and is never compared with the earlier one.  Both tied
    detections are returned, with a [pow] that rounds correctly and with
    every accurate [pow]. *)
Lemma dedup_tie_both_survive :
  class_name chair_second = class_name chair_third
  /\ confidence chair_second == confidence chair_third
  /\ distance_lt rounded_pow chair_third chair_second
                 distance_threshold_default = true
  /\ (center_distance chair_second chair_third
      < Q2R distance_threshold_default)%R
  /\ remove_duplicate_detections rounded_pow
       [chair_first; chair_second; chair_third] distance_threshold_default
     = [chair_second; chair_third]
  /\ (forall pow, accurate pow ->
        distance_lt pow chair_third chair_second distance_threshold_default
        = true
        /\ remove_duplicate_detections pow
             [chair_first; chair_second; chair_third]
             distance_threshold_default
           = [chair_second; chair_third]).
Proof.
  split; [reflexivity|]. split; [reflexivity|]. split; [|split; [|split]].
  - vm_compute. reflexivity.
  - apply center_distance_below; vm_compute; reflexivity.
  - vm_compute. reflexivity.
  - intros pow Hpow.
    assert (H21 : distance_lt pow chair_second chair_first
                              distance_threshold_default = false)
      by (apply distance_lt_settled; [exact Hpow|vm_compute; reflexivity]).
    assert (H31 : distance_lt pow chair_third chair_first
                              distance_threshold_default = true)
      by (apply distance_lt_settled; [exact Hpow|vm_compute; reflexivity]).
    assert (H32 : distance_lt pow chair_third chair_second
                              distance_threshold_default = true)
      by (apply distance_lt_settled; [exact Hpow|vm_compute; reflexivity]).
    split; [exact H32|].
    unfold remove_duplicate_detections. cbn [fold_left].
    unfold dedup_step at 3. cbn [scan_existing app].
    unfold dedup_step at 2. cbn [scan_existing].
    change (String.eqb (class_name chair_second) (class_name chair_first))
      with true.
    cbv iota. rewrite H21. cbn [app].
    unfold dedup_step. cbn [scan_existing].
    change (String.eqb (class_name chair_third) (class_name chair_first))
      with true.
    cbv iota. rewrite H31.
    change (Qltb (confidence chair_first) (confidence chair_third)) with true.
    cbv iota.
    change (list_remove chair_first [chair_first; chair_second])
      with [chair_second].
    reflexivity.
Qed.

End DetectionDeduplicator.

(** ** Text formatting of numbers *)

Module PyFormat.
Import PyStr.
Local Open Scope string_scope.

(** [str(n)] for a non-negative integer *)
Definition str_of_N (n : N) : string :=
  DecimalString.NilZero.string_of_uint (N.to_uint n).

Definition str_of_nat (n : nat) : string := str_of_N (N.of_nat n).

(** Nearest integer to [num / den] for [0 <= num] and [0 < den], ties to
    the even neighbour. *)
Definition round_half_even (num den : Z) : Z :=
  let fl := (num / den)%Z in
  let r := (num mod den)%Z in
  match (2 * r ?= den)%Z with
  | Lt => fl
  | Gt => (fl + 1)%Z
  | Eq => if Z.even fl then fl else (fl + 1)%Z
  end.

(** The format specification [:.2f]: sign, integer part, a point and the
    hundredths on two digits.  What is rounded to the nearest hundredth is
    the exact value of the float that [q] stands for. *)
Definition format_2f (q : Q) : string :=
  let q := PyFloat.value (PyFloat.nearest q) in
  let hundredths :=
    round_half_even (Z.abs (Qnum q) * 100) (Zpos (Qden q)) in
  let body :=
    str_of_N (Z.to_N (hundredths / 100)) ++ "."
    ++ (if (hundredths mod 100 <? 10)%Z then "0" else "")
    ++ str_of_N (Z.to_N (hundredths mod 100)) in
  if (Qnum q <? 0)%Z then "-" ++ body else body.

Example format_half : format_2f (1 # 2) = "0.50".
Proof. reflexivity. Qed.

Example format_eighth : format_2f (1 # 8) = "0.12".
Proof. reflexivity. Qed.

Example format_one : format_2f 1 = "1.00".
Proof. reflexivity. Qed.

Example format_small : format_2f (7 # 1000) = "0.01".
Proof. reflexivity. Qed.

(** The float nearest to 0.295 is below it, the one nearest to 0.265 is
    above it. *)
Example format_near_ties :
  format_2f (295 # 1000) = "0.29" /\ format_2f (265 # 1000) = "0.27".
Proof. split; vm_compute; reflexivity. Qed.

Example str_of_nat_12 : str_of_nat 12 = "12".
Proof. reflexivity. Qed.

Example str_of_nat_0 : str_of_nat 0 = "0".
Proof. reflexivity. Qed.

End PyFormat.

(** ** MitigationSynthesizer *)

Module MitigationSynthesizer.
Import PyStr PyFormat.
Local Open Scope string_scope.

Record mitigation : Type := mk_mitigation {
  m_type : string;
  m_severity : string;
  m_urgency : string;
  m_description : string;
  m_specific_risks : list string;
  m_mitigation_steps : list string;
  m_timeline : string;
  m_responsible_party : string;
  m_estimated_cost : string;
  m_emergency_impact : string;
  m_compliance : option string
}.

(** The [ai_analysis] argument: the two flags read with [.get]. *)
Record ai_flags : Type := mk_ai_flags {
  incorrectParking : bool;
  wasteMaterial : bool
}.

(** The dictionary [object_categories], one list per key. *)
Record object_categories : Type := mk_categories {
  vehicles : list detection;
  furniture : list detection;
  personal_items : list detection;
  containers : list detection;
  trip_hazards : list detection;
  equipment : list detection;
  people : list detection;
  other_hazards : list detection
}.

Definition empty_categories : object_categories :=
  mk_categories [] [] [] [] [] [] [] [].

(** The body of the categorising loop for one detected object. *)
Definition categorize (cats : object_categories) (obj : detection)
  : object_categories :=
  if potential_hazard obj then
    let category := safety_category obj in
    let cl := lower (class_name obj) in
    if String.eqb category "vehicle"
       || any_in ["car"; "truck"; "bus"; "motorcycle"; "bicycle"] cl
    then mk_categories (vehicles cats ++ [obj]) (furniture cats)
           (personal_items cats) (containers cats) (trip_hazards cats)
           (equipment cats) (people cats) (other_hazards cats)
    else if String.eqb category "person" || contains "person" cl
    then mk_categories (vehicles cats) (furniture cats)
           (personal_items cats) (containers cats) (trip_hazards cats)
           (equipment cats) (people cats ++ [obj]) (other_hazards cats)
    else if any_in ["chair"; "table"; "bench"; "desk"; "cabinet"] cl
    then mk_categories (vehicles cats) (furniture cats ++ [obj])
           (personal_items cats) (containers cats) (trip_hazards cats)
           (equipment cats) (people cats) (other_hazards cats)
    else if any_in ["bag"; "suitcase"; "backpack"; "luggage"] cl
    then mk_categories (vehicles cats) (furniture cats)
           (personal_items cats ++ [obj]) (containers cats)
           (trip_hazards cats) (equipment cats) (people cats)
           (other_hazards cats)
    else if any_in ["box"; "container"; "barrel"; "bucket"] cl
    then mk_categories (vehicles cats) (furniture cats)
           (personal_items cats) (containers cats ++ [obj])
           (trip_hazards cats) (equipment cats) (people cats)
           (other_hazards cats)
    else if any_in ["bottle"; "cup"; "ball"; "book"; "phone"] cl
    then mk_categories (vehicles cats) (furniture cats)
           (personal_items cats) (containers cats)
           (trip_hazards cats ++ [obj]) (equipment cats) (people cats)
           (other_hazards cats)
    else if any_in ["monitor"; "computer"; "printer"; "machine"] cl
    then mk_categories (vehicles cats) (furniture cats)
           (personal_items cats) (containers cats) (trip_hazards cats)
           (equipment cats ++ [obj]) (people cats) (other_hazards cats)
    else mk_categories (vehicles cats) (furniture cats)
           (personal_items cats) (containers cats) (trip_hazards cats)
           (equipment cats) (people cats) (other_hazards cats ++ [obj])
  else cats.

Definition categorize_all (detected_objects : list detection)
  : object_categories :=
  fold_left categorize detected_objects empty_categories.

Definition nonempty {A : Type} (l : list A) : bool :=
  match l with [] => false | _ => true end.

(** [any(object_categories.values())] *)
Definition any_category (cats : object_categories) : bool :=
  nonempty (vehicles cats) || nonempty (furniture cats)
  || nonempty (personal_items cats) || nonempty (containers cats)
  || nonempty (trip_hazards cats) || nonempty (equipment cats)
  || nonempty (people cats) || nonempty (other_hazards cats).

(** [f"{obj['class_name']} (conf: {obj['confidence']:.2f})"] for each
    member, joined with a comma and a blank. *)
Definition details (members : list detection) : string :=
  join ", "
    (map (fun obj =>
            class_name obj ++ " (conf: " ++ format_2f (confidence obj) ++ ")")
         members).

Definition count (members : list detection) : string :=
  str_of_nat (List.length members).

Definition vehicle_record (members : list detection) : mitigation :=
  mk_mitigation
    "vehicle_parking_violation" "critical" "immediate"
    ("Detected " ++ count members ++ " vehicle(s): " ++ details members)
    ["Blocks emergency vehicle access";
     "Prevents fire brigade movement";
     "Obstructs evacuation routes";
     "Creates fire safety violations"]
    ["IMMEDIATE: Contact vehicle owners for immediate removal";
     "IMMEDIATE: Deploy traffic cones to mark violation area";
     "SHORT-TERM: Install permanent 'No Parking' signage";
     "SHORT-TERM: Paint red lines on pavement";
     "LONG-TERM: Install physical barriers (bollards)";
     "LONG-TERM: Implement automated monitoring system"]
    "Immediate action required within 30 minutes"
    "Security/Facilities Management"
    "Low ($100-500 for signage) to Medium ($2000-5000 for barriers)"
    "Critical - directly blocks emergency vehicle access"
    (Some "Fire safety code violation - immediate remediation required").

Definition furniture_record (members : list detection) : mitigation :=
  mk_mitigation
    "furniture_obstruction" "high" "short-term"
    ("Detected " ++ count members ++ " furniture item(s): " ++ details members)
    ["Reduces pathway width below minimum requirements";
     "Impedes emergency evacuation flow";
     "Creates bottlenecks during emergencies"]
    ["IMMEDIATE: Relocate furniture to designated areas";
     "SHORT-TERM: Mark minimum pathway widths with tape";
     "MEDIUM-TERM: Designate specific furniture zones";
     "LONG-TERM: Implement 5S workplace organization"]
    "Complete within 24 hours"
    "Warehouse Operations/Maintenance"
    "Low ($50-200 for marking materials)"
    "High - significantly impedes evacuation flow"
    None.

Definition container_record (members : list detection) : mitigation :=
  mk_mitigation
    "container_storage_violation" "medium" "short-term"
    ("Detected " ++ count members ++ " container(s): " ++ details members)
    ["Creates pathway obstacles";
     "Potential for contents to spill";
     "May fall and cause injuries"]
    ["IMMEDIATE: Move containers to designated storage areas";
     "SHORT-TERM: Secure containers properly";
     "MEDIUM-TERM: Install proper shelving systems";
     "LONG-TERM: Implement container management protocols"]
    "Complete within 2-3 days"
    "Warehouse Staff/Supervisors"
    "Medium ($500-2000 for storage solutions)"
    "Medium - creates obstacles but pathways remain navigable"
    None.

Definition trip_record (members : list detection) : mitigation :=
  mk_mitigation
    "trip_hazard_elimination" "medium" "immediate"
    ("Detected " ++ count members ++ " trip hazard(s): " ++ details members)
    ["Causes falls and injuries";
     "Slows emergency evacuation";
     "Creates liability issues"]
    ["IMMEDIATE: Remove or secure loose objects";
     "IMMEDIATE: Clean up spills and debris";
     "SHORT-TERM: Install adequate trash receptacles";
     "MEDIUM-TERM: Implement regular cleaning schedule";
     "LONG-TERM: Staff training on housekeeping protocols"]
    "Immediate removal within 1 hour"
    "Cleaning/Maintenance Staff"
    "Low ($20-100 for cleaning supplies)"
    "Medium - may cause delays during evacuation"
    None.

Definition personal_record (members : list detection) : mitigation :=
  mk_mitigation
    "personal_belongings_management" "low" "short-term"
    ("Detected " ++ count members ++ " personal item(s): " ++ details members)
    ["Creates pathway clutter";
     "May contain valuable items (security risk)";
     "Indicates lack of proper storage protocols"]
    ["IMMEDIATE: Relocate to designated personal storage areas";
     "SHORT-TERM: Install personal lockers if needed";
     "MEDIUM-TERM: Implement clear desk/area policies";
     "LONG-TERM: Staff training on personal item management"]
    "Complete within 1 week"
    "HR/Facilities Management"
    "Medium ($200-1000 for storage solutions)"
    "Low - minimal impact on emergency procedures"
    None.

Definition people_record (members : list detection) : mitigation :=
  mk_mitigation
    "personnel_safety_training" "medium" "short-term"
    ("Detected " ++ count members ++ " person(s) in area")
    ["Personnel may not be aware of emergency procedures";
     "Potential for panic during emergencies";
     "May inadvertently block evacuation routes"]
    ["IMMEDIATE: Conduct emergency procedure briefing";
     "SHORT-TERM: Post emergency evacuation maps";
     "MEDIUM-TERM: Conduct emergency evacuation drills";
     "LONG-TERM: Implement regular safety training program"]
    "Initial briefing within 24 hours, full training within 1 month"
    "Safety Officer/HR Department"
    "Low ($100-500 for training materials)"
    "Variable - depends on personnel emergency preparedness"
    None.

Definition ai_parking_record : mitigation :=
  mk_mitigation
    "ai_detected_parking_violation" "critical" "immediate"
    "AI visual analysis detected parking violations affecting emergency access"
    ["Confirmed visual obstruction of emergency routes";
     "Fire code compliance violation";
     "Insurance liability issues"]
    ["IMMEDIATE: Document violation with photos";
     "IMMEDIATE: Contact vehicle owners";
     "SHORT-TERM: Install physical barriers";
     "LONG-TERM: Implement automated monitoring"]
    "Immediate action required"
    "Security/Management"
    "Medium ($1000-3000 for comprehensive solution)"
    "Critical - confirmed emergency access obstruction"
    None.

Definition ai_waste_record : mitigation :=
  mk_mitigation
    "ai_detected_waste_debris" "medium" "immediate"
    "AI visual analysis detected waste or debris in pathways"
    ["Confirmed pathway obstruction";
     "Slip and trip hazards";
     "Fire fuel load concerns"]
    ["IMMEDIATE: Remove waste and debris";
     "SHORT-TERM: Increase cleaning frequency";
     "MEDIUM-TERM: Install additional waste receptacles";
     "LONG-TERM: Implement waste management protocols"]
    "Complete cleaning within 2 hours"
    "Cleaning/Maintenance Staff"
    "Low ($50-200 for enhanced cleaning)"
    "Medium - creates evacuation hazards"
    None.

Definition preventive_record : mitigation :=
  mk_mitigation
    "preventive_maintenance" "low" "long-term"
    "No immediate hazards detected - implement preventive measures"
    ["Future hazard development";
     "Gradual safety standard degradation"]
    ["ONGOING: Maintain regular safety inspections";
     "MONTHLY: Review and update safety protocols";
     "QUARTERLY: Conduct comprehensive safety audits";
     "ANNUALLY: Update emergency response procedures"]
    "Ongoing preventive program"
    "Safety Committee"
    "Low ($100-300 monthly for ongoing programs)"
    "Preventive - maintains safety standards"
    None.

(** [if members: mitigations.append(record)] *)
Definition emit_if {A : Type} (members : list A) (r : list A -> mitigation)
  : list mitigation :=
  match members with [] => [] | _ => [r members] end.

Definition emit_flag (flag : bool) (r : mitigation) : list mitigation :=
  if flag then [r] else [].

(** [generate_mitigation_strategies(detected_objects, ai_analysis)]: the
    appends, in the order of the source. *)
Definition generate_mitigation_strategies
           (detected_objects : list detection) (ai_analysis : ai_flags)
  : list mitigation :=
  let cats := categorize_all detected_objects in
  emit_if (vehicles cats) vehicle_record
  ++ emit_if (furniture cats) furniture_record
  ++ emit_if (containers cats) container_record
  ++ emit_if (trip_hazards cats) trip_record
  ++ emit_if (personal_items cats) personal_record
  ++ emit_if (people cats) people_record
  ++ emit_flag (incorrectParking ai_analysis) ai_parking_record
  ++ emit_flag (wasteMaterial ai_analysis) ai_waste_record
  ++ emit_flag (negb (any_category cats)
                && negb (incorrectParking ai_analysis)
                && negb (wasteMaterial ai_analysis))
               preventive_record.

(** *** Results *)

Local Open Scope nat_scope.

Definition count_type (t : string) (ms : list mitigation) : nat :=
  List.length (filter (fun m => String.eqb (m_type m) t) ms).

Definition bit (b : bool) : nat := if b then 1 else 0.

Lemma count_type_app (t : string) (a b : list mitigation) :
  count_type t (a ++ b) = count_type t a + count_type t b.
Proof. unfold count_type. now rewrite filter_app, length_app. Qed.

Lemma count_type_emit_if (t : string) (members : list detection)
      (r : list detection -> mitigation) :
  count_type t (emit_if members r)
  = bit (nonempty members) * bit (String.eqb (m_type (r members)) t).
Proof.
  destruct members as [|x l]; [reflexivity|].
  unfold emit_if, count_type. simpl.
  now destruct (String.eqb (m_type (r (x :: l))) t).
Qed.

Lemma count_type_emit_flag (t : string) (flag : bool) (r : mitigation) :
  count_type t (emit_flag flag r)
  = bit flag * bit (String.eqb (m_type r) t).
Proof.
  destruct flag; [|reflexivity].
  unfold emit_flag, count_type. simpl.
  now destruct (String.eqb (m_type r) t).
Qed.

Ltac count_pieces :=
  unfold generate_mitigation_strategies;
  rewrite !count_type_app, !count_type_emit_if, !count_type_emit_flag;
  cbn [m_type vehicle_record furniture_record container_record trip_record
       personal_record people_record ai_parking_record ai_waste_record
       preventive_record];
  repeat match goal with
         | |- context [String.eqb ?a ?b] =>
             let v := eval vm_compute in (String.eqb a b) in
             change (String.eqb a b) with v
         end;
  cbn [bit]; lia.

(** The records that the function does emit: one per non-empty bucket
    among vehicles, furniture, containers, trip hazards, personal items
    and people, and one per flag. *)
Lemma emitted_counts (objs : list detection) (flags : ai_flags) :
  let cats := categorize_all objs in
  let out := generate_mitigation_strategies objs flags in
  count_type "vehicle_parking_violation" out = bit (nonempty (vehicles cats))
  /\ count_type "furniture_obstruction" out = bit (nonempty (furniture cats))
  /\ count_type "container_storage_violation" out
     = bit (nonempty (containers cats))
  /\ count_type "trip_hazard_elimination" out
     = bit (nonempty (trip_hazards cats))
  /\ count_type "personal_belongings_management" out
     = bit (nonempty (personal_items cats))
  /\ count_type "personnel_safety_training" out = bit (nonempty (people cats))
  /\ count_type "ai_detected_parking_violation" out
     = bit (incorrectParking flags)
  /\ count_type "ai_detected_waste_debris" out = bit (wasteMaterial flags).
Proof. cbv zeta. repeat split; count_pieces. Qed.

(** The fallback record is emitted exactly when all eight buckets are
    empty and both flags are false. *)
Lemma fallback_count (objs : list detection) (flags : ai_flags) :
  count_type "preventive_maintenance"
             (generate_mitigation_strategies objs flags)
  = bit (negb (any_category (categorize_all objs))
         && negb (incorrectParking flags) && negb (wasteMaterial flags)).
Proof. count_pieces. Qed.

Lemma in_emit_if (m : mitigation) (members : list detection)
      (r : list detection -> mitigation) :
  In m (emit_if members r) -> m = r members.
Proof.
  destruct members; simpl; [tauto|]. intros [H|[]]. now symmetry.
Qed.

Lemma in_emit_flag (m : mitigation) (flag : bool) (r : mitigation) :
  In m (emit_flag flag r) -> m = r /\ flag = true.
Proof.
  destruct flag; simpl; [|tauto]. intros [H|[]]. now split.
Qed.

Lemma no_category_all_empty (cats : object_categories) :
  any_category cats = false -> cats = empty_categories.
Proof.
  destruct cats as [v f p c t e pp o]. unfold any_category. simpl.
  destruct v; [|discriminate]. destruct f; [|discriminate].
  destruct p; [|discriminate]. destruct c; [|discriminate].
  destruct t; [|discriminate]. destruct e; [|discriminate].
  destruct pp; [|discriminate]. destruct o; [|discriminate].
  reflexivity.
Qed.

(** The fallback record never comes with another record. *)
Lemma fallback_alone (objs : list detection) (flags : ai_flags) :
  In preventive_record (generate_mitigation_strategies objs flags) ->
  generate_mitigation_strategies objs flags = [preventive_record].
Proof.
  unfold generate_mitigation_strategies.
  generalize (categorize_all objs). intros cats H.
  repeat (apply in_app_or in H; destruct H as [H|H];
          [first [apply in_emit_if in H | apply in_emit_flag in H as [H _]];
           apply (f_equal m_type) in H; discriminate H|]).
  apply in_emit_flag in H as [_ H].
  apply andb_true_iff in H as [H Hw]. apply andb_true_iff in H as [Hc Hp].
  apply negb_true_iff in Hc, Hp, Hw.
  rewrite (no_category_all_empty cats Hc), Hp, Hw. reflexivity.
Qed.

(** A couch in the pathway, as [detect_objects_with_yolo] records it. *)
Definition couch : detection :=
  mk_detection "couch" (8 # 10)
               (mk_bbox (4 # 10) (5 # 10) (2 # 10) (2 # 10))
               "other" true "nano" "couch_0.400_0.500".

Example couch_is_classified_other :
  HazardClassifier.classify_object_for_safety (class_name couch)
  = safety_category couch.
Proof. reflexivity. Qed.

Example couch_is_hazard :
  HazardClassifier.is_critical_safety_hazard
    (class_name couch) (confidence couch) (det_bbox couch)
    HazardClassifier.default_base_threshold
  = potential_hazard couch.
Proof. reflexivity. Qed.

Definition sewing_machine : detection :=
  mk_detection "sewing machine" (8 # 10)
               (mk_bbox (4 # 10) (5 # 10) (2 # 10) (2 # 10))
               "other" true "nano" "sewing machine_0.400_0.500".

(** C1.  The function is meant to emit one record for each non-empty
    bucket.  A hazard that lands in the bucket [other_hazards] (a couch)
    or in the bucket [equipment] (a machine) fills its bucket, and the
    function emits no record for it: with both flags false the output is
    empty, without a bucket record and without the fallback record. *)
Theorem other_and_equipment_buckets_emit_nothing :
  other_hazards (categorize_all [couch]) = [couch]
  /\ generate_mitigation_strategies [couch] (mk_ai_flags false false) = []
  /\ equipment (categorize_all [sewing_machine]) = [sewing_machine]
  /\ generate_mitigation_strategies [sewing_machine] (mk_ai_flags false false)
     = [].
Proof. repeat split; reflexivity. Qed.

End MitigationSynthesizer.

(** ** Exceptions *)

(** The exception classes that the handlers of the scripts tell apart; any
    other class derived from [Exception] is [OtherError]. *)
Inductive exn : Type :=
| TimeoutError (msg : string)        (* requests.exceptions.Timeout *)
| RequestError (msg : string)        (* requests.exceptions.RequestException *)
| JSONDecodeError (msg : string)     (* json.JSONDecodeError *)
| ValueError (msg : string)
| OtherError (msg : string).

(** The result of running a piece of code that may raise. *)
Inductive outcome (A : Type) : Type :=
| Ret (a : A)
| Raise (e : exn).

Arguments Ret {A} a.
Arguments Raise {A} e.

Definition bind {A B : Type} (m : outcome A) (k : A -> outcome B) : outcome B :=
  match m with
  | Ret a => k a
  | Raise e => Raise e
  end.

Notation "x <- m ;; k" := (bind m (fun x => k))
  (at level 61, m at next level, right associativity).

(** [str(e)] *)
Definition exn_message (e : exn) : string :=
  match e with
  | TimeoutError m | RequestError m | JSONDecodeError m
  | ValueError m | OtherError m => m
  end.

(** ** GridLocator *)

Module GridLocator.
Import PyStr.

(** The argument [grid_cells_string] is whatever the annotation service
    put under [gridCells]: [None], a string, or a value of another type,
    of which only the truth value matters before [.strip()] fails. *)
Inductive pyvalue : Type :=
| PyNone
| PyString (s : string)
| PyOther (truthy : bool).

Record fbox : Type := mk_fbox { fx : float; fy : float; fw : float; fh : float }.

Definition default_box : fbox :=
  mk_fbox 0.1%float 0.1%float 0.2%float 0.2%float.

Definition digit_value (c : ascii) : Z := Z.of_nat (code c - 48).

(** The digits of an integer literal: decimal digits, single underscores
    allowed between two digits. *)
Fixpoint parse_digits (s : string) (acc : Z) (after_digit : bool)
  : option Z :=
  match s with
  | EmptyString => if after_digit then Some acc else None
  | String c t =>
      if is_digit c then parse_digits t (acc * 10 + digit_value c)%Z true
      else if Ascii.eqb c "_" then
             (if after_digit then parse_digits t acc false else None)
      else None
  end.

(** The white space that [int] skips around the digits of an ASCII
    string: the blank, TAB, LF, VT, FF and CR.  The separators FS, GS, RS
    and US, which [str.strip] removes, are not among them. *)
Definition is_int_space (c : ascii) : bool :=
  ((9 <=? code c)%nat && (code c <=? 13)%nat) || (code c =? 32)%nat.

Fixpoint skip_int_space (s : string) : string :=
  match s with
  | EmptyString => EmptyString
  | String c t => if is_int_space c then skip_int_space t else s
  end.

(** Drops the trailing white space of [int]; [None] when there is nothing
    else. *)
Fixpoint drop_int_space (s : string) : option string :=
  match s with
  | EmptyString => None
  | String c t =>
      match drop_int_space t with
      | Some t' => Some (String c t')
      | None => if is_int_space c then None else Some (String c EmptyString)
      end
  end.

(** [int(s)] on a string: surrounding white space is dropped, one sign is
    accepted; [None] stands for [ValueError].  (The length limit on
    integer strings of recent interpreters is not modelled.) *)
Definition py_int (s : string) : option Z :=
  match drop_int_space (skip_int_space s) with
  | None => None
  | Some (String "+" t) => parse_digits t 0%Z false
  | Some (String "-" t) => option_map Z.opp (parse_digits t 0%Z false)
  | Some s' => parse_digits s' 0%Z false
  end.

Definition row_of_letter (c : ascii) : option Z :=
  if Ascii.eqb c "A" then Some 0%Z
  else if Ascii.eqb c "B" then Some 1%Z
  else if Ascii.eqb c "C" then Some 2%Z
  else None.

(** The body of the loop over [cells]: [Some (row, col)] when the cell is
    appended to [grid_positions]. *)
Definition parse_cell (cell : string) : option (Z * Z) :=
  let cell := strip (upper cell) in
  if (2 <=? String.length cell)%nat then
    match cell with
    | EmptyString => None
    | String row_letter col_number =>
        match py_int col_number with
        | None => None
        | Some n =>
            let col_index := (n - 1)%Z in
            match row_of_letter row_letter with
            | None => None
            | Some row_index =>
                if ((0 <=? col_index) && (col_index <=? 3)
                    && (0 <=? row_index) && (row_index <=? 2))%Z
                then Some (row_index, col_index)
                else None
            end
        end
    end
  else None.

Fixpoint collect_positions (cells : list string) : list (Z * Z) :=
  match cells with
  | [] => []
  | cell :: rest =>
      match parse_cell cell with
      | Some pos => pos :: collect_positions rest
      | None => collect_positions rest
      end
  end.

(** [[cell.strip() for cell in s.replace("-", ",").split(",")]] *)
Definition cells_of (s : string) : list string :=
  map strip (split_char "," (replace_char "-" "," s)).

Definition grid_positions_of (s : string) : list (Z * Z) :=
  collect_positions (cells_of s).

(** [min(...)] and [max(...)] over a non-empty sequence *)
Definition min_of (first : Z) (rest : list Z) : Z := fold_left Z.min rest first.
Definition max_of (first : Z) (rest : list Z) : Z := fold_left Z.max rest first.

Local Open Scope float_scope.

(** Conversion of a Python [int] to [float] in a product with a float. *)
Definition float_of_int (z : Z) : float :=
  if (z <? 0)%Z then - PrimFloat.of_uint63 (Uint63.of_Z (- z))
  else PrimFloat.of_uint63 (Uint63.of_Z z).

Definition fmax (a b : float) : float := if PrimFloat.ltb a b then b else a.
Definition fmin (a b : float) : float := if PrimFloat.ltb b a then b else a.

Definition cell_width : float := 1 / 4.
Definition cell_height : float := 1 / 3.

(** The arithmetic after the extreme rows and columns are known. *)
Definition box_of_extent (min_row max_row min_col max_col : Z) : fbox :=
  let x := float_of_int min_col * cell_width in
  let y := float_of_int min_row * cell_height in
  let w := float_of_int (max_col - min_col + 1) * cell_width in
  let h := float_of_int (max_row - min_row + 1) * cell_height in
  let x := fmax 0 (fmin 1 x) in
  let y := fmax 0 (fmin 1 y) in
  let w := fmax 0.05 (fmin (1 - x) w) in
  let h := fmax 0.05 (fmin (1 - y) h) in
  mk_fbox x y w h.

Definition box_of_positions (grid_positions : list (Z * Z)) : fbox :=
  match grid_positions with
  | [] => default_box
  | pos :: rest =>
      box_of_extent (min_of (fst pos) (map fst rest))
                    (max_of (fst pos) (map fst rest))
                    (min_of (snd pos) (map snd rest))
                    (max_of (snd pos) (map snd rest))
  end.

(** The body of the [try] block. *)
Definition convert_body (v : pyvalue) : outcome fbox :=
  match v with
  | PyNone => Ret default_box
  | PyOther false => Ret default_box
  | PyOther true =>
      Raise (OtherError "object has no attribute 'strip'")
  | PyString s =>
      if String.eqb s "" || String.eqb (strip s) "" then Ret default_box
      else Ret (box_of_positions (grid_positions_of s))
  end.

(** [convert_grid_cells_to_bounding_box(grid_cells_string)] *)
Definition convert_grid_cells_to_bounding_box (v : pyvalue) : fbox :=
  match convert_body v with
  | Ret box => box
  | Raise _ => default_box
  end.

(** The exact value of a finite float. *)
Definition exact (f : float) : option Q :=
  match Prim2SF f with
  | S754_zero _ => Some 0%Q
  | S754_finite s m e =>
      Some ((if s then inject_Z (Zneg m) else inject_Z (Zpos m))
            * Qpower 2 e)%Q
  | _ => None
  end.



Local Close Scope float_scope.
Local Open Scope Q_scope.


(** *** Results *)



Lemma row_of_letter_range (c : ascii) (r : Z) :
  row_of_letter c = Some r -> (0 <= r <= 2)%Z.
Proof.
  unfold row_of_letter.
  repeat match goal with
         | |- context [if ?c then _ else _] => destruct c
         end; intros H; inversion H; lia.
Qed.












Example int_with_blanks : py_int " 12 " = Some 12%Z.
Proof. reflexivity. Qed.

(** TAB, LF, VT, FF and CR are skipped by [int]; FS, GS, RS and US are
    not, although [str.strip] removes them. *)
Example int_with_controls :
  map (fun c => py_int (String c "7")) ["009"; "010"; "011"; "012"; "013"]%char
  = [Some 7; Some 7; Some 7; Some 7; Some 7]%Z
  /\ map (fun c => py_int (String c "7")) ["028"; "029"; "030"; "031"]%char
     = [None; None; None; None]
  /\ map (fun c => strip (String c "7")) ["028"; "029"; "030"; "031"]%char
     = ["7"; "7"; "7"; "7"].
Proof. repeat split; reflexivity. Qed.

Example int_with_sign : py_int "+4" = Some 4%Z /\ py_int "-3" = Some (-3)%Z.
Proof. split; reflexivity. Qed.

Example int_with_underscore : py_int "1_0" = Some 10%Z.
Proof. reflexivity. Qed.

Example int_rejects :
  map py_int [""; "_1"; "1_"; "1__0"; "4a"; "+ 4"; "x"]
  = [None; None; None; None; None; None; None].
Proof. reflexivity. Qed.

Example positions_of_range : grid_positions_of "B2-B3" = [(1, 1); (1, 2)]%Z.
Proof. reflexivity. Qed.

Example positions_lower_case : grid_positions_of " a1 , c4" = [(0, 0); (2, 3)]%Z.
Proof. reflexivity. Qed.

Example positions_out_of_grid : grid_positions_of "A5,D1,A0,B" = [].
Proof. reflexivity. Qed.

Example box_A1 :
  convert_grid_cells_to_bounding_box (PyString "A1")
  = mk_fbox 0 0 0.25 (1 / 3).
Proof. vm_compute. reflexivity. Qed.

Example box_whole_grid :
  convert_grid_cells_to_bounding_box (PyString "A1-C4") = mk_fbox 0 0 1 1.
Proof. vm_compute. reflexivity. Qed.

(** A separator character between the letter and the digit makes the cell
    invalid, and the default box is returned. *)
Example box_of_cell_with_separator :
  convert_grid_cells_to_bounding_box (PyString (String "A" (String "028" "1")))
  = default_box
  /\ convert_grid_cells_to_bounding_box (PyString "A 1")
     = convert_grid_cells_to_bounding_box (PyString "A1").
Proof. split; vm_compute; reflexivity. Qed.

(** An unparseable token among valid ones is skipped. *)
Example box_skips_bad_token :
  convert_grid_cells_to_bounding_box (PyString "B2,Bx")
  = convert_grid_cells_to_bounding_box (PyString "B2").
Proof. vm_compute. reflexivity. Qed.

End GridLocator.

(** ** FrameSampler, post-extraction variant *)

Module FrameSampler.

Local Open Scope nat_scope.

Definition max_frames : nat := 12.

(** [l[k::step]] for a positive [step], [skip] being the number of elements
    to pass over before the next one is taken. *)
Fixpoint stride_from {A : Type} (step skip : nat) (l : list A) : list A :=
  match l with
  | [] => []
  | x :: t =>
      match skip with
      | O => x :: stride_from step (step - 1) t
      | S k => stride_from step k t
      end
  end.

(** [l[::step]]; a zero step raises [ValueError]. *)
Definition slice_step {A : Type} (step : nat) (l : list A) : outcome (list A) :=
  if step =? 0 then Raise (ValueError "slice step cannot be zero")
  else Ret (stride_from step 0 l).

(** [l[-3:] if len(l) > 3 else l] *)
Definition recent_frames (unique_frames : list string) : list string :=
  if 3 <? List.length unique_frames
  then skipn (List.length unique_frames - 3) unique_frames
  else unique_frames.

Record filter_state : Type := mk_filter_state {
  unique_frames : list string;
  last_selected_index : Z
}.

Definition min_frame_gap : Z := 1.

Section Filter.

(** [calculate_image_similarity] on the paths of two frames.  [Raise] stands
    for an exception escaping from the iteration in which the comparison is
    made; whatever its class, the handler of the [try] block takes over. *)
Variable similar : string -> string -> Q -> outcome bool.

Variable similarity_threshold : Q.

(** The loop over [recent_unique_frames]: [true] when no comparison found
    the current frame similar. *)
Fixpoint is_unique_among (current : string) (recent : list string)
  : outcome bool :=
  match recent with
  | [] => Ret true
  | unique_frame :: rest =>
      s <- similar current unique_frame similarity_threshold ;;
      if s then Ret false else is_unique_among current rest
  end.

(** The loop [for i, current_frame in enumerate(frame_files[1:], 1)]. *)
Fixpoint primary_loop (i : Z) (frames : list string) (st : filter_state)
  : outcome filter_state :=
  match frames with
  | [] => Ret st
  | current :: rest =>
      if (i - last_selected_index st <? min_frame_gap)%Z
      then primary_loop (i + 1)%Z rest st
      else
        is_unique <- is_unique_among current
                       (recent_frames (unique_frames st)) ;;
        primary_loop (i + 1)%Z rest
          (if is_unique
           then mk_filter_state (unique_frames st ++ [current]) i
           else st)
  end.

(** The body of the [try] block. *)
Definition primary_filter (frame_files : list string) : outcome (list string) :=
  match frame_files with
  | [] => Raise (OtherError "list index out of range")
  | first :: rest =>
      st <- primary_loop 1%Z rest (mk_filter_state [first] 0%Z) ;;
      let unique := unique_frames st in
      if max_frames <? List.length unique then
        let step := List.length unique / max_frames in
        sampled <- slice_step step unique ;;
        Ret (firstn max_frames sampled)
      else Ret unique
  end.

(** The handler: stride sampling by bands of the number of frames. *)
Definition fallback_filter (frame_files : list string) : outcome (list string) :=
  let total_frames := List.length frame_files in
  if total_frames <=? 5 then Ret frame_files
  else
    let step :=
      if total_frames <=? 15 then 3
      else if total_frames <=? 30 then 5
      else Nat.max 4 (total_frames / max_frames) in
    sampled <- slice_step step frame_files ;;
    Ret (firstn max_frames sampled).

(** [filter_unique_frames(frame_files, frames_dir, similarity_threshold)] *)
Definition filter_unique_frames (frame_files : list string)
  : outcome (list string) :=
  match frame_files with
  | [] => Ret []
  | _ =>
      match primary_filter frame_files with
      | Ret kept => Ret kept
      | Raise _ => fallback_filter frame_files
      end
  end.

(** *** Results *)

Definition first_kept_and_capped (first : string) (kept : list string) : Prop :=
  hd_error kept = Some first /\ List.length kept <= max_frames.

Lemma hd_error_app_cons {A : Type} (x : A) (l l' : list A) :
  hd_error ((x :: l) ++ l') = Some x.
Proof. reflexivity. Qed.

Lemma slice_step_head {A : Type} (step : nat) (x : A) (l sampled : list A) :
  slice_step step (x :: l) = Ret sampled ->
  hd_error (firstn max_frames sampled) = Some x
  /\ List.length (firstn max_frames sampled) <= max_frames.
Proof.
  unfold slice_step. destruct (step =? 0); [discriminate|].
  intros H. inversion H; subst. split; [reflexivity|apply firstn_le_length].
Qed.

Lemma primary_loop_keeps_head (first : string) (frames : list string) :
  forall (i : Z) (st st' : filter_state),
    primary_loop i frames st = Ret st' ->
    hd_error (unique_frames st) = Some first ->
    hd_error (unique_frames st') = Some first.
Proof.
  induction frames as [|current rest IH]; simpl; intros i st st' Hrun Hhd.
  - now inversion Hrun; subst.
  - destruct (i - last_selected_index st <? min_frame_gap)%Z.
    + exact (IH _ _ _ Hrun Hhd).
    + destruct (is_unique_among current (recent_frames (unique_frames st)))
        as [[|]|e]; simpl in Hrun; try discriminate.
      * apply (IH _ _ _ Hrun). simpl.
        destruct (unique_frames st) as [|x l]; [discriminate Hhd|exact Hhd].
      * exact (IH _ _ _ Hrun Hhd).
Qed.

(** The primary path: when the [try] block returns a list, the list starts
    with the first frame and has at most 12 entries. *)
Lemma primary_filter_ok (first : string) (rest kept : list string) :
  primary_filter (first :: rest) = Ret kept ->
  first_kept_and_capped first kept.
Proof.
  unfold primary_filter, first_kept_and_capped.
  destruct (primary_loop 1 rest (mk_filter_state [first] 0)) as [st|e] eqn:Hrun;
    simpl; [|discriminate].
  assert (Hhd : hd_error (unique_frames st) = Some first)
    by (apply (primary_loop_keeps_head first rest _ _ _ Hrun); reflexivity).
  destruct (max_frames <? List.length (unique_frames st)) eqn:Hcap.
  - destruct (unique_frames st) as [|x l] eqn:Hu; [discriminate Hhd|].
    simpl in Hhd. inversion Hhd; subst x.
    cbv zeta.
    destruct (slice_step _ (first :: l)) as [sampled|e] eqn:Hs;
      simpl; [|discriminate].
    intros H. inversion H; subst. exact (slice_step_head _ _ _ _ Hs).
  - intros H. inversion H; subst. split; [exact Hhd|].
    apply Nat.ltb_ge in Hcap. exact Hcap.
Qed.

(** The fallback path always returns a list, which starts with the first
    frame and has at most 12 entries. *)
Lemma fallback_filter_ok (first : string) (rest : list string) :
  exists kept, fallback_filter (first :: rest) = Ret kept
               /\ first_kept_and_capped first kept.
Proof.
  unfold fallback_filter, first_kept_and_capped.
  set (total := List.length (first :: rest)).
  destruct (total <=? 5) eqn:H5.
  - exists (first :: rest). split; [reflexivity|]. split; [reflexivity|].
    apply Nat.leb_le in H5. fold total. unfold max_frames. lia.
  - set (step := if total <=? 15 then 3
                 else if total <=? 30 then 5
                 else Nat.max 4 (total / max_frames)).
    assert (Hstep : step <> 0).
    { unfold step. destruct (total <=? 15); [lia|].
      destruct (total <=? 30); lia. }
    unfold slice_step. apply Nat.eqb_neq in Hstep. rewrite Hstep.
    cbn [bind]. eexists. split; [reflexivity|].
    split; [reflexivity|apply firstn_le_length].
Qed.

(** C7. For every non-empty ordered list of frame files and whatever the
    comparisons answer or raise, [filter_unique_frames] returns a list
    whose first entry is the first input frame and which has at most 12
    entries: on the primary path, and on the stride-sampling path taken
    when the primary algorithm raises. *)
Theorem filter_unique_frames_first_and_cap (first : string) (rest : list string) :
  (exists kept, filter_unique_frames (first :: rest) = Ret kept
                /\ first_kept_and_capped first kept)
  /\ (forall kept, primary_filter (first :: rest) = Ret kept ->
      filter_unique_frames (first :: rest) = Ret kept
      /\ first_kept_and_capped first kept)
  /\ (forall e, primary_filter (first :: rest) = Raise e ->
      filter_unique_frames (first :: rest) = fallback_filter (first :: rest)
      /\ exists kept, fallback_filter (first :: rest) = Ret kept
                      /\ first_kept_and_capped first kept).
Proof.
  unfold filter_unique_frames.
  destruct (primary_filter (first :: rest)) as [kept|e] eqn:Hp.
  - pose proof (primary_filter_ok first rest kept Hp) as Hok.
    split; [exists kept; now split|].
    split; [intros k Hk; inversion Hk; subst; now split|].
    intros e He. discriminate He.
  - split; [apply fallback_filter_ok|].
    split; [intros k Hk; discriminate Hk|].
    intros e' _. split; [reflexivity|apply fallback_filter_ok].
Qed.

End Filter.

(** Forty frames that all differ: the primary path keeps them all and then
    samples every third one, up to twelve. *)
Definition forty_frames : list string :=
  map (fun n => "frame_" ++ PyFormat.str_of_nat n)%string (seq 0 40).

Definition never_similar (_ _ : string) (_ : Q) : outcome bool := Ret false.

Definition always_raises (_ _ : string) (_ : Q) : outcome bool :=
  Raise (OtherError "comparison failed").

Lemma filter_unique_frames_first_and_cap_witness :
  exists kept,
    filter_unique_frames never_similar (88 # 100) forty_frames = Ret kept
    /\ first_kept_and_capped "frame_0" kept.
Proof.
  exact (proj1 (filter_unique_frames_first_and_cap
                  never_similar (88 # 100) "frame_0" (tl forty_frames))).
Defined.

Example forty_distinct_frames :
  filter_unique_frames never_similar (88 # 100) forty_frames
  = Ret (map (fun n => "frame_" ++ PyFormat.str_of_nat (3 * n))%string
             (seq 0 12)).
Proof. vm_compute. reflexivity. Qed.

Example forty_frames_fallback :
  filter_unique_frames always_raises (88 # 100) forty_frames
  = Ret (map (fun n => "frame_" ++ PyFormat.str_of_nat (4 * n))%string
             (seq 0 10)).
Proof. vm_compute. reflexivity. Qed.

End FrameSampler.

(** ** SimilarityScorer *)

Module SimilarityScorer.
Import PyNum.
Local Open Scope Q_scope.

(** What the two scorers use from OpenCV and scikit-image.  A call that can
    raise returns an [outcome]. *)
Record capabilities (image : Type) : Type := mk_capabilities {
  HAS_SCIKIT_IMAGE : bool;
  (* conversion to one channel and [cv2.resize] to 160 x 120 *)
  prepare : image -> outcome image;
  (* [skimage.metrics.structural_similarity] *)
  ssim : image -> image -> outcome Q;
  (* [cv2.calcHist] on both images and [cv2.compareHist(.., HISTCMP_CORREL)] *)
  compare_hist : image -> image -> outcome Q;
  (* [cv2.matchTemplate(.., TM_CCOEFF_NORMED)] and the maximum of the result *)
  match_template : image -> image -> outcome Q
}.

Arguments HAS_SCIKIT_IMAGE {image} _.
Arguments prepare {image} _ _.
Arguments ssim {image} _ _ _.
Arguments compare_hist {image} _ _ _.
Arguments match_template {image} _ _ _.

Section Scorer.

Context {image : Type} (cv : capabilities image).

(** [calculate_basic_similarity(img1, img2)]: 0.0 when anything is raised. *)
Definition calculate_basic_similarity (img1 img2 : image) : Q :=
  match compare_hist cv img1 img2 with
  | Ret correlation => correlation
  | Raise _ => 0
  end.

(** [max(similarity_scores)] of a non-empty list: the first of the largest
    elements. *)
Definition max_score (first : Q) (rest : list Q) : Q := fold_left py_max rest first.

(** [if similarity_scores: return max(similarity_scores) > threshold] and
    [return False] otherwise. *)
Definition decide (similarity_scores : list Q) (threshold : Q) : bool :=
  match similarity_scores with
  | [] => false
  | s :: rest => Qltb threshold (max_score s rest)
  end.

(** The list [similarity_scores]: structural similarity when available, the
    histogram score computed by [hist], the template-matching score unless
    it raised. *)
Definition similarity_scores (hist : image -> image -> outcome Q)
           (img1 img2 : image) : outcome (list Q) :=
  structural <- (if HAS_SCIKIT_IMAGE cv
                 then ssim_score <- ssim cv img1 img2 ;; Ret [ssim_score]
                 else Ret []) ;;
  hist_score <- hist img1 img2 ;;
  let template := match match_template cv img1 img2 with
                  | Ret max_val => [max_val]
                  | Raise _ => []
                  end in
  Ret (structural ++ [hist_score] ++ template).

Definition compare_prepared (hist : image -> image -> outcome Q)
           (img1 img2 : image) (threshold : Q) : outcome bool :=
  img1_resized <- prepare cv img1 ;;
  img2_resized <- prepare cv img2 ;;
  scores <- similarity_scores hist img1_resized img2_resized ;;
  Ret (decide scores threshold).

Definition or_false (r : outcome bool) : bool :=
  match r with Ret b => b | Raise _ => false end.

(** [calculate_frame_similarity(frame1, frame2, threshold)] of the
    extraction script; [None] is a missing frame. *)
Definition calculate_frame_similarity (frame1 frame2 : option image)
           (threshold : Q) : bool :=
  or_false
    match frame1, frame2 with
    | Some f1, Some f2 => compare_prepared (compare_hist cv) f1 f2 threshold
    | _, _ => Ret false
    end.

(** [calculate_image_similarity(img1_path, img2_path, threshold)] of the
    analysis script; [imread] answers [None] for a file that cannot be
    read. *)
Definition calculate_image_similarity {path : Type}
           (imread : path -> option image)
           (img1_path img2_path : path) (threshold : Q) : bool :=
  or_false
    match imread img1_path, imread img2_path with
    | Some img1, Some img2 =>
        compare_prepared
          (fun a b => Ret (calculate_basic_similarity a b)) img1 img2 threshold
    | _, _ => Ret false
    end.

(** *** Results *)

Lemma max_score_ge_first (first : Q) (rest : list Q) :
  first <= max_score first rest.
Proof.
  unfold max_score. revert first.
  induction rest as [|s rest IH]; simpl; intros first; [apply Qle_refl|].
  eapply Qle_trans; [apply (py_max_ge_l first s)|apply IH].
Qed.

Lemma max_score_ge (first : Q) (rest : list Q) (s : Q) :
  In s (first :: rest) -> s <= max_score first rest.
Proof.
  intros [Hs|Hin]; [rewrite <- Hs; apply max_score_ge_first|].
  revert first.
  induction rest as [|r rest IH]; intros first; [destruct Hin|].
  unfold max_score. simpl. fold (max_score (py_max first r) rest).
  destruct Hin as [Hr|Hin].
  - rewrite <- Hr.
    eapply Qle_trans; [apply (py_max_ge_r first r)|apply max_score_ge_first].
  - now apply IH.
Qed.

Lemma max_score_le (top first : Q) (rest : list Q) :
  (forall s, In s (first :: rest) -> s <= top) -> max_score first rest <= top.
Proof.
  unfold max_score. revert first.
  induction rest as [|r rest IH]; simpl; intros first Hall.
  - apply Hall. now left.
  - apply IH. intros s [<-|Hin].
    + unfold py_max. destruct (Qltb first r); apply Hall; auto.
    + apply Hall. auto.
Qed.

(** A score above the threshold anywhere in the list decides "similar". *)
Lemma decide_above (scores : list Q) (s threshold : Q) :
  In s scores -> threshold < s -> decide scores threshold = true.
Proof.
  destruct scores as [|first rest]; [intros []|]. intros Hin Hlt.
  unfold decide. apply Qltb_lt.
  eapply Qlt_le_trans; [exact Hlt|now apply max_score_ge].
Qed.

(** At a threshold that no score exceeds, the verdict is "not similar". *)
Lemma decide_at_bound (scores : list Q) (top : Q) :
  (forall s, In s scores -> s <= top) -> decide scores top = false.
Proof.
  destruct scores as [|first rest]; [reflexivity|]. intros Hall.
  unfold decide. apply Qltb_ge. now apply max_score_le.
Qed.

Lemma compare_prepared_self (hist : image -> image -> outcome Q)
      (img g : image) (t top : Q) :
  prepare cv img = Ret g ->
  (HAS_SCIKIT_IMAGE cv = true -> exists s, ssim cv g g = Ret s) ->
  hist g g = Ret top ->
  t < top ->
  compare_prepared hist img img t = Ret true.
Proof.
  intros Hprep Hssim Hhist Hlt.
  unfold compare_prepared. rewrite Hprep. cbn [bind].
  unfold similarity_scores.
  destruct (HAS_SCIKIT_IMAGE cv) eqn:Has.
  - destruct (Hssim eq_refl) as [s Hs]. rewrite Hs. cbn [bind].
    rewrite Hhist. cbn [bind]. f_equal.
    apply (decide_above _ top); [|exact Hlt].
    right. now left.
  - cbn [bind]. rewrite Hhist. cbn [bind]. f_equal.
    apply (decide_above _ top); [|exact Hlt].
    now left.
Qed.

(** C3, as the code has it.  A frame compared with itself is classified
    "similar" at every threshold strictly below the score that the
    histogram method attains on identical inputs (1.0 for the correlation),
    by both scorers: the verdict is [max(scores) > threshold], a strict
    comparison. *)
Theorem self_similar_below_attained_score
        (img g : image) (t top : Q) :
  prepare cv img = Ret g ->
  (HAS_SCIKIT_IMAGE cv = true -> exists s, ssim cv g g = Ret s) ->
  compare_hist cv g g = Ret top ->
  t < top ->
  calculate_frame_similarity (Some img) (Some img) t = true
  /\ forall (path : Type) (imread : path -> option image) (p : path),
       imread p = Some img ->
       calculate_image_similarity imread p p t = true.
Proof.
  intros Hprep Hssim Hhist Hlt. split.
  - unfold calculate_frame_similarity.
    now rewrite (compare_prepared_self _ img g t top Hprep Hssim Hhist Hlt).
  - intros path imread p Hread. unfold calculate_image_similarity.
    rewrite Hread.
    rewrite (compare_prepared_self _ img g t top Hprep Hssim); auto.
    unfold calculate_basic_similarity. now rewrite Hhist.
Qed.

End Scorer.

(** A stand-in for the libraries in which every method gives its maximum,
    1, on two equal images and 0 on two different ones; the images are
    lists of intensities. *)
Definition same_image_score (a b : list Z) : outcome Q :=
  Ret (if list_eq_dec Z.eq_dec a b then 1 else 0).

Definition exact_match : capabilities (list Z) :=
  mk_capabilities (list Z) true
    (fun img => Ret img)
    same_image_score same_image_score same_image_score.

Definition gray_ramp : list Z := [10; 20; 30; 40]%Z.

Lemma self_similar_below_attained_score_witness :
  calculate_frame_similarity exact_match (Some gray_ramp) (Some gray_ramp)
                             (88 # 100) = true.
Proof.
  apply (self_similar_below_attained_score exact_match gray_ramp gray_ramp
           (88 # 100) 1).
  - reflexivity.
  - intros _. exists 1. reflexivity.
  - reflexivity.
  - reflexivity.
Defined.

(** C3, as stated, fails at the threshold equal to the maximum: every
    method attains its maximum 1 on the identical pair, the threshold 1 is
    not above that maximum, and both scorers answer "not similar". *)
Lemma self_similarity_fails_at_maximum :
  similarity_scores exact_match (compare_hist exact_match) gray_ramp gray_ramp
  = Ret [1; 1; 1]
  /\ 1 <= 1
  /\ calculate_frame_similarity exact_match (Some gray_ramp) (Some gray_ramp) 1
     = false
  /\ calculate_image_similarity exact_match (fun _ : unit => Some gray_ramp)
                                tt tt 1 = false.
Proof. repeat split; try reflexivity. discriminate. Qed.

End SimilarityScorer.

(** ** Result values *)

(** The values of the dictionaries that the entry points return. *)
Inductive pyval : Type :=
| VNone
| VBool (b : bool)
| VInt (z : Z)
| VNum (q : Q)
| VFloat (f : float)
| VStr (s : string)
| VList (l : list pyval)
| VDict (d : list (string * pyval)).

Definition pydict : Type := list (string * pyval).

(** [d.get(key)] *)
Fixpoint py_get (key : string) (d : pydict) : option pyval :=
  match d with
  | [] => None
  | (k, v) :: rest => if String.eqb k key then Some v else py_get key rest
  end.

Definition has_key (key : string) (d : pydict) : bool :=
  match py_get key d with Some _ => true | None => false end.

Definition is_str (v : option pyval) : bool :=
  match v with Some (VStr _) => true | _ => false end.

(** ** FrameSampler, extraction-time variant *)

Module FrameExtractor.
Import PyStr PyNum PyFormat.
Local Open Scope Q_scope.

(** [int(q)]: truncation towards zero *)
Definition int_of_Q (q : Q) : Z := Z.quot (Qnum q) (Zpos (Qden q)).

(** [f"{n:02d}"] for a non-negative integer *)
Definition pad2 (n : Z) : string :=
  ((if (n <? 10)%Z then "0" else "") ++ str_of_N (Z.to_N n))%string.

(** [os.path.join(output_dir, filename)] for a relative file name *)
Definition path_join (output_dir filename : string) : string :=
  (if String.eqb output_dir "" then filename
   else if String.eqb (substring (String.length output_dir - 1) 1 output_dir) "/"
        then output_dir ++ filename
        else output_dir ++ "/" ++ filename)%string.

Definition motion_threshold : Q := 800.

Section Extraction.

Context {frame : Type}.

(** The calls into OpenCV.  The three helpers of the script have their own
    handlers and always answer. *)
Variable resize : frame -> outcome frame.
Variable is_frame_quality_acceptable : frame -> Q -> Q -> bool.
Variable detect_motion : frame -> frame -> Q.
Variable calculate_frame_similarity : frame -> frame -> Q -> bool.
Variable imwrite : string -> frame -> outcome bool.
Variable encode_base64 : frame -> outcome string.

(** [cv2.VideoCapture(video_path)]: [read_frame n] is [cap.read()] after
    seeking to frame [n]; [None] is [ret == False]. *)
Record capture : Type := mk_capture {
  isOpened : bool;
  fps : Q;
  total_frames : Z;
  read_frame : Z -> outcome (option frame)
}.

Record extracted_frame : Type := mk_extracted {
  ef_time : string;
  ef_frame_number : nat;
  ef_filename : string;
  ef_filepath : string;
  ef_image_base64 : string;
  ef_imageUrl : string
}.

Record extract_state : Type := mk_state {
  extracted_frames : list extracted_frame;
  frame_count : nat;
  last_saved_frame : option frame;
  skipped_frames : nat
}.

(** The interval, the frame rate and the times are exact numbers.  The
    source computes on floats ([total_frames / fps],
    [current_time += frame_interval], [current_time * fps],
    [similarity_threshold + 0.05]); the values are the same whenever these
    quotients, sums and products are binary64 values, as they are for the
    default interval 1, the default threshold 0.70 and a frame rate that is a
    small integer, and can differ in the last place otherwise. *)
Variable output_dir : string.
Variable frame_interval : Q.
Variable similarity_threshold : Q.

(** Lines 181 to 206: the decision [should_save] and the new value of the
    counter [skipped_frames]. *)
Definition retention (last : option frame) (current : frame) (skipped : nat)
  : bool * nat :=
  match last with
  | None => (true, skipped)
  | Some last_saved =>
      let motion_score := detect_motion last_saved current in
      if Qltb motion_threshold motion_score then (true, skipped)
      else
        let is_similar :=
          calculate_frame_similarity last_saved current
                                     (similarity_threshold + (5 # 100)) in
        if is_similar then
          if (skipped mod 3 =? 2)%nat then (true, skipped)
          else (false, S skipped)
        else (true, skipped)
  end.

(** The body of the [while] loop, up to the increment of [current_time]. *)
Definition iteration (cap : capture) (current_time : Q) (st : extract_state)
  : outcome extract_state :=
  let frame_number := int_of_Q (current_time * fps cap) in
  r <- read_frame cap frame_number ;;
  match r with
  | None => Ret st
  | Some raw =>
      current <- resize raw ;;
      if negb (is_frame_quality_acceptable current 15 25) then Ret st
      else
        let (should_save, skipped) :=
          retention (last_saved_frame st) current (skipped_frames st) in
        let st := mk_state (extracted_frames st) (frame_count st)
                           (last_saved_frame st) skipped in
        if should_save then
          let minutes := Qfloor (current_time / 60) in
          let seconds := int_of_Q (current_time - 60 * inject_Z minutes) in
          let timestamp := (pad2 minutes ++ "m" ++ pad2 seconds ++ "s")%string in
          let filename :=
            ("frame_" ++ str_of_nat (frame_count st) ++ "_" ++ timestamp
             ++ ".jpg")%string in
          let filepath := path_join output_dir filename in
          success <- imwrite filepath current ;;
          if success then
            frame_base64 <- encode_base64 current ;;
            Ret (mk_state
                   (extracted_frames st
                    ++ [mk_extracted
                          (pad2 minutes ++ ":" ++ pad2 seconds)%string
                          (frame_count st) filename filepath frame_base64
                          ("/temp/" ++ filename)%string])
                   (S (frame_count st))
                   (Some current)
                   (skipped_frames st))
          else Ret st
        else Ret st
  end.

(** [while current_time < duration]; [None] when the loop is still running
    after [fuel] iterations. *)
Fixpoint extraction_loop (fuel : nat) (cap : capture) (duration : Q)
         (current_time : Q) (st : extract_state)
  : option (outcome extract_state) :=
  match fuel with
  | O => None
  | S fuel' =>
      if Qltb current_time duration then
        match iteration cap current_time st with
        | Raise e => Some (Raise e)
        | Ret st' =>
            extraction_loop fuel' cap duration
                            (current_time + frame_interval) st'
        end
      else Some (Ret st)
  end.

Definition initial_state : extract_state := mk_state [] 0 None 0.

Definition duration_of (cap : capture) : Q :=
  if Qltb 0 (fps cap) then inject_Z (total_frames cap) / fps cap else 0.

Definition frame_entry (f : extracted_frame) : pyval :=
  VDict [ ("time", VStr (ef_time f));
          ("frame_number", VInt (Z.of_nat (ef_frame_number f)));
          ("filename", VStr (ef_filename f));
          ("filepath", VStr (ef_filepath f));
          ("image_base64", VStr (ef_image_base64 f));
          ("imageUrl", VStr (ef_imageUrl f)) ].

Definition success_result (cap : capture) (st : extract_state) : pydict :=
  [ ("success", VBool true);
    ("frames", VList (map frame_entry (extracted_frames st)));
    ("total_frames_extracted", VInt (Z.of_nat (frame_count st)));
    ("frames_skipped", VInt (Z.of_nat (skipped_frames st)));
    ("similarity_threshold", VNum similarity_threshold);
    ("video_info",
     VDict [ ("duration", VNum (duration_of cap));
             ("fps", VNum (fps cap));
             ("total_frames", VInt (total_frames cap));
             ("frame_interval", VNum frame_interval);
             ("method", VStr "opencv_with_similarity") ]) ].

Definition failure_result (e : exn) : pydict :=
  [ ("success", VBool false);
    ("error", VStr (exn_message e));
    ("frames", VList []) ].

(** The body of the [try] block of [extract_frames_with_opencv]. *)
Definition extract_body (fuel : nat) (cap : capture)
  : option (outcome pydict) :=
  if negb (isOpened cap)
  then Some (Raise (OtherError "Could not open video file"))
  else
    match extraction_loop fuel cap (duration_of cap) 0 initial_state with
    | None => None
    | Some (Raise e) => Some (Raise e)
    | Some (Ret st) => Some (Ret (success_result cap st))
    end.

(** [extract_frames_with_opencv(video_path, output_dir, frame_interval,
    similarity_threshold)], the opened capture standing for the video. *)
Definition extract_frames_with_opencv (fuel : nat) (cap : capture)
  : option pydict :=
  match extract_body fuel cap with
  | None => None
  | Some (Ret result) => Some result
  | Some (Raise e) => Some (failure_result e)
  end.

(** *** Results *)

(** Once the counter is 2 modulo 3 it never moves again, and every frame
    is kept, similar or not. *)
Lemma retention_counter_stuck (last : option frame) (current : frame)
      (skipped : nat) :
  (skipped mod 3 = 2)%nat -> retention last current skipped = (true, skipped).
Proof.
  intros H. unfold retention. destruct last as [l|]; [|reflexivity].
  destruct (Qltb motion_threshold (detect_motion l current)); [reflexivity|].
  destruct (calculate_frame_similarity l current _); [|reflexivity].
  apply Nat.eqb_eq in H. now rewrite H.
Qed.

(** A similar frame of low motion is skipped while the counter is not 2
    modulo 3, and the counter then advances. *)
Lemma retention_similar (last current : frame) (skipped : nat) :
  Qltb motion_threshold (detect_motion last current) = false ->
  calculate_frame_similarity last current (similarity_threshold + (5 # 100))
  = true ->
  retention (Some last) current skipped
  = if (skipped mod 3 =? 2)%nat then (true, skipped) else (false, S skipped).
Proof. intros Hm Hs. unfold retention. now rewrite Hm, Hs. Qed.

Lemma loop_terminates (cap : capture) (duration : Q) :
  0 < frame_interval ->
  forall (n : nat) (current_time : Q) (st : extract_state),
    duration - current_time <= inject_Z (Z.of_nat n) * frame_interval ->
    forall fuel, (n < fuel)%nat ->
      exists r, extraction_loop fuel cap duration current_time st = Some r.
Proof.
  intros Hpos. induction n as [|n IH]; intros ct st Hn fuel Hfuel;
    (destruct fuel as [|fuel]; [lia|]); simpl;
    destruct (Qltb ct duration) eqn:E; try (eexists; reflexivity).
  - apply Qltb_lt in E. exfalso. simpl in Hn.
    change (inject_Z 0) with 0 in Hn. rewrite Qmult_0_l in Hn. lra.
  - destruct (iteration cap ct st) as [st'|e]; [|eexists; reflexivity].
    apply IH; [|lia].
    rewrite Nat2Z.inj_succ in Hn. unfold Z.succ in Hn.
    rewrite inject_Z_plus in Hn.
    set (x := inject_Z (Z.of_nat n)) in *.
    change (inject_Z 1) with 1 in Hn.
    assert (Hx : (x + 1) * frame_interval == x * frame_interval + frame_interval)
      by ring.
    rewrite Hx in Hn. lra.
Qed.

Lemma enough_iterations (duration : Q) :
  0 < frame_interval ->
  exists n : nat, duration - 0 <= inject_Z (Z.of_nat n) * frame_interval.
Proof.
  intros Hpos.
  exists (Z.to_nat (Qceiling (duration / frame_interval))).
  assert (Hc : duration / frame_interval
               <= inject_Z (Z.of_nat (Z.to_nat
                                        (Qceiling (duration / frame_interval))))).
  { eapply Qle_trans; [apply Qle_ceiling|].
    rewrite <- Zle_Qle. lia. }
  apply (Qmult_le_compat_r _ _ frame_interval) in Hc;
    [|now apply Qlt_le_weak].
  assert (Hd : duration / frame_interval * frame_interval == duration).
  { field. intro H0. rewrite H0 in Hpos. exact (Qlt_irrefl 0 Hpos). }
  rewrite Hd in Hc. lra.
Qed.

(** With a frame interval that is not positive the loop never ends when
    the video has a positive duration and no iteration raises. *)
Lemma loop_never_ends (cap : capture) (duration : Q) :
  frame_interval <= 0 -> 0 < duration ->
  (forall current_time st, exists st',
      iteration cap current_time st = Ret st') ->
  forall fuel current_time st,
    current_time <= 0 ->
    extraction_loop fuel cap duration current_time st = None.
Proof.
  intros Hneg Hdur Hiter. induction fuel as [|fuel IH]; intros ct st Hct;
    [reflexivity|].
  simpl. assert (E : Qltb ct duration = true) by (apply Qltb_lt; lra).
  rewrite E. destruct (Hiter ct st) as [st' ->]. apply IH. lra.
Qed.

(** The two shapes of the result of the extraction entry point. *)
Definition extraction_report (result : pydict) : Prop :=
  (py_get "success" result = Some (VBool true)
   /\ has_key "frames" result = true)
  \/ (py_get "success" result = Some (VBool false)
      /\ is_str (py_get "error" result) = true).

Lemma extract_returns_report (cap : capture) :
  0 < frame_interval ->
  exists fuel0, forall fuel, (fuel0 <= fuel)%nat ->
    exists result, extract_frames_with_opencv fuel cap = Some result
                   /\ extraction_report result.
Proof.
  intros Hpos.
  destruct (enough_iterations (duration_of cap) Hpos) as [n Hn].
  exists (S n). intros fuel Hfuel.
  unfold extract_frames_with_opencv, extract_body.
  destruct (isOpened cap); simpl.
  - destruct (loop_terminates cap (duration_of cap) Hpos n 0 initial_state
                              Hn fuel) as [r Hr]; [lia|].
    rewrite Hr. destruct r as [st|e]; eexists; (split; [reflexivity|]).
    + left. split; reflexivity.
    + right. split; reflexivity.
  - eexists. split; [reflexivity|]. right. split; reflexivity.
Qed.

(** A successful extraction carries no [analysis] entry. *)
Lemma extraction_success_has_no_analysis (fuel : nat) (cap : capture)
      (result : pydict) :
  extract_frames_with_opencv fuel cap = Some result ->
  py_get "success" result = Some (VBool true) ->
  has_key "analysis" result = false.
Proof.
  unfold extract_frames_with_opencv, extract_body.
  destruct (negb (isOpened cap)).
  - intros H. inversion H; subst. discriminate.
  - destruct (extraction_loop fuel cap (duration_of cap) 0 initial_state)
      as [[st|e]|]; intros H; inversion H; subst; [reflexivity|discriminate].
Qed.

End Extraction.

(** A static scene: seven identical readable frames at one frame per
    second, compared by the scorer of the script with the stand-in
    library; nothing moves and every write succeeds. *)
Definition static_capture : @capture (list Z) :=
  mk_capture true 1 7 (fun _ => Ret (Some SimilarityScorer.gray_ramp)).

Definition static_similarity (a b : list Z) (threshold : Q) : bool :=
  SimilarityScorer.calculate_frame_similarity
    SimilarityScorer.exact_match (Some a) (Some b) threshold.

Definition static_loop (fuel : nat) (frame_interval : Q)
  : option (outcome (@extract_state (list Z))) :=
  extraction_loop (fun f => Ret f) (fun _ _ _ => true) (fun _ _ => 0)
                  static_similarity (fun _ _ => Ret true)
                  (fun _ => Ret ""%string)
                  "out" frame_interval (70 # 100)
                  fuel static_capture (duration_of static_capture) 0
                  initial_state.

Definition kept_times {frame : Type}
           (r : option (outcome (@extract_state frame))) : list string :=
  match r with
  | Some (Ret st) => map ef_time (extracted_frames st)
  | _ => []
  end.

Definition skipped_count {frame : Type}
           (r : option (outcome (@extract_state frame))) : option nat :=
  match r with
  | Some (Ret st) => Some (skipped_frames st)
  | _ => None
  end.

(** C2.  The cadence is meant to be "skip two similar frames, keep the
    third, and again".  On seven identical frames the first is kept, the
    next two are skipped and the fourth is kept, as meant; but the counter
    then stays at 2, so the fifth, sixth and seventh frames are kept as
    well instead of skip, skip, keep. *)
Theorem static_scene_keeps_every_frame_after_third :
  kept_times (static_loop 8 1) = ["00:00"; "00:03"; "00:04"; "00:05"; "00:06"]%string
  /\ skipped_count (static_loop 8 1) = Some 2%nat
  /\ kept_times (static_loop 8 1) <> ["00:00"; "00:03"; "00:06"]%string.
Proof.
  split; [vm_compute; reflexivity|].
  split; [vm_compute; reflexivity|].
  vm_compute. discriminate.
Qed.

End FrameExtractor.

(** ** BatchOrchestrator *)

Module BatchOrchestrator.

Local Open Scope nat_scope.

(** A JSON value of a type that cannot be sliced: [null], a boolean or a
    number.  On such a value [value[:40]] raises [TypeError], with a
    message that names the type. *)
Inductive unsliceable : Type :=
| NullValue
| BoolValue (b : bool)
| IntValue (z : Z)
| FloatValue (q : Q).

(** [type(value).__name__] *)
Definition type_name (v : unsliceable) : string :=
  match v with
  | NullValue => "NoneType"
  | BoolValue _ => "bool"
  | IntValue _ => "int"
  | FloatValue _ => "float"
  end.

(** A field of a safety issue that the report slices as a string: a JSON
    string, or a value that cannot be sliced.  (A description that is a
    JSON array or object is outside the model.) *)
Inductive text_field : Type :=
| Text (s : string)
| NotText (v : unsliceable).

(** One entry of [safetyIssues], as far as the pipeline reads it. *)
Record safety_issue : Type := mk_issue {
  issue_type : string;
  issue_severity : string;
  issue_description : text_field;
  issue_gridCells : GridLocator.pyvalue;
  issue_mitigationStrategy : string
}.

(** One entry of [frameDetails]. *)
Record frame_detail : Type := mk_detail {
  frameIndex : Z;
  timestamp : string;
  detailedObservations : string;
  safetyIssues : list safety_issue;
  pathwayClearance : string;
  emergencyAccess : string;
  recommendedActions : list pyval
}.

(** One entry of [frames_data]. *)
Record frame_data : Type := mk_frame_data {
  fd_filename : string;
  fd_timestamp : string;
  fd_image_base64 : string;
  fd_original_index : Z
}.

(** The request of one batch: what [analyze_batch_with_openrouter] sends
    depends on these values only. *)
Record request : Type := mk_request {
  req_frames : list frame_data;
  req_batch_num : nat;
  req_start_frame_idx : nat;
  req_yolo_detections : list (list detection)
}.

(** The reply to [requests.post]: the status code, the body as text, and
    the body parsed by [response.json()] and [json.loads] down to the list
    under [frameDetails]; a body that is not valid JSON or has another
    shape raises. *)
Record response : Type := mk_response {
  status_code : Z;
  text : string;
  parsed_frame_details : outcome (list frame_detail)
}.

(** The dictionary returned for a batch: [success] with [analysis], or no
    success with [error]. *)
Inductive batch_result : Type :=
| BatchSuccess (frameDetails : list frame_detail)
| BatchFailure (error : string).

Section Batches.

(** [requests.post(.., timeout=120)]; a timeout is [Raise (TimeoutError _)]. *)
Variable post : request -> outcome response.

(** [detect_objects_with_yolo(frame_path)], which handles its own errors;
    [HAS_YOLO and frames_dir] decides whether it is called at all. *)
Variable detect_objects_with_yolo : string -> list detection.
Variable yolo_enabled : bool.

(** [analyze_batch_with_openrouter]: the whole body is inside one [try]
    whose handler catches every [Exception]. *)
Definition analyze_batch_with_openrouter (req : request) : batch_result :=
  match post req with
  | Raise e => BatchFailure ("Batch analysis error: " ++ exn_message e)
  | Ret resp =>
      if negb (status_code resp =? 200)%Z
      then BatchFailure ("OpenRouter API error: "
                         ++ PyFormat.str_of_N (Z.to_N (status_code resp))
                         ++ " - " ++ text resp)
      else match parsed_frame_details resp with
           | Raise e => BatchFailure ("Batch analysis error: " ++ exn_message e)
           | Ret details => BatchSuccess details
           end
  end.

(** [l[start:stop]] *)
Definition slice {A : Type} (start stop : nat) (l : list A) : list A :=
  firstn (stop - start) (skipn start l).

(** The loop [for batch_num in range(total_batches)], from [batch_num] on,
    with [remaining] batches to go. *)
Fixpoint batch_loop (remaining batch_num batch_size : nat)
         (frames_data : list frame_data)
         (all_yolo_detections : list (list detection))
         (all_frame_details : list frame_detail) : list frame_detail :=
  match remaining with
  | O => all_frame_details
  | S remaining' =>
      let start_idx := batch_num * batch_size in
      let end_idx := Nat.min (start_idx + batch_size) (List.length frames_data) in
      let batch_frames := slice start_idx end_idx frames_data in
      let batch_yolo_detections := slice start_idx end_idx all_yolo_detections in
      let batch_results :=
        analyze_batch_with_openrouter
          (mk_request batch_frames batch_num start_idx batch_yolo_detections) in
      batch_loop remaining' (S batch_num) batch_size frames_data
                 all_yolo_detections
                 (match batch_results with
                  | BatchSuccess batch_frame_details =>
                      all_frame_details ++ batch_frame_details
                  | BatchFailure _ => all_frame_details
                  end)
  end.

(** [process_frames_in_batches(frames_data, api_key, batch_size,
    frames_dir)]; a zero batch size raises [ZeroDivisionError]. *)
Definition process_frames_in_batches
           (frames_data : list frame_data) (batch_size : nat)
  : outcome (list frame_detail * list (list detection)) :=
  if batch_size =? 0
  then Raise (OtherError "integer division or modulo by zero")
  else
    let total_batches :=
      (List.length frames_data + batch_size - 1) / batch_size in
    let all_yolo_detections :=
      if yolo_enabled
      then map (fun fd => detect_objects_with_yolo (fd_filename fd)) frames_data
      else map (fun _ => []) frames_data in
    Ret (batch_loop total_batches 0 batch_size frames_data
                    all_yolo_detections [],
         all_yolo_detections).

(** *** Results *)


(** The request of batch [j]. *)
Definition batch_request (frames_data : list frame_data)
           (all_yolo_detections : list (list detection))
           (batch_size j : nat) : request :=
  let start_idx := j * batch_size in
  let end_idx := Nat.min (start_idx + batch_size) (List.length frames_data) in
  mk_request (slice start_idx end_idx frames_data) j start_idx
             (slice start_idx end_idx all_yolo_detections).

(** What a batch adds to [all_frame_details]. *)
Definition details_of (r : batch_result) : list frame_detail :=
  match r with
  | BatchSuccess batch_frame_details => batch_frame_details
  | BatchFailure _ => []
  end.

Lemma batch_loop_spec (batch_size : nat) (frames_data : list frame_data)
      (all_yolo_detections : list (list detection)) :
  forall (remaining batch_num : nat) (acc : list frame_detail),
    batch_loop remaining batch_num batch_size frames_data
               all_yolo_detections acc
    = acc ++ flat_map
               (fun j => details_of
                           (analyze_batch_with_openrouter
                              (batch_request frames_data all_yolo_detections
                                             batch_size j)))
               (seq batch_num remaining).
Proof.
  induction remaining as [|n IH]; intros k acc; simpl.
  - now rewrite app_nil_r.
  - rewrite IH. fold (batch_request frames_data all_yolo_detections batch_size k).
    destruct (analyze_batch_with_openrouter
                (batch_request frames_data all_yolo_detections batch_size k));
      simpl; [now rewrite app_assoc|reflexivity].
Qed.


(** The orchestrator returns normally, with the details of the batches
    that succeeded, in order. *)
Lemma process_frames_in_batches_spec (frames_data : list frame_data)
      (batch_size : nat) :
  batch_size <> 0 ->
  exists all_yolo_detections,
    process_frames_in_batches frames_data batch_size
    = Ret (flat_map
             (fun j => details_of
                         (analyze_batch_with_openrouter
                            (batch_request frames_data all_yolo_detections
                                           batch_size j)))
             (seq 0 ((List.length frames_data + batch_size - 1) / batch_size)),
           all_yolo_detections).
Proof.
  intros Hb. unfold process_frames_in_batches.
  apply Nat.eqb_neq in Hb. rewrite Hb.
  eexists. rewrite batch_loop_spec. reflexivity.
Qed.


End Batches.

End BatchOrchestrator.

(** ** More string operations, used by the report *)

Module PyText.
Import PyStr.
Local Open Scope string_scope.

(** [s.endswith(suffix)] *)
Definition endswith (suffix s : string) : bool :=
  (String.length suffix <=? String.length s)%nat
  && String.eqb (substring (String.length s - String.length suffix)
                           (String.length suffix) s) suffix.

(** [s.replace(old, "")] for a non-empty [old]; [fuel] bounds the length. *)
Fixpoint remove_all_aux (fuel : nat) (old s : string) : string :=
  match fuel with
  | O => s
  | S fuel' =>
      match s with
      | EmptyString => EmptyString
      | String c t =>
          if startswith old s
          then remove_all_aux fuel' old
                 (substring (String.length old)
                            (String.length s - String.length old) s)
          else String c (remove_all_aux fuel' old t)
      end
  end.

Definition remove_all (old s : string) : string :=
  remove_all_aux (S (String.length s)) old s.

(** [s[:n]] *)
Definition prefix_of_length (n : nat) (s : string) : string := substring 0 n s.

Definition is_letter (c : ascii) : bool := is_ascii_upper c || is_ascii_lower c.

Fixpoint title_aux (previous_is_cased : bool) (s : string) : string :=
  match s with
  | EmptyString => EmptyString
  | String c t =>
      String (if previous_is_cased then lower_char c else upper_char c)
             (title_aux (is_letter c) t)
  end.

(** [s.title()] *)
Definition title (s : string) : string := title_aux false s.

(** [str(z)] for an integer *)
Definition str_of_Z (z : Z) : string :=
  if (z <? 0)%Z then "-" ++ PyFormat.str_of_N (Z.to_N (- z))
  else PyFormat.str_of_N (Z.to_N z).

Definition string_leb (a b : string) : bool :=
  match String.compare a b with Gt => false | _ => true end.

Fixpoint insert_sorted (x : string) (l : list string) : list string :=
  match l with
  | [] => [x]
  | y :: t => if string_leb x y then x :: l else y :: insert_sorted x t
  end.

(** [l.sort()] on strings: the order of the code points. *)
Definition sort (l : list string) : list string :=
  fold_right insert_sorted [] l.

Example title_dining_table : title "dining table" = "Dining Table".
Proof. reflexivity. Qed.

Example remove_jpg : remove_all ".jpg" "frame_3_00m03s.jpg" = "frame_3_00m03s".
Proof. reflexivity. Qed.

Example sort_frames :
  sort ["frame_2_00m02s.jpg"; "frame_10_00m10s.jpg"; "frame_1_00m01s.jpg"]
  = ["frame_10_00m10s.jpg"; "frame_1_00m01s.jpg"; "frame_2_00m02s.jpg"].
Proof. reflexivity. Qed.

End PyText.

(** ** The analysis entry point *)

Module Analysis.
Import PyStr PyNum PyText BatchOrchestrator.
Local Open Scope string_scope.

(** [assess_hazard_severity(class_name, confidence, bbox_position)]:
    severity, reason, priority and [immediate_action].  The size and the
    center are computed on floats. *)
Definition assess_hazard_severity (cls : string) (b : bbox)
  : string * string * Z * bool :=
  let class_lower := lower cls in
  let object_size :=
    (PyFloat.nearest (box_w b) * PyFloat.nearest (box_h b))%float in
  if any_in ["car"; "truck"; "bus"; "motorcycle"; "bicycle"] class_lower
  then ("critical", "Vehicle blocking emergency access", 1%Z, true)
  else if PrimFloat.ltb 0.1 object_size
  then ("high", "Large object blocking significant pathway area", 2%Z, true)
  else
    let center_x :=
      (PyFloat.nearest (box_x b) + PyFloat.nearest (box_w b) / 2)%float in
    if PrimFloat.leb 0.3 center_x && PrimFloat.leb center_x 0.7
       && PrimFloat.ltb 0.05 object_size
    then ("medium", "Object in main pathway area", 3%Z, false)
    else ("low", "Minor pathway obstruction", 4%Z, false).

(** The state of the cache file [analysis.json] of the dataset. *)
Inductive cache_file : Type :=
| NoCache
| UnreadableCache
| Cached (content : pyval).

(** Everything outside the process that a run observes. *)
Record world : Type := mk_world {
  w_makedirs : outcome unit;
  w_cache : cache_file;
  w_listdir : outcome (list string);
  w_similar : string -> string -> Q -> outcome bool;
  w_read_base64 : string -> outcome string;
  w_has_yolo : bool;
  w_detect : string -> list detection;
  w_post : request -> outcome response
}.

(** A frame object of the report. *)
Record frame_obj : Type := mk_frame_obj {
  fo_time : string;
  fo_filename : string;
  fo_boundingBoxes : list pyval;
  fo_yolo_detections : nat;
  fo_detail : frame_detail
}.

Record combined : Type := mk_combined {
  overall_incorrect_parking : bool;
  overall_waste_material : bool;
  all_explanations : list string;
  processed_frames : list frame_obj
}.

Definition in_list (s : string) (l : list string) : bool :=
  existsb (String.eqb s) l.

(** [TypeError] of [value[:40]] on a value that cannot be sliced. *)
Definition not_subscriptable (v : unsliceable) : exn :=
  OtherError ("'" ++ type_name v ++ "' object is not subscriptable").

(** One safety issue: the flags, the explanation and the box built from its
    grid cells.  The label slices the description, which raises when the
    description is not a string; the updates made before are then lost with
    the rest of the run. *)
Definition process_issue (frame_index : Z) (acc : combined * list pyval)
           (issue : safety_issue) : outcome (combined * list pyval) :=
  let '(c, boxes) := acc in
  match issue_description issue with
  | NotText v => Raise (not_subscriptable v)
  | Text description =>
      let parking := in_list (issue_type issue) ["parking"; "vehicle"] in
      let waste :=
        negb parking && in_list (issue_type issue) ["waste"; "debris"] in
      let c := mk_combined
                 (overall_incorrect_parking c || parking)
                 (overall_waste_material c || waste)
                 (app (all_explanations c)
                      ["Frame " ++ str_of_Z frame_index ++ ": " ++ description])
                 (processed_frames c) in
      let bbox_coords :=
        GridLocator.convert_grid_cells_to_bounding_box (issue_gridCells issue) in
      Ret (c,
           app boxes
             [VDict
                [ ("label", VStr ("AI: " ++ issue_type issue ++ ": "
                                  ++ prefix_of_length 40 description ++ "..."));
                  ("x", VFloat (GridLocator.fx bbox_coords));
                  ("y", VFloat (GridLocator.fy bbox_coords));
                  ("w", VFloat (GridLocator.fw bbox_coords));
                  ("h", VFloat (GridLocator.fh bbox_coords));
                  ("source", VStr "ai_analysis");
                  ("severity", VStr (issue_severity issue));
                  ("mitigation", VStr (issue_mitigationStrategy issue)) ]])
  end.

Fixpoint process_issues (frame_index : Z) (acc : combined * list pyval)
         (issues : list safety_issue) : outcome (combined * list pyval) :=
  match issues with
  | [] => Ret acc
  | issue :: rest =>
      acc' <- process_issue frame_index acc issue ;;
      process_issues frame_index acc' rest
  end.

(** The boxes of the detector's critical hazards. *)
Definition hazard_boxes (detections : list detection) : list pyval :=
  flat_map
    (fun yolo_obj =>
       let b := det_bbox yolo_obj in
       if HazardClassifier.is_critical_safety_hazard
            (class_name yolo_obj) (confidence yolo_obj) b
            HazardClassifier.default_base_threshold
       then
         let '(severity, reason, priority, immediate_action) :=
           assess_hazard_severity (class_name yolo_obj) b in
         [VDict
            [ ("label", VStr (title (class_name yolo_obj) ++ " - "
                              ++ upper severity));
              ("x", VNum (box_x b)); ("y", VNum (box_y b));
              ("w", VNum (box_w b)); ("h", VNum (box_h b));
              ("source", VStr "yolo_detection");
              ("confidence", VNum (confidence yolo_obj));
              ("safety_category", VStr (safety_category yolo_obj));
              ("severity", VStr severity);
              ("reason", VStr reason);
              ("priority", VInt priority);
              ("immediate_action", VBool immediate_action);
              ("hazard_type", VStr "pathway_obstruction");
              ("mitigation_summary",
               VStr (if immediate_action
                     then "Remove " ++ class_name yolo_obj
                          ++ " from pathway immediately"
                     else "Relocate " ++ class_name yolo_obj
                          ++ " to designated area")) ]]
       else [])
    detections.

(** The loop over [enumerate(all_frame_details)]. *)
Fixpoint combine_loop (frame_idx : nat) (details : list frame_detail)
         (frames_data : list frame_data)
         (all_yolo_detections : list (list detection))
         (c : combined) : outcome combined :=
  match details with
  | [] => Ret c
  | frame_detail :: rest =>
      let frame_index := frameIndex frame_detail in
      match find (fun fd => (fd_original_index fd =? frame_index)%Z)
                 frames_data with
      | None =>
          combine_loop (S frame_idx) rest frames_data all_yolo_detections c
      | Some corresponding_frame =>
          let frame_yolo_detections :=
            nth frame_idx all_yolo_detections [] in
          r <- process_issues frame_index (c, []) (safetyIssues frame_detail) ;;
          let '(c, ai_boxes) := r in
          let bounding_boxes := app ai_boxes (hazard_boxes frame_yolo_detections) in
          combine_loop (S frame_idx) rest frames_data all_yolo_detections
            (mk_combined
               (overall_incorrect_parking c) (overall_waste_material c)
               (all_explanations c)
               (app (processed_frames c)
                    [mk_frame_obj (timestamp frame_detail)
                                  (fd_filename corresponding_frame)
                                  bounding_boxes
                                  (List.length frame_yolo_detections)
                                  frame_detail]))
      end
  end.

Definition empty_combined : combined := mk_combined false false [] [].

(** The encoders of the report. *)
Definition text_value (d : text_field) : pyval :=
  match d with
  | Text s => VStr s
  | NotText NullValue => VNone
  | NotText (BoolValue b) => VBool b
  | NotText (IntValue z) => VInt z
  | NotText (FloatValue q) => VNum q
  end.

Definition grid_cells_value (v : GridLocator.pyvalue) : pyval :=
  match v with
  | GridLocator.PyString s => VStr s
  | GridLocator.PyNone => VNone
  | GridLocator.PyOther b => VBool b
  end.

Definition issue_value (i : safety_issue) : pyval :=
  VDict [ ("type", VStr (issue_type i));
          ("severity", VStr (issue_severity i));
          ("description", text_value (issue_description i));
          ("gridCells", grid_cells_value (issue_gridCells i));
          ("mitigationStrategy", VStr (issue_mitigationStrategy i)) ].

Definition detail_value (d : frame_detail) : pyval :=
  VDict [ ("frameIndex", VInt (frameIndex d));
          ("timestamp", VStr (timestamp d));
          ("detailedObservations", VStr (detailedObservations d));
          ("safetyIssues", VList (map issue_value (safetyIssues d)));
          ("pathwayClearance", VStr (pathwayClearance d));
          ("emergencyAccess", VStr (emergencyAccess d));
          ("recommendedActions", VList (recommendedActions d)) ].

Definition frame_obj_value (f : frame_obj) : pyval :=
  VDict [ ("time", VStr (fo_time f));
          ("imageUrl", VStr ("/temp/" ++ fo_filename f));
          ("filename", VStr (fo_filename f));
          ("boundingBoxes", VList (fo_boundingBoxes f));
          ("yolo_detections", VInt (Z.of_nat (fo_yolo_detections f)));
          ("ai_issues",
           VInt (Z.of_nat (List.length (safetyIssues (fo_detail f)))));
          ("frame_analysis",
           VDict [ ("detailed_observations",
                    VStr (detailedObservations (fo_detail f)));
                   ("pathway_clearance", VStr (pathwayClearance (fo_detail f)));
                   ("emergency_access", VStr (emergencyAccess (fo_detail f)));
                   ("recommended_actions",
                    VList (recommendedActions (fo_detail f))) ]) ].

Definition strings_value (l : list string) : pyval := VList (map VStr l).

Definition mitigation_value (m : MitigationSynthesizer.mitigation) : pyval :=
  VDict
    (app
       [ ("type", VStr (MitigationSynthesizer.m_type m));
         ("severity", VStr (MitigationSynthesizer.m_severity m));
         ("urgency", VStr (MitigationSynthesizer.m_urgency m));
         ("description", VStr (MitigationSynthesizer.m_description m));
         ("specific_risks",
          strings_value (MitigationSynthesizer.m_specific_risks m));
         ("mitigation_steps",
          strings_value (MitigationSynthesizer.m_mitigation_steps m));
         ("timeline", VStr (MitigationSynthesizer.m_timeline m));
         ("responsible_party",
          VStr (MitigationSynthesizer.m_responsible_party m));
         ("estimated_cost", VStr (MitigationSynthesizer.m_estimated_cost m));
         ("emergency_impact",
          VStr (MitigationSynthesizer.m_emergency_impact m)) ]
       match MitigationSynthesizer.m_compliance m with
       | Some c => [("compliance", VStr c)]
       | None => []
       end).

Definition int_of_len {A : Type} (l : list A) : pyval :=
  VInt (Z.of_nat (List.length l)).

(** [result_obj] *)
Definition result_obj (w : world) (frame_files unique_frame_files : list string)
           (frames_data : list frame_data)
           (all_frame_details : list frame_detail)
           (all_yolo_detections : list (list detection))
           (c : combined) : pydict :=
  let flat_yolo_detections := List.concat all_yolo_detections in
  let comprehensive_mitigations :=
    MitigationSynthesizer.generate_mitigation_strategies
      flat_yolo_detections
      (MitigationSynthesizer.mk_ai_flags (overall_incorrect_parking c)
                                         (overall_waste_material c)) in
  let combined_explanation :=
    match all_explanations c with
    | [] => "Analyzed " ++ PyFormat.str_of_nat (List.length frames_data)
            ++ " unique frames - no safety violations detected."
    | _ => "Comprehensive analysis of "
           ++ PyFormat.str_of_nat (List.length frames_data)
           ++ " unique frames using combined YOLO object detection and AI grid-based analysis (filtered from "
           ++ PyFormat.str_of_nat (List.length frame_files)
           ++ " total frames). " ++ join "; " (all_explanations c)
    end in
  let hazardous := filter potential_hazard flat_yolo_detections in
  let total_ai_issues :=
    list_sum (map (fun d => List.length (safetyIssues d)) all_frame_details) in
  [ ("success", VBool true);
    ("analysis",
     VDict
       [ ("incorrectParking", VBool (overall_incorrect_parking c));
         ("wasteMaterial", VBool (overall_waste_material c));
         ("explanation", VStr combined_explanation);
         ("frameDetails", VList (map detail_value all_frame_details));
         ("frames", VList (map frame_obj_value (processed_frames c)));
         ("mitigationStrategies",
          VList (map mitigation_value comprehensive_mitigations));
         ("violations", VList []);
         ("statistics",
          VDict
            [ ("total_frames_analyzed", int_of_len frames_data);
              ("total_yolo_objects", int_of_len flat_yolo_detections);
              ("total_hazardous_objects", int_of_len hazardous);
              ("total_ai_safety_issues", VInt (Z.of_nat total_ai_issues));
              ("frames_with_issues",
               int_of_len
                 (filter (fun f => MitigationSynthesizer.nonempty
                                     (fo_boundingBoxes f))
                         (processed_frames c))) ]) ]);
    ("frames_analyzed", int_of_len frames_data);
    ("total_frames", int_of_len frame_files);
    ("unique_frames", int_of_len unique_frame_files);
    ("similarity_filtered",
     VInt (Z.of_nat (List.length frame_files)
           - Z.of_nat (List.length unique_frame_files)));
    ("yolo_detections", int_of_len flat_yolo_detections);
    ("hazardous_objects", int_of_len hazardous);
    ("method", VStr "Enhanced Detection (Vision + Grid Analysis)");
    ("detection_methods",
     VDict [ ("yolo_available", VBool (w_has_yolo w));
             ("ai_grid_analysis", VBool true);
             ("similarity_filtering", VBool true) ]) ].

(** [parts[2] if len(parts) > 2 else "00:00"] of the file name without
    [.jpg], split at underscores. *)
Definition timestamp_of (filename : string) : string :=
  nth 2 (split_char "_" (remove_all ".jpg" filename)) "00:00".

(** Step 2: the frames that can be read, with their position in the list
    of unique frames. *)
Fixpoint load_frames (w : world) (idx : Z) (files : list string)
  : list frame_data :=
  match files with
  | [] => []
  | filename :: rest =>
      match w_read_base64 w filename with
      | Ret image_base64 =>
          mk_frame_data filename (timestamp_of filename) image_base64 idx
          :: load_frames w (idx + 1)%Z rest
      | Raise _ => load_frames w (idx + 1)%Z rest
      end
  end.

(** Where the first part of the run ends: with a returned value, or with
    the frames loaded. *)
Inductive loaded : Type :=
| Early (result : pyval)
| Loaded (frame_files unique_frame_files : list string)
         (frames_data : list frame_data).

(** From the start to the end of step 2. *)
Definition load_stage (w : world) : outcome loaded :=
  _ <- w_makedirs w ;;
  match w_cache w with
  | Cached cached => Ret (Early cached)
  | _ =>
      files <- w_listdir w ;;
      let frame_files :=
        sort (filter (fun file => startswith "frame_" file
                                  && endswith ".jpg" file) files) in
      match frame_files with
      | [] =>
          Ret (Early (VDict [ ("success", VBool false);
                              ("error", VStr "No frame files found in directory");
                              ("frames_checked", VInt 0) ]))
      | _ =>
          unique <- FrameSampler.filter_unique_frames
                      (w_similar w) (88 # 100) frame_files ;;
          unique <- (if (15 <? List.length unique)%nat
                     then
                       sampled <- FrameSampler.slice_step
                                    (Nat.max 2 (List.length unique / 10)) unique ;;
                       Ret (firstn 10 sampled)
                     else Ret unique) ;;
          match load_frames w 0 unique with
          | [] =>
              Ret (Early
                     (VDict [ ("success", VBool false);
                              ("error",
                               VStr "No frames could be loaded for analysis");
                              ("frames_checked", int_of_len frame_files);
                              ("unique_frames", int_of_len unique) ]))
          | frames_data => Ret (Loaded frame_files unique frames_data)
          end
      end
  end.

(** Steps 3 and 4 and the construction of the result.  The dataset is then
    written inside a [try] of its own, which changes nothing in the value
    returned. *)
Definition report_stage (w : world) (frame_files unique_frame_files : list string)
           (frames_data : list frame_data) : outcome pydict :=
  let batch_size := Nat.min 3 (Nat.max 1 (List.length frames_data / 2)) in
  r <- process_frames_in_batches (w_post w) (w_detect w) (w_has_yolo w)
         frames_data batch_size ;;
  let '(all_frame_details, all_yolo_detections) := r in
  c <- combine_loop 0 all_frame_details frames_data all_yolo_detections
         empty_combined ;;
  Ret (result_obj w frame_files unique_frame_files frames_data
                  all_frame_details all_yolo_detections c).

(** The four handlers of the entry point. *)
Definition failure_result (e : exn) (frames_analyzed : nat) : pyval :=
  VDict [ ("success", VBool false);
          ("error",
           VStr match e with
                | TimeoutError _ => "OpenRouter API request timed out"
                | RequestError m => "Network error: " ++ m
                | JSONDecodeError m =>
                    "Failed to parse API response as JSON: " ++ m
                | ValueError m | OtherError m => "Unexpected error: " ++ m
                end);
          ("frames_analyzed", VInt (Z.of_nat frames_analyzed)) ].

(** [analyze_frames_with_openrouter(frames_dir, api_key, job_id)] *)
Definition analyze_frames_with_openrouter (w : world) : pyval :=
  match load_stage w with
  | Raise e => failure_result e 0
  | Ret (Early result) => result
  | Ret (Loaded frame_files unique_frame_files frames_data) =>
      match report_stage w frame_files unique_frame_files frames_data with
      | Ret result => VDict result
      | Raise e => failure_result e (List.length frames_data)
      end
  end.

(** *** Results *)

(** The two shapes of a report of the analysis. *)
Definition analysis_report (v : pyval) : Prop :=
  exists d : pydict,
    v = VDict d
    /\ ((py_get "success" d = Some (VBool true)
         /\ has_key "analysis" d = true)
        \/ (py_get "success" d = Some (VBool false)
            /\ is_str (py_get "error" d) = true)).

Lemma process_issues_raise (frame_index : Z) (issues : list safety_issue) :
  forall acc e,
    process_issues frame_index acc issues = Raise e ->
    exists v, e = not_subscriptable v.
Proof.
  induction issues as [|issue rest IH]; simpl; intros acc e H; [discriminate|].
  destruct acc as [c boxes]. unfold process_issue in H.
  destruct (issue_description issue) as [description|v].
  - cbn [bind] in H. exact (IH _ _ H).
  - cbn [bind] in H. exists v. now inversion H.
Qed.

Lemma combine_loop_raise (frames_data : list frame_data)
      (all_yolo_detections : list (list detection))
      (details : list frame_detail) :
  forall frame_idx c e,
    combine_loop frame_idx details frames_data all_yolo_detections c = Raise e ->
    exists v, e = not_subscriptable v.
Proof.
  induction details as [|d rest IH]; simpl; intros k c e H; [discriminate|].
  destruct (find _ frames_data).
  - destruct (process_issues (frameIndex d) (c, []) (safetyIssues d))
      as [[c' boxes]|e'] eqn:Hp; cbn [bind] in H.
    + exact (IH _ _ _ H).
    + inversion H; subst. exact (process_issues_raise _ _ _ _ Hp).
  - exact (IH _ _ _ H).
Qed.




Lemma batch_size_positive (n : nat) : Nat.min 3 (Nat.max 1 (n / 2)) <> 0%nat.
Proof. lia. Qed.

(** After the frames are loaded the run ends with a success report, or with
    the failure of an ill-typed description; the answers of the network,
    time-outs included, do not decide which. *)
Lemma report_stage_cases (w : world) (frame_files unique : list string)
      (frames_data : list frame_data) :
  (exists d, report_stage w frame_files unique frames_data = Ret d
             /\ py_get "success" d = Some (VBool true)
             /\ has_key "analysis" d = true)
  \/ (exists v, report_stage w frame_files unique frames_data
                = Raise (not_subscriptable v)).
Proof.
  unfold report_stage.
  destruct (process_frames_in_batches_spec
              (w_post w) (w_detect w) (w_has_yolo w) frames_data _
              (batch_size_positive (List.length frames_data)))
    as [yolo Hproc].
  rewrite Hproc. cbn [bind].
  match goal with
  | |- context [combine_loop 0 ?ds frames_data yolo empty_combined] =>
      destruct (combine_loop 0 ds frames_data yolo empty_combined)
        as [c|e] eqn:Hc
  end; cbn [bind].
  - left. eexists. split; [reflexivity|]. split; reflexivity.
  - right. destruct (combine_loop_raise _ _ _ _ _ _ Hc) as [v ->].
    now exists v.
Qed.

Lemma failure_result_is_report (e : exn) (n : nat) :
  analysis_report (failure_result e n).
Proof.
  eexists. split; [reflexivity|]. right. split; [reflexivity|].
  now destruct e.
Qed.

Lemma load_stage_early (w : world) (v : pyval) :
  load_stage w = Ret (Early v) ->
  w_cache w = Cached v \/ analysis_report v.
Proof.
  unfold load_stage.
  destruct (w_makedirs w) as [[]|e]; cbn [bind]; [|discriminate].
  destruct (w_cache w) as [| |cached] eqn:Hcache;
    try (intros H; inversion H; subst; now left).
  all: destruct (w_listdir w) as [files|e]; cbn [bind]; [|discriminate].
  all: destruct (sort _) as [|f fs]; [intros H; inversion H; subst; right;
    eexists; split; [reflexivity|]; right; split; reflexivity|].
  all: destruct (FrameSampler.filter_unique_frames _ _ _) as [u|e];
    cbn [bind]; [|discriminate].
  all: destruct (15 <? List.length u)%nat; cbn [bind].
  all: try (destruct (FrameSampler.slice_step _ u) as [sm|e]; cbn [bind];
            [|discriminate]).
  all: destruct (load_frames w 0 _); intros H; inversion H; subst; right;
    eexists; (split; [reflexivity|]); right; split; reflexivity.
Qed.

(** Without a readable cache every path ends in a report. *)
Lemma analyze_uncached_reports (w : world) :
  (w_makedirs w = Ret tt -> forall v, w_cache w <> Cached v) ->
  analysis_report (analyze_frames_with_openrouter w).
Proof.
  intros Hcache. unfold analyze_frames_with_openrouter.
  destruct (load_stage w) as [[v|ff u fd]|e] eqn:Hload.
  - destruct (load_stage_early w v Hload) as [Hc|Hr]; [|exact Hr].
    exfalso. unfold load_stage in Hload.
    destruct (w_makedirs w) as [[]|e]; [|discriminate Hload].
    exact (Hcache eq_refl v Hc).
  - destruct (report_stage_cases w ff u fd) as [[d [-> [Hs Ha]]]|[v ->]].
    + exists d. split; [reflexivity|]. left. now split.
    + apply failure_result_is_report.
  - apply failure_result_is_report.
Qed.

(** With a readable cache the cached value is returned as it is. *)
Lemma analyze_cached_verbatim (w : world) (v : pyval) :
  w_makedirs w = Ret tt -> w_cache w = Cached v ->
  analyze_frames_with_openrouter w = v.
Proof.
  intros Hm Hc. unfold analyze_frames_with_openrouter, load_stage.
  now rewrite Hm, Hc.
Qed.

(** [result["analysis"][key]] and [result[key]] *)
Definition analysis_entry (key : string) (v : pyval) : option pyval :=
  match v with
  | VDict d =>
      match py_get "analysis" d with
      | Some (VDict a) => py_get key a
      | _ => None
      end
  | _ => None
  end.

Definition top_entry (key : string) (v : pyval) : option pyval :=
  match v with VDict d => py_get key d | _ => None end.


(** Two frames, one batch each: the call of the first batch times out, the
    call of the second is answered with one frame detail. *)
Definition second_detail : frame_detail :=
  mk_detail 1 "00:01" "A pallet stands in the aisle."
            [mk_issue "obstruction" "high" (Text "Pallet in the aisle")
                      (GridLocator.PyString "B2-B3") "Move the pallet"]
            "Partly blocked" "Reduced" [].

Definition timeout_world : world :=
  mk_world (Ret tt) NoCache
           (Ret ["frame_0_00m00s.jpg"; "frame_1_00m01s.jpg"])
           (fun _ _ _ => Ret false)
           (fun _ => Ret "AAAA")
           false (fun _ => [])
           (fun req => if (req_batch_num req =? 0)%nat
                       then Raise (TimeoutError "Read timed out.")
                       else Ret (mk_response 200 "" (Ret [second_detail]))).




(** A description that is [null] ends the run with the error of the slice,
    which names the type. *)
Example null_description_fails_the_run :
  let detail :=
    mk_detail 0 "00:00" ""
              [mk_issue "obstruction" "high" (NotText NullValue)
                        (GridLocator.PyString "B2") ""]
              "" "" [] in
  let w := mk_world (Ret tt) NoCache (Ret ["frame_0_00m00s.jpg"])
                    (fun _ _ _ => Ret false) (fun _ => Ret "AAAA")
                    false (fun _ => [])
                    (fun _ => Ret (mk_response 200 "" (Ret [detail]))) in
  top_entry "error" (analyze_frames_with_openrouter w)
  = Some (VStr "Unexpected error: 'NoneType' object is not subscriptable").
Proof. vm_compute. reflexivity. Qed.

End Analysis.

(** ** The entry points *)

Module EntryPoints.
Import FrameExtractor Analysis.
Local Open Scope Q_scope.

Definition static_extraction (fuel : nat) (frame_interval : Q)
  : option pydict :=
  extract_frames_with_opencv
    (fun f => Ret f) (fun _ _ _ => true) (fun _ _ => 0)
    static_similarity (fun _ _ => Ret true) (fun _ => Ret ""%string)
    "out" frame_interval (70 # 100) fuel static_capture.

(** An opened video without frames. *)
Definition empty_capture : @capture (list Z) :=
  mk_capture true 30 0 (fun _ => Ret None).

Definition empty_extraction (fuel : nat) : option pydict :=
  extract_frames_with_opencv
    (fun f => Ret f) (fun _ _ _ => true) (fun _ _ => 0)
    static_similarity (fun _ _ => Ret true) (fun _ => Ret ""%string)
    "out" 1 (70 # 100) fuel empty_capture.

Definition stale_cache_world : world :=
  mk_world (Ret tt) (Cached (VList []))
           (Ret []) (fun _ _ _ => Ret false) (fun _ => Ret ""%string)
           false (fun _ => []) (fun _ => Raise (TimeoutError "Read timed out.")).

(** C9, as the code has it.  Neither entry point lets an exception escape:
    each ends in a handler that builds a failure report.  The extraction,
    run with a positive frame interval, returns a dictionary with [success]
    and either the extracted [frames] or an [error] string.  The analysis
    returns a dictionary with [success] and either an [analysis] payload or
    an [error] string on every path that does not read the cache, and the
    cached value as it is when the cache is readable. *)
Theorem entry_points_end_in_reports :
  (forall (frame : Type)
          (resize : frame -> outcome frame)
          (is_frame_quality_acceptable : frame -> Q -> Q -> bool)
          (detect_motion : frame -> frame -> Q)
          (calculate_frame_similarity : frame -> frame -> Q -> bool)
          (imwrite : string -> frame -> outcome bool)
          (encode_base64 : frame -> outcome string)
          (output_dir : string) (frame_interval similarity_threshold : Q)
          (cap : capture),
      0 < frame_interval ->
      exists fuel0, forall fuel, (fuel0 <= fuel)%nat ->
        exists result,
          extract_frames_with_opencv
            resize is_frame_quality_acceptable detect_motion
            calculate_frame_similarity imwrite encode_base64
            output_dir frame_interval similarity_threshold fuel cap
          = Some result
          /\ extraction_report result)
  /\ (forall w : world,
        (w_makedirs w = Ret tt -> forall v, w_cache w <> Cached v) ->
        analysis_report (analyze_frames_with_openrouter w))
  /\ (forall (w : world) (v : pyval),
        w_makedirs w = Ret tt -> w_cache w = Cached v ->
        analyze_frames_with_openrouter w = v).
Proof.
  split; [|split].
  - intros. now apply extract_returns_report.
  - apply analyze_uncached_reports.
  - apply analyze_cached_verbatim.
Qed.

Lemma entry_points_end_in_reports_witness :
  (exists fuel0, forall fuel, (fuel0 <= fuel)%nat ->
     exists result, static_extraction fuel 1 = Some result
                    /\ extraction_report result)
  /\ analysis_report (analyze_frames_with_openrouter timeout_world)
  /\ analyze_frames_with_openrouter stale_cache_world = VList [].
Proof.
  split; [|split].
  - apply (proj1 entry_points_end_in_reports). reflexivity.
  - apply (proj1 (proj2 entry_points_end_in_reports)).
    intros _ v. discriminate.
  - apply (proj2 (proj2 entry_points_end_in_reports)); reflexivity.
Defined.

Lemma static_iteration_returns :
  forall current_time st, exists st',
    iteration (fun f => Ret f) (fun _ _ _ => true) (fun _ _ => 0)
              static_similarity (fun _ _ => Ret true) (fun _ => Ret ""%string)
              "out" (70 # 100) static_capture current_time st
    = Ret st'.
Proof.
  intros ct st. unfold iteration, static_capture. cbn [read_frame bind negb].
  destruct (retention _ _ _ _ _ _) as [[|] skipped]; eexists; reflexivity.
Qed.

(** C9, as stated, fails in three places: a successful extraction carries
    [frames] and no [analysis] payload; with a frame interval of zero the
    extraction of a video of positive duration never returns; and on a
    cache hit the analysis returns whatever the cache file holds, here a
    list and no dictionary. *)
Lemma entry_point_results_outside_the_claim :
  (exists result, empty_extraction 1 = Some result
                  /\ py_get "success" result = Some (VBool true)
                  /\ has_key "analysis" result = false)
  /\ (forall fuel, static_extraction fuel 0 = None)
  /\ analyze_frames_with_openrouter stale_cache_world = VList [].
Proof.
  split; [|split].
  - eexists. split; [vm_compute; reflexivity|]. split; reflexivity.
  - intros fuel. unfold static_extraction, extract_frames_with_opencv,
      extract_body.
    cbn [isOpened static_capture negb].
    rewrite (loop_never_ends _ _ _ _ _ _ "out" 0 (70 # 100) static_capture);
      [reflexivity|apply Qle_refl|reflexivity| |apply Qle_refl].
    apply static_iteration_returns.
  - reflexivity.
Qed.

End EntryPoints.

(** * Further properties of the pipeline *)

From Stdlib Require Import Permutation Sorted.

(** ** DetectionDeduplicator: properties of the whole pass *)

Module DeduplicatorFacts.
Import PyStr PyNum DetectionDeduplicator.
Local Open Scope Q_scope.

Lemma list_remove_incl (e x : detection) (l : list detection) :
  In x (list_remove e l) -> In x l.
Proof.
  induction l as [|y l IH]; simpl; [tauto|].
  destruct (detection_eqb y e); simpl; intuition.
Qed.

Lemma list_remove_length (e : detection) (l : list detection) :
  (List.length (list_remove e l) <= List.length l)%nat.
Proof.
  induction l as [|y l IH]; simpl; [lia|].
  destruct (detection_eqb y e); simpl; lia.
Qed.

(** Removing an element that is in the list shortens the list by one. *)
Lemma list_remove_length_in (e : detection) (l : list detection) :
  In e l -> S (List.length (list_remove e l)) = List.length l.
Proof.
  induction l as [|y l IH]; simpl; [tauto|].
  intros [->|Hin].
  - now rewrite detection_eqb_refl.
  - destruct (detection_eqb y e); simpl; [reflexivity|].
    now rewrite IH.
Qed.

Section Facts.

(** The properties below hold whatever [pow] computes. *)
Variable pow : float -> float -> float.

Local Notation "'distance_lt'" := (DetectionDeduplicator.distance_lt pow).
Local Notation "'scan_existing'" := (DetectionDeduplicator.scan_existing pow).
Local Notation "'dedup_step'" := (DetectionDeduplicator.dedup_step pow).
Local Notation "'remove_duplicate_detections'" :=
  (DetectionDeduplicator.remove_duplicate_detections pow).

(** The two outcomes of a scan that finds a duplicate. *)
Lemma scan_existing_some (det : detection) (t : Q) (unique : list detection) :
  forall todo u,
    incl todo unique ->
    scan_existing det todo unique t = Some u ->
    u = unique
    \/ exists existing,
         In existing todo
         /\ confidence existing < confidence det
         /\ u = list_remove existing unique ++ [det].
Proof.
  induction todo as [|e rest IH]; simpl; intros u Hincl H; [discriminate|].
  assert (Hrest : incl rest unique) by (intros x Hx; apply Hincl; now right).
  assert (Hnext : scan_existing det rest unique t = Some u ->
                  u = unique
                  \/ exists existing,
                       In existing (e :: rest)
                       /\ confidence existing < confidence det
                       /\ u = list_remove existing unique ++ [det]).
  { intros Hs. destruct (IH u Hrest Hs) as [->|[x [Hx [Hc Hu]]]]; [now left|].
    right. exists x. repeat split; auto. now right. }
  destruct (String.eqb (class_name det) (class_name e)); [|exact (Hnext H)].
  destruct (distance_lt det e t); [|exact (Hnext H)].
  destruct (Qltb (confidence e) (confidence det)) eqn:E; inversion H; subst.
  - right. exists e. repeat split; [now left|now apply Qltb_lt].
  - now left.
Qed.

Lemma dedup_step_incl (t : Q) (unique : list detection) (det x : detection) :
  In x (dedup_step t unique det) -> In x unique \/ x = det.
Proof.
  unfold dedup_step.
  destruct (scan_existing det unique unique t) as [u|] eqn:E.
  - destruct (scan_existing_some det t unique unique u (incl_refl _) E)
      as [->|[e [_ [_ ->]]]]; [now left|].
    intros H. apply in_app_or in H as [H|[H|[]]].
    + left. exact (list_remove_incl _ _ _ H).
    + right. now symmetry.
  - intros H. apply in_app_or in H as [H|[H|[]]]; [now left|right; now symmetry].
Qed.

Lemma dedup_step_length (t : Q) (unique : list detection) (det : detection) :
  (List.length unique <= List.length (dedup_step t unique det)
   <= S (List.length unique))%nat.
Proof.
  unfold dedup_step.
  destruct (scan_existing det unique unique t) as [u|] eqn:E.
  - destruct (scan_existing_some det t unique unique u (incl_refl _) E)
      as [->|[e [He [_ ->]]]]; [lia|].
    rewrite length_app. simpl.
    pose proof (list_remove_length_in e unique He). lia.
  - rewrite length_app. simpl. lia.
Qed.

Lemma dedup_fold_incl (t : Q) (dets : list detection) :
  forall acc x,
    In x (fold_left (dedup_step t) dets acc) -> In x acc \/ In x dets.
Proof.
  induction dets as [|d dets IH]; simpl; intros acc x H; [now left|].
  destruct (IH _ _ H) as [H1|H1]; [|now right; right].
  destruct (dedup_step_incl _ _ _ _ H1) as [H2| ->]; [now left|right; now left].
Qed.

Lemma dedup_fold_length (t : Q) (dets : list detection) :
  forall acc,
    (List.length acc <= List.length (fold_left (dedup_step t) dets acc)
     <= List.length acc + List.length dets)%nat.
Proof.
  induction dets as [|d dets IH]; simpl; intros acc; [lia|].
  pose proof (IH (dedup_step t acc d)).
  pose proof (dedup_step_length t acc d). lia.
Qed.

(** A detection is never accepted into an empty list as a duplicate. *)
Lemma dedup_step_nonempty (t : Q) (unique : list detection) (det : detection) :
  dedup_step t unique det <> [].
Proof.
  pose proof (dedup_step_length t unique det) as H.
  unfold dedup_step in *.
  destruct (scan_existing det unique unique t) as [u|] eqn:E.
  - destruct unique as [|e unique]; [discriminate E|].
    intros ->. simpl in H. lia.
  - intros Habs. apply app_eq_nil in Habs as [_ Habs]. discriminate.
Qed.

(** X1. Deduplication only selects: every detection it returns is one of
    the detections it was given, it returns no more detections than it was
    given, and it returns at least one detection unless it was given
    none. *)
Theorem dedup_selects_from_input (detections : list detection) (t : Q) :
  (forall x, In x (remove_duplicate_detections detections t) ->
             In x detections)
  /\ (List.length (remove_duplicate_detections detections t)
      <= List.length detections)%nat
  /\ (remove_duplicate_detections detections t = [] <-> detections = []).
Proof.
  unfold remove_duplicate_detections.
  destruct detections as [|d dets]; [repeat split; auto; simpl; tauto|].
  split; [|split].
  - intros x H. destruct (dedup_fold_incl _ _ _ _ H) as [[]|H']; exact H'.
  - pose proof (dedup_fold_length t (d :: dets) []). simpl in *. lia.
  - split; [|discriminate]. intros H. exfalso.
    simpl in H.
    pose proof (dedup_fold_length t dets (dedup_step t [] d)) as Hl.
    rewrite H in Hl. simpl in Hl.
    destruct (dedup_step t [] d) eqn:E; [|simpl in Hl; lia].
    exact (dedup_step_nonempty _ _ _ E).
Qed.

Lemma scan_existing_none (det : detection) (t : Q) (unique : list detection) :
  forall todo,
    (forall e, In e todo -> class_name e <> class_name det) ->
    scan_existing det todo unique t = None.
Proof.
  induction todo as [|e rest IH]; simpl; intros H; [reflexivity|].
  destruct (String.eqb (class_name det) (class_name e)) eqn:E.
  - apply String.eqb_eq in E. exfalso. apply (H e); [now left|now symmetry].
  - apply IH. intros x Hx. apply H. now right.
Qed.

Lemma dedup_fold_distinct (t : Q) (dets : list detection) :
  forall acc,
    NoDup (map class_name (acc ++ dets)) ->
    fold_left (dedup_step t) dets acc = acc ++ dets.
Proof.
  induction dets as [|d dets IH]; simpl; intros acc H; [now rewrite app_nil_r|].
  assert (Hstep : dedup_step t acc d = acc ++ [d]).
  { unfold dedup_step. rewrite scan_existing_none; [reflexivity|].
    intros e He Heq. rewrite map_app in H. simpl in H.
    apply NoDup_remove_2 in H. apply H. apply in_or_app. left.
    rewrite <- Heq. now apply in_map. }
  rewrite Hstep, IH; rewrite <- app_assoc; [reflexivity|exact H].
Qed.

(** X2. Detections of pairwise different classes are never duplicates of
    one another: the list is returned unchanged, whatever the positions of
    the boxes and whatever the threshold. *)
Theorem dedup_keeps_distinct_classes (detections : list detection) (t : Q) :
  NoDup (map class_name detections) ->
  remove_duplicate_detections detections t = detections.
Proof.
  intros H. unfold remove_duplicate_detections.
  destruct detections as [|d dets]; [reflexivity|].
  now rewrite (dedup_fold_distinct t (d :: dets) []).
Qed.

Lemma list_remove_keeps (d e : detection) (l : list detection) :
  In d l -> detection_eqb d e = false -> In d (list_remove e l).
Proof.
  intros Hin Hne. induction l as [|y l IH]; simpl; [destruct Hin|].
  destruct (detection_eqb y e) eqn:E.
  - destruct Hin as [->|Hin]; [congruence|exact Hin].
  - destruct Hin as [->|Hin]; [now left|right; now apply IH].
Qed.

Lemma detection_eqb_confidence (a b : detection) :
  detection_eqb a b = true -> confidence a == confidence b.
Proof.
  unfold detection_eqb. rewrite !andb_true_iff.
  intros [[[[[[_ H] _] _] _] _] _]. now apply Qeq_bool_iff.
Qed.

(** A detection more confident than all accepted ones enters the list. *)
Lemma dedup_step_accepts (t : Q) (unique : list detection) (det : detection) :
  (forall e, In e unique -> confidence e < confidence det) ->
  In det (dedup_step t unique det).
Proof.
  intros Hall. unfold dedup_step.
  assert (G : forall todo u,
             incl todo unique ->
             scan_existing det todo unique t = Some u -> In det u).
  { induction todo as [|e rest IH]; simpl; intros u Hincl H; [discriminate|].
    assert (Hrest : incl rest unique) by (intros x Hx; apply Hincl; now right).
    destruct (String.eqb (class_name det) (class_name e)); [|now apply IH].
    destruct (distance_lt det e t); [|now apply IH].
    assert (E : Qltb (confidence e) (confidence det) = true).
    { apply Qltb_lt, Hall, Hincl. now left. }
    rewrite E in H. inversion H; subst.
    apply in_or_app. right. now left. }
  destruct (scan_existing det unique unique t) as [u|] eqn:E.
  - exact (G unique u (incl_refl _) E).
  - apply in_or_app. right. now left.
Qed.

(** An accepted detection stays when a less confident one is processed. *)
Lemma dedup_step_keeps (t : Q) (unique : list detection) (d det : detection) :
  In d unique -> confidence det < confidence d ->
  In d (dedup_step t unique det).
Proof.
  intros Hin Hlt. unfold dedup_step.
  destruct (scan_existing det unique unique t) as [u|] eqn:E.
  - destruct (scan_existing_some det t unique unique u (incl_refl _) E)
      as [->|[e [_ [Hc ->]]]]; [exact Hin|].
    apply in_or_app. left. apply list_remove_keeps; [exact Hin|].
    destruct (detection_eqb d e) eqn:Eq; [|reflexivity].
    apply detection_eqb_confidence in Eq. exfalso.
    rewrite <- Eq in Hc.
    apply (Qlt_irrefl (confidence d)). eapply Qlt_trans; eassumption.
  - apply in_or_app. now left.
Qed.

Lemma dedup_fold_keeps (t : Q) (d : detection) (dets : list detection) :
  forall acc,
    In d acc ->
    (forall e, In e dets -> confidence e < confidence d) ->
    In d (fold_left (dedup_step t) dets acc).
Proof.
  induction dets as [|x dets IH]; simpl; intros acc Hin Hall; [exact Hin|].
  apply IH.
  - apply dedup_step_keeps; [exact Hin|]. apply Hall. now left.
  - intros e He. apply Hall. now right.
Qed.

(** X3. A detection that is strictly more confident than every other
    detection of the input is always returned, wherever it stands in the
    input and whatever the classes, the positions and the threshold. *)
Theorem dedup_keeps_most_confident
        (before after : list detection) (d : detection) (t : Q) :
  (forall e, In e before -> confidence e < confidence d) ->
  (forall e, In e after -> confidence e < confidence d) ->
  In d (remove_duplicate_detections (before ++ d :: after) t).
Proof.
  intros Hb Ha.
  assert (Hfold : In d (fold_left (dedup_step t) (before ++ d :: after) [])).
  { rewrite fold_left_app. simpl.
    apply dedup_fold_keeps; [|exact Ha].
    apply dedup_step_accepts. intros e He.
    destruct (dedup_fold_incl _ _ _ _ He) as [[]|He']. now apply Hb. }
  unfold remove_duplicate_detections.
  destruct (before ++ d :: after) eqn:E; [|exact Hfold].
  destruct before; discriminate E.
Qed.

End Facts.

Lemma dedup_keeps_distinct_classes_witness :
  remove_duplicate_detections rounded_pow
    [chair_a; table_a; MitigationSynthesizer.couch] (5 # 1)
  = [chair_a; table_a; MitigationSynthesizer.couch].
Proof.
  apply (dedup_keeps_distinct_classes rounded_pow
           [chair_a; table_a; MitigationSynthesizer.couch] (5 # 1)).
  repeat constructor; simpl; intuition discriminate.
Defined.

Lemma dedup_keeps_most_confident_witness :
  In chair_b (remove_duplicate_detections rounded_pow
                [chair_a; chair_b; chair_c] distance_threshold_default).
Proof.
  apply (dedup_keeps_most_confident rounded_pow [chair_a] [chair_c] chair_b
                                    distance_threshold_default).
  - intros e [<-|[]]. reflexivity.
  - intros e [<-|[]]. reflexivity.
Defined.

End DeduplicatorFacts.

(** ** HazardClassifier: what makes a hazard *)

Module HazardFacts.
Import PyStr PyNum HazardClassifier.
Local Open Scope Q_scope.

(** All keywords of the four hazard groups. *)
Definition hazard_keywords : list string := flat_map snd critical_hazards.

Lemma scan_critical_spec (groups : list (string * list string))
      (class_lower : string) (b : bbox) :
  scan_critical groups class_lower b
  = any_in (flat_map snd groups) class_lower && in_pathway b.
Proof.
  induction groups as [|[name items] rest IH]; simpl; [reflexivity|].
  unfold any_in in *. rewrite existsb_app, IH.
  destruct (existsb (fun item => contains item class_lower) items); simpl;
    [|reflexivity].
  destruct (in_pathway b); [reflexivity|].
  now rewrite andb_false_r.
Qed.

Lemma adaptive_threshold_at_least (cls : string) :
  20 # 100 <= get_adaptive_confidence_threshold cls.
Proof.
  unfold get_adaptive_confidence_threshold.
  destruct (any_in vehicle_tier (lower cls)); [discriminate|].
  destruct (any_in blocking_tier (lower cls)); [discriminate|].
  destruct (any_in small_tier (lower cls)); discriminate.
Qed.

(** The pathway zone: the comparisons that the code makes on the computed
    center. *)
Definition zone_x (b : bbox) : Prop :=
  PrimFloat.leb 0.2 (center_x b) = true /\ PrimFloat.leb (center_x b) 0.8 = true.

Definition zone_y (b : bbox) : Prop :=
  PrimFloat.leb 0.3 (center_y b) = true /\ PrimFloat.leb (center_y b) 0.9 = true.

Lemma in_pathway_spec (b : bbox) :
  in_pathway b = true <-> zone_x b /\ zone_y b.
Proof.
  unfold in_pathway, zone_x, zone_y. rewrite !andb_true_iff. tauto.
Qed.

(** X4. A detection is a critical hazard exactly when three conditions
    hold together: its confidence reaches the effective threshold (the
    larger of the base floor and the adaptive threshold of its class), its
    lower-cased class name contains a keyword of one of the four hazard
    groups, and the center of its box, computed on floats as [x + w/2]
    and [y + h/2], passes the tests of the pathway zone,
    [0.2 <= center_x <= 0.8] and [0.3 <= center_y <= 0.9].  In particular
    no detection of confidence below 0.20 is a hazard, whatever the base
    floor. *)
Theorem hazard_exactly_when (cls : string) (conf : Q) (b : bbox) (base : Q) :
  (is_critical_safety_hazard cls conf b base = true
   <-> py_max base (get_adaptive_confidence_threshold cls) <= conf
       /\ any_in hazard_keywords (lower cls) = true
       /\ zone_x b /\ zone_y b)
  /\ (is_critical_safety_hazard cls conf b base = true -> 20 # 100 <= conf).
Proof.
  assert (Hiff : is_critical_safety_hazard cls conf b base = true
                 <-> py_max base (get_adaptive_confidence_threshold cls) <= conf
                     /\ any_in hazard_keywords (lower cls) = true
                     /\ zone_x b /\ zone_y b).
  { unfold is_critical_safety_hazard. rewrite scan_critical_spec.
    fold hazard_keywords.
    destruct (Qltb conf (py_max base (get_adaptive_confidence_threshold cls)))
      eqn:E.
    - apply Qltb_lt in E. split; [discriminate|].
      intros [Hle _]. exfalso. exact (Qlt_not_le _ _ E Hle).
    - apply Qltb_ge in E. rewrite andb_true_iff, in_pathway_spec. tauto. }
  split; [exact Hiff|].
  intros H. apply Hiff in H as [Hle _].
  eapply Qle_trans; [apply adaptive_threshold_at_least|].
  eapply Qle_trans; [apply (py_max_ge_r base)|exact Hle].
Qed.

(** A truck in the middle of the frame is a hazard.  A truck whose box
    has its center at 0.2 by the decimals is not: the code computes
    0.02 + 0.36 / 2 as 0.19999999999999998, which is outside the zone. *)
Example truck_in_the_middle :
  is_critical_safety_hazard
    "truck" (9 # 10) (mk_bbox (3 # 10) (4 # 10) (4 # 10) (2 # 10))
    default_base_threshold = true.
Proof. vm_compute. reflexivity. Qed.

Example truck_at_the_border_of_the_zone :
  center_x (mk_bbox (2 # 100) (4 # 10) (36 # 100) (2 # 10))
  = 0.19999999999999998%float
  /\ is_critical_safety_hazard
       "truck" (9 # 10) (mk_bbox (2 # 100) (4 # 10) (36 # 100) (2 # 10))
       default_base_threshold = false.
Proof. split; vm_compute; reflexivity. Qed.

End HazardFacts.

(** ** DetectionNormalizer and the detector pass *)

Module ObjectDetector.
Import PyStr PyNum HazardClassifier DetectionDeduplicator.
Local Open Scope Q_scope.

(** [is_realistic_detection(class_name, bbox_position, confidence)]; the
    area and the center are computed on floats. *)
Definition is_realistic_detection (cls : string) (b : bbox) (conf : Q) : bool :=
  let w := PyFloat.nearest (box_w b) in
  let h := PyFloat.nearest (box_h b) in
  let area := (w * h)%float in
  let class_lower := lower cls in
  if PrimFloat.ltb area 0.001 then false
  else if PrimFloat.ltb 0.5 area then false
  else if any_in ["car"; "truck"; "bus"] class_lower
          && (PrimFloat.ltb area 0.01 || PrimFloat.ltb 0.4 area) then false
  else if contains "person" class_lower
          && (PrimFloat.ltb area 0.005 || PrimFloat.ltb 0.2 area) then false
  else
    let center_x := (PyFloat.nearest (box_x b) + w / 2)%float in
    let center_y := (PyFloat.nearest (box_y b) + h / 2)%float in
    if (PrimFloat.ltb center_x 0.05 || PrimFloat.ltb 0.95 center_x
        || PrimFloat.ltb center_y 0.05 || PrimFloat.ltb 0.95 center_y)
       && Qltb conf (7 # 10)
    then false
    else true.

(** The format specification [:.3f], as [PyFormat.format_2f] for [:.2f]. *)
Definition format_3f (q : Q) : string :=
  let q := PyFloat.value (PyFloat.nearest q) in
  let thousandths :=
    PyFormat.round_half_even (Z.abs (Qnum q) * 1000) (Zpos (Qden q)) in
  let frac := (thousandths mod 1000)%Z in
  let body :=
    (PyFormat.str_of_N (Z.to_N (thousandths / 1000)) ++ "."
     ++ (if (frac <? 10)%Z then "00" else if (frac <? 100)%Z then "0" else "")
     ++ PyFormat.str_of_N (Z.to_N frac))%string in
  if (Qnum q <? 0)%Z then ("-" ++ body)%string else body.

(** One box of a result of a model: [box.xyxy[0]], [box.conf[0]] and the
    name of [box.cls[0]].  The four corners stand for floats, as the
    coordinates of a [bbox] do. *)
Record raw_box : Type := mk_raw_box {
  rb_x1 : Q; rb_y1 : Q; rb_x2 : Q; rb_y2 : Q;
  rb_confidence : Q;
  rb_class_name : string
}.

Record model_config : Type := mk_config {
  mc_model : string;
  mc_name : string;
  mc_conf : Q
}.

(** The three models; the lowered thresholds are products of floats. *)
Definition model_configs (confidence_threshold : Q) : list model_config :=
  let scaled := fun factor : float =>
    PyFloat.value (PyFloat.nearest confidence_threshold * factor)%float in
  [ mk_config "yolo11n.pt" "nano" confidence_threshold;
    mk_config "yolo11s.pt" "small" (scaled 0.8%float);
    mk_config "yolo11m.pt" "medium" (scaled 0.7%float) ].

Section Detector.

Variable HAS_YOLO : bool.

(** The boxes that the pass over one model reaches for an image: all boxes
    of all its results, or those read before the model, the inference or a
    box raised (none when the model cannot be loaded).  What is raised is
    printed and the next model is tried. *)
Variable run_model : model_config -> string -> list raw_box.

(** [cv2.imread(image_path).shape[:2]]: height and width, [None] for an
    image that cannot be read. *)
Variable image_shape : string -> option (positive * positive).

(** The function [pow] of the C library, which the deduplication calls. *)
Variable pow : float -> float -> float.

(** The body of the loop over the boxes: the detection appended for a box,
    if any.  The normalized coordinates are computed on floats, and the
    box holds their exact values. *)
Definition detection_of_box (config : model_config) (image_path : string)
           (box : raw_box) : option detection :=
  match image_shape image_path with
  | None => None
  | Some (height, width) =>
      let x1 := PyFloat.nearest (rb_x1 box) in
      let y1 := PyFloat.nearest (rb_y1 box) in
      let x2 := PyFloat.nearest (rb_x2 box) in
      let y2 := PyFloat.nearest (rb_y2 box) in
      let width := PyFloat.nearest (inject_Z (Zpos width)) in
      let height := PyFloat.nearest (inject_Z (Zpos height)) in
      let x_norm := PyFloat.value (x1 / width)%float in
      let y_norm := PyFloat.value (y1 / height)%float in
      let w_norm := PyFloat.value ((x2 - x1) / width)%float in
      let h_norm := PyFloat.value ((y2 - y1) / height)%float in
      let class_name := rb_class_name box in
      let confidence := rb_confidence box in
      let safety_category := classify_object_for_safety class_name in
      let bbox_position := mk_bbox x_norm y_norm w_norm h_norm in
      if negb (is_realistic_detection class_name bbox_position confidence)
      then None
      else Some (mk_detection
                   class_name confidence bbox_position safety_category
                   (is_critical_safety_hazard class_name confidence
                                              bbox_position
                                              default_base_threshold)
                   (mc_name config)
                   (class_name ++ "_" ++ format_3f x_norm ++ "_"
                    ++ format_3f y_norm)%string)
  end.

Fixpoint detections_of_boxes (config : model_config) (image_path : string)
         (boxes : list raw_box) : list detection :=
  match boxes with
  | [] => []
  | box :: rest =>
      match detection_of_box config image_path box with
      | Some d => d :: detections_of_boxes config image_path rest
      | None => detections_of_boxes config image_path rest
      end
  end.

(** [all_detections] after the loop over the three models. *)
Definition all_detections (image_path : string) (confidence_threshold : Q)
  : list detection :=
  flat_map (fun config =>
              detections_of_boxes config image_path
                                  (run_model config image_path))
           (model_configs confidence_threshold).

(** [detect_objects_with_yolo(image_path, confidence_threshold)] *)
Definition detect_objects_with_yolo (image_path : string)
           (confidence_threshold : Q) : list detection :=
  if negb HAS_YOLO then []
  else remove_duplicate_detections pow
         (all_detections image_path confidence_threshold)
         distance_threshold_default.

(** *** Results *)

(** [area], as the filter computes it. *)
Definition area (b : bbox) : float :=
  (PyFloat.nearest (box_w b) * PyFloat.nearest (box_h b))%float.

(** The computed center of the box is within 5% of a border of the
    frame. *)
Definition near_edge (b : bbox) : Prop :=
  PrimFloat.ltb (center_x b) 0.05 = true
  \/ PrimFloat.ltb 0.95 (center_x b) = true
  \/ PrimFloat.ltb (center_y b) 0.05 = true
  \/ PrimFloat.ltb 0.95 (center_y b) = true.

(** The computed area is at least [lo] and at most [hi], as far as the
    filter tests it: it is neither below [lo] nor above [hi]. *)
Definition area_within (lo hi : float) (b : bbox) : Prop :=
  PrimFloat.ltb (area b) lo = false /\ PrimFloat.ltb hi (area b) = false.

Lemma edge_test (b : bbox) (conf : Q) :
  (PrimFloat.ltb (center_x b) 0.05 || PrimFloat.ltb 0.95 (center_x b)
   || PrimFloat.ltb (center_y b) 0.05 || PrimFloat.ltb 0.95 (center_y b))
  && Qltb conf (7 # 10) = false ->
  near_edge b -> 7 # 10 <= conf.
Proof.
  intros H Hedge. destruct (Qltb conf (7 # 10)) eqn:Ec; [|now apply Qltb_ge].
  rewrite andb_true_r in H.
  apply orb_false_iff in H as [H H4]. apply orb_false_iff in H as [H H3].
  apply orb_false_iff in H as [H1 H2].
  exfalso. destruct Hedge as [L|[L|[L|L]]]; congruence.
Qed.

(** What the realism filter lets through. *)
Lemma realistic_bounds (cls : string) (b : bbox) (conf : Q) :
  is_realistic_detection cls b conf = true ->
  area_within 0.001 0.5 b
  /\ (any_in ["car"; "truck"; "bus"] (lower cls) = true ->
      area_within 0.01 0.4 b)
  /\ (contains "person" (lower cls) = true -> area_within 0.005 0.2 b)
  /\ (near_edge b -> 7 # 10 <= conf).
Proof.
  unfold is_realistic_detection, area_within. fold (area b).
  fold (center_x b) (center_y b).
  destruct (PrimFloat.ltb (area b) 0.001) eqn:E1; [discriminate|].
  destruct (PrimFloat.ltb 0.5 (area b)) eqn:E2; [discriminate|].
  destruct (any_in ["car"; "truck"; "bus"] (lower cls)
            && (PrimFloat.ltb (area b) 0.01 || PrimFloat.ltb 0.4 (area b)))
    eqn:E3; [discriminate|].
  destruct (contains "person" (lower cls)
            && (PrimFloat.ltb (area b) 0.005 || PrimFloat.ltb 0.2 (area b)))
    eqn:E4; [discriminate|].
  cbv zeta.
  match goal with
  | |- (if ?c then false else true) = true -> _ =>
      destruct c eqn:E5; [discriminate|]
  end.
  intros _. split; [now split|]. split; [|split].
  - intros Hv. rewrite Hv in E3. simpl in E3.
    apply orb_false_iff in E3 as [L U]. now split.
  - intros Hp. rewrite Hp in E4. simpl in E4.
    apply orb_false_iff in E4 as [L U]. now split.
  - now apply edge_test.
Qed.

(** What every detection built from a box satisfies. *)
Definition well_formed (d : detection) : Prop :=
  area_within 0.001 0.5 (det_bbox d)
  /\ (near_edge (det_bbox d) -> 7 # 10 <= confidence d)
  /\ safety_category d = classify_object_for_safety (class_name d)
  /\ potential_hazard d
     = is_critical_safety_hazard (class_name d) (confidence d) (det_bbox d)
                                 default_base_threshold
  /\ In (model_used d) ["nano"; "small"; "medium"]%string.

Lemma detection_of_box_well_formed (config : model_config)
      (image_path : string) (box : raw_box) (d : detection) :
  In (mc_name config) ["nano"; "small"; "medium"]%string ->
  detection_of_box config image_path box = Some d ->
  well_formed d.
Proof.
  intros Hname. unfold detection_of_box.
  destruct (image_shape image_path) as [[height width]|]; [|discriminate].
  destruct (is_realistic_detection _ _ _) eqn:E; simpl; [|discriminate].
  intros H. inversion H; subst. unfold well_formed. simpl.
  destruct (realistic_bounds _ _ _ E) as [Ha [_ [_ He]]].
  repeat split; auto; apply Ha.
Qed.

Lemma detections_of_boxes_in (config : model_config) (image_path : string)
      (boxes : list raw_box) (d : detection) :
  In d (detections_of_boxes config image_path boxes) ->
  exists box, In box boxes /\ detection_of_box config image_path box = Some d.
Proof.
  induction boxes as [|box rest IH]; simpl; [tauto|].
  destruct (detection_of_box config image_path box) as [d'|] eqn:E.
  - intros [<-|H]; [exists box; auto|].
    destruct (IH H) as [b [Hb Hd]]. exists b. auto.
  - intros H. destruct (IH H) as [b [Hb Hd]]. exists b. auto.
Qed.

Lemma all_detections_well_formed (image_path : string) (ct : Q)
      (d : detection) :
  In d (all_detections image_path ct) -> well_formed d.
Proof.
  unfold all_detections. intros H. apply in_flat_map in H as [config [Hc Hd]].
  apply detections_of_boxes_in in Hd as [box [_ Hbox]].
  apply (detection_of_box_well_formed config image_path box d); auto.
  simpl in Hc. destruct Hc as [<-|[<-|[<-|[]]]]; simpl; auto.
Qed.

Lemma detections_of_boxes_length (config : model_config)
      (image_path : string) (boxes : list raw_box) :
  (List.length (detections_of_boxes config image_path boxes)
   <= List.length boxes)%nat.
Proof.
  induction boxes as [|box rest IH]; simpl; [lia|].
  destruct (detection_of_box config image_path box); simpl; lia.
Qed.

(** X5. Every detection that the detector pass returns for an image was
    built from a box of one of the three models and passed the realism
    filter: its area, as computed, is neither below 0.1% nor above 50% of
    the frame, and its confidence is at least 0.7 when its computed center
    is within 5% of a border.
    Its safety category is the one of its class, and its
    [potential_hazard] flag is the verdict of the hazard classifier at the
    default base threshold.  Without the detector library, and for an
    image that cannot be read, the pass returns no detection at all. *)
Theorem detector_pass_returns_well_formed
        (image_path : string) (confidence_threshold : Q) :
  (forall d, In d (detect_objects_with_yolo image_path confidence_threshold) ->
             well_formed d
             /\ In d (all_detections image_path confidence_threshold))
  /\ (HAS_YOLO = false ->
      detect_objects_with_yolo image_path confidence_threshold = [])
  /\ (image_shape image_path = None ->
      detect_objects_with_yolo image_path confidence_threshold = []).
Proof.
  unfold detect_objects_with_yolo. split; [|split].
  - intros d H. destruct (negb HAS_YOLO); [destruct H|].
    assert (Hin : In d (all_detections image_path confidence_threshold)).
    { unfold remove_duplicate_detections in H.
      destruct (all_detections image_path confidence_threshold) eqn:E;
        [destruct H|].
      rewrite <- E in *.
      destruct (DeduplicatorFacts.dedup_fold_incl _ _ _ _ _ H) as [[]|H'].
      exact H'. }
    split; [exact (all_detections_well_formed _ _ _ Hin)|exact Hin].
  - intros ->. reflexivity.
  - intros Hshape. destruct (negb HAS_YOLO); [reflexivity|].
    assert (E : all_detections image_path confidence_threshold = []).
    { unfold all_detections.
      assert (G : forall config boxes,
                 detections_of_boxes config image_path boxes = []).
      { intros config boxes. induction boxes as [|box rest IH]; simpl;
          [reflexivity|].
        unfold detection_of_box. now rewrite Hshape. }
      simpl. now rewrite !G. }
    now rewrite E.
Qed.

End Detector.

(** A frame of 640 x 480 with three boxes from the first model: a truck in
    the middle, a speck and a chair cut by the left border. *)
Definition sample_boxes : list raw_box :=
  [ mk_raw_box 192 144 448 336 (9 # 10) "truck";
    mk_raw_box 10 10 12 12 (9 # 10) "cup";
    mk_raw_box 0 200 40 300 (5 # 10) "chair" ].

Definition sample_run (config : model_config) (_ : string) : list raw_box :=
  if String.eqb (mc_name config) "nano" then sample_boxes else [].

Definition sample_shape (_ : string) : option (positive * positive) :=
  Some (480%positive, 640%positive).

Example sample_detector_pass :
  detect_objects_with_yolo true sample_run sample_shape rounded_pow
                           "frame.jpg" (1 # 10)
  = [ mk_detection "truck" (9 # 10)
                   (mk_bbox (PyFloat.value 0.3) (PyFloat.value 0.3)
                            (PyFloat.value 0.4) (PyFloat.value 0.4))
                   "vehicle" true "nano" "truck_0.300_0.300" ].
Proof. vm_compute. reflexivity. Qed.

Lemma detector_pass_returns_well_formed_witness :
  detect_objects_with_yolo false sample_run sample_shape rounded_pow
                           "frame.jpg" (1 # 10)
  = []
  /\ detect_objects_with_yolo true sample_run (fun _ => None) rounded_pow
                              "frame.jpg" (1 # 10) = [].
Proof.
  split.
  - exact (proj1 (proj2 (detector_pass_returns_well_formed
                           false sample_run sample_shape rounded_pow
                           "frame.jpg" (1 # 10)))
                 eq_refl).
  - exact (proj2 (proj2 (detector_pass_returns_well_formed
                           true sample_run (fun _ => None) rounded_pow
                           "frame.jpg" (1 # 10)))
                 eq_refl).
Defined.

End ObjectDetector.

(** ** MitigationSynthesizer: buckets and record types *)

Module MitigationFacts.
Import PyStr MitigationSynthesizer.

(** The eight buckets, in the order of their declaration. *)
Definition all_buckets (cats : object_categories) : list (list detection) :=
  [ vehicles cats; furniture cats; personal_items cats; containers cats;
    trip_hazards cats; equipment cats; people cats; other_hazards cats ].

Lemma concat_append_one {A : Type} (pre post : list (list A))
      (l : list A) (x : A) :
  Permutation (List.concat (pre ++ (l ++ [x]) :: post))
              (List.concat (pre ++ l :: post) ++ [x]).
Proof.
  rewrite !concat_app. simpl. rewrite <- !app_assoc.
  apply Permutation_app_head. apply Permutation_app_head.
  simpl. apply Permutation_cons_app. now rewrite app_nil_r.
Qed.

(** A hazard goes to the end of exactly one bucket; anything else leaves
    the buckets as they are. *)
Lemma categorize_adds_one (cats : object_categories) (obj : detection) :
  Permutation (List.concat (all_buckets (categorize cats obj)))
              (List.concat (all_buckets cats)
               ++ (if potential_hazard obj then [obj] else [])).
Proof.
  unfold categorize. destruct (potential_hazard obj);
    [|rewrite app_nil_r; apply Permutation_refl].
  repeat match goal with
         | |- context [if ?c then _ else _] => destruct c
         end; unfold all_buckets; cbn [vehicles furniture personal_items
           containers trip_hazards equipment people other_hazards].
  - apply (concat_append_one [] _ (vehicles cats) obj).
  - apply (concat_append_one
             [vehicles cats; furniture cats; personal_items cats;
              containers cats; trip_hazards cats; equipment cats]
             _ (people cats) obj).
  - apply (concat_append_one [vehicles cats] _ (furniture cats) obj).
  - apply (concat_append_one [vehicles cats; furniture cats]
                             _ (personal_items cats) obj).
  - apply (concat_append_one
             [vehicles cats; furniture cats; personal_items cats]
             _ (containers cats) obj).
  - apply (concat_append_one
             [vehicles cats; furniture cats; personal_items cats;
              containers cats] _ (trip_hazards cats) obj).
  - apply (concat_append_one
             [vehicles cats; furniture cats; personal_items cats;
              containers cats; trip_hazards cats] _ (equipment cats) obj).
  - apply (concat_append_one
             [vehicles cats; furniture cats; personal_items cats;
              containers cats; trip_hazards cats; equipment cats;
              people cats] [] (other_hazards cats) obj).
Qed.

Lemma categorize_fold (objs : list detection) :
  forall cats,
    Permutation (List.concat (all_buckets (fold_left categorize objs cats)))
                (List.concat (all_buckets cats) ++ filter potential_hazard objs).
Proof.
  induction objs as [|obj objs IH]; intros cats; cbn [fold_left filter];
    [rewrite app_nil_r; apply Permutation_refl|].
  rewrite IH. rewrite (categorize_adds_one cats obj).
  rewrite <- app_assoc. apply Permutation_app_head.
  destruct (potential_hazard obj); apply Permutation_refl.
Qed.

(** X6. The eight buckets partition the hazards: taken together, the
    members of the buckets are exactly the detections flagged
    [potential_hazard], each one in one bucket and once per occurrence in
    the input; in particular the bucket sizes add up to the number of
    hazards. *)
Theorem buckets_partition_hazards (detected_objects : list detection) :
  Permutation (List.concat (all_buckets (categorize_all detected_objects)))
              (filter potential_hazard detected_objects)
  /\ list_sum (map (@List.length detection)
                   (all_buckets (categorize_all detected_objects)))
     = List.length (filter potential_hazard detected_objects).
Proof.
  assert (H : Permutation
                (List.concat (all_buckets (categorize_all detected_objects)))
                (filter potential_hazard detected_objects)).
  { unfold categorize_all. now rewrite categorize_fold. }
  split; [exact H|].
  rewrite <- (Permutation_length H), length_concat. reflexivity.
Qed.

Lemma categorize_skips (cats : object_categories) (obj : detection) :
  potential_hazard obj = false -> categorize cats obj = cats.
Proof. intros H. unfold categorize. now rewrite H. Qed.

Lemma categorize_fold_filter (objs : list detection) :
  forall cats,
    fold_left categorize objs cats
    = fold_left categorize (filter potential_hazard objs) cats.
Proof.
  induction objs as [|obj objs IH]; simpl; intros cats; [reflexivity|].
  destruct (potential_hazard obj) eqn:E; simpl.
  - apply IH.
  - rewrite (categorize_skips _ _ E). apply IH.
Qed.

(** X7. Detections that are not flagged [potential_hazard] have no effect
    on the mitigation plan: the output is the one computed from the
    flagged detections alone, for any flags. *)
Theorem mitigation_ignores_non_hazards
        (detected_objects : list detection) (flags : ai_flags) :
  generate_mitigation_strategies detected_objects flags
  = generate_mitigation_strategies
      (filter potential_hazard detected_objects) flags.
Proof.
  unfold generate_mitigation_strategies, categorize_all.
  now rewrite <- categorize_fold_filter.
Qed.

(** The record types in the order of emission, each with the condition
    under which its record is emitted. *)
Definition emission_table (cats : object_categories) (flags : ai_flags)
  : list (string * bool) :=
  [ ("vehicle_parking_violation", nonempty (vehicles cats));
    ("furniture_obstruction", nonempty (furniture cats));
    ("container_storage_violation", nonempty (containers cats));
    ("trip_hazard_elimination", nonempty (trip_hazards cats));
    ("personal_belongings_management", nonempty (personal_items cats));
    ("personnel_safety_training", nonempty (people cats));
    ("ai_detected_parking_violation", incorrectParking flags);
    ("ai_detected_waste_debris", wasteMaterial flags);
    ("preventive_maintenance",
     negb (any_category cats) && negb (incorrectParking flags)
     && negb (wasteMaterial flags)) ].

Lemma types_emit_if (members : list detection)
      (r : list detection -> mitigation) (t : string) :
  (forall l, m_type (r l) = t) ->
  map m_type (emit_if members r) = if nonempty members then [t] else [].
Proof.
  intros H. destruct members; simpl; [reflexivity|]. now rewrite H.
Qed.

Lemma types_emit_flag (flag : bool) (r : mitigation) :
  map m_type (emit_flag flag r) = if flag then [m_type r] else [].
Proof. now destruct flag. Qed.

Lemma filter_table (table : list (string * bool)) :
  List.concat (map (fun e : string * bool => if snd e then [fst e] else []) table)
  = map fst (filter snd table).
Proof.
  induction table as [|[t b] table IH]; simpl; [reflexivity|].
  rewrite IH. now destruct b.
Qed.

Lemma emitted_types (objs : list detection) (flags : ai_flags) :
  map m_type (generate_mitigation_strategies objs flags)
  = map fst (filter snd (emission_table (categorize_all objs) flags)).
Proof.
  unfold generate_mitigation_strategies, emission_table.
  rewrite !map_app.
  rewrite (types_emit_if _ vehicle_record "vehicle_parking_violation"),
    (types_emit_if _ furniture_record "furniture_obstruction"),
    (types_emit_if _ container_record "container_storage_violation"),
    (types_emit_if _ trip_record "trip_hazard_elimination"),
    (types_emit_if _ personal_record "personal_belongings_management"),
    (types_emit_if _ people_record "personnel_safety_training"),
    !types_emit_flag by reflexivity.
  rewrite <- filter_table. cbn [map List.concat fst snd].
  rewrite app_nil_r. reflexivity.
Qed.

(** Leaving entries out of the table keeps its types distinct. *)
Lemma kept_types_distinct (table : list (string * bool)) :
  NoDup (map fst table) -> NoDup (map fst (filter snd table)).
Proof.
  induction table as [|[t keep] table IH]; cbn [map filter fst snd];
    intros Hall; [constructor|].
  apply NoDup_cons_iff in Hall as [Hfresh Hrest].
  destruct keep; cbn [map fst]; [|exact (IH Hrest)].
  apply NoDup_cons; [|exact (IH Hrest)].
  intros Hin. apply Hfresh.
  apply in_map_iff in Hin as [[t' keep'] [Heq Hin]].
  apply filter_In in Hin as [Hin _].
  apply in_map_iff. exists (t', keep'). now split.
Qed.

(** X8. The record types of the output are, in this order, those of the
    sequence vehicle, furniture, container, trip hazard, personal
    belongings, personnel, AI parking, AI waste, preventive whose condition
    holds (a non-empty bucket, a set flag, nothing found at all).  So no
    record type is emitted twice and the output has at most eight
    records. *)
Theorem mitigation_types_in_fixed_order
        (detected_objects : list detection) (flags : ai_flags) :
  let out := generate_mitigation_strategies detected_objects flags in
  map m_type out
  = map fst (filter snd
               (emission_table (categorize_all detected_objects) flags))
  /\ NoDup (map m_type out)
  /\ (List.length out <= 8)%nat.
Proof.
  cbv zeta. split; [apply emitted_types|]. split.
  - rewrite emitted_types. apply kept_types_distinct.
    unfold emission_table. cbn [map fst].
    repeat constructor; simpl; intuition discriminate.
  - rewrite <- (length_map m_type), emitted_types, length_map.
    destruct (negb (any_category (categorize_all detected_objects))
              && negb (incorrectParking flags) && negb (wasteMaterial flags))
      eqn:E.
    + apply andb_true_iff in E as [E Hw]. apply andb_true_iff in E as [Hc Hp].
      apply negb_true_iff in Hc, Hp, Hw.
      unfold emission_table.
      rewrite (no_category_all_empty _ Hc), Hp, Hw. simpl. lia.
    + unfold emission_table. rewrite E.
      match goal with
      | |- (List.length (filter snd ?t) <= 8)%nat =>
          change t with (firstn 8 t ++ skipn 8 t)
      end.
      rewrite filter_app, length_app. cbn [skipn filter snd List.length].
      match goal with
      | |- context [filter snd (firstn 8 ?t)] =>
          pose proof (filter_length_le snd (firstn 8 t)) as Hl;
          pose proof (firstn_le_length 8 t) as Hf
      end.
      lia.
Qed.

(** X9. The fallback record [preventive_maintenance] is in the output
    exactly when all eight buckets are empty and both flags are false, and
    it is then the whole output: it never comes with another record. *)
Theorem fallback_exactly_when_nothing_found
        (detected_objects : list detection) (flags : ai_flags) :
  (In preventive_record
      (generate_mitigation_strategies detected_objects flags)
   <-> any_category (categorize_all detected_objects) = false
       /\ incorrectParking flags = false /\ wasteMaterial flags = false)
  /\ (In preventive_record
         (generate_mitigation_strategies detected_objects flags) ->
      generate_mitigation_strategies detected_objects flags
      = [preventive_record]).
Proof.
  split; [|apply fallback_alone].
  split.
  - intros H. apply fallback_alone in H.
    pose proof (fallback_count detected_objects flags) as Hc.
    rewrite H in Hc. change (count_type "preventive_maintenance"
                                        [preventive_record]) with 1%nat in Hc.
    destruct (any_category (categorize_all detected_objects)),
      (incorrectParking flags), (wasteMaterial flags);
      simpl in Hc; try discriminate Hc. auto.
  - intros [Hc [Hp Hw]]. unfold generate_mitigation_strategies.
    rewrite (no_category_all_empty _ Hc), Hp, Hw. simpl. now left.
Qed.

Lemma fallback_exactly_when_nothing_found_witness :
  generate_mitigation_strategies [DetectionDeduplicator.chair_a]
                                 (mk_ai_flags false false)
  = [preventive_record].
Proof.
  apply (fallback_exactly_when_nothing_found
           [DetectionDeduplicator.chair_a] (mk_ai_flags false false)).
  apply (fallback_exactly_when_nothing_found
           [DetectionDeduplicator.chair_a] (mk_ai_flags false false)).
  repeat split; reflexivity.
Defined.

End MitigationFacts.

(** ** GridLocator: coverage *)

Module GridFacts.
Import PyStr GridLocator.











Lemma split_char_not_nil (sep : ascii) (s : string) : split_char sep s <> [].
Proof.
  destruct s as [|c t]; simpl; [discriminate|].
  destruct (Ascii.eqb c sep); [discriminate|].
  destruct (split_char sep t); discriminate.
Qed.

Lemma split_char_app (sep : ascii) (a b : string) :
  split_char sep (a ++ String sep b)%string
  = split_char sep a ++ split_char sep b.
Proof.
  induction a as [|c a IH]; simpl.
  - now rewrite Ascii.eqb_refl.
  - rewrite IH. destruct (Ascii.eqb c sep); [reflexivity|].
    destruct (split_char sep a) as [|w ws] eqn:E; [|reflexivity].
    exfalso. exact (split_char_not_nil sep a E).
Qed.







Local Open Scope Q_scope.





















Local Open Scope float_scope.




End GridFacts.

(** ** FrameSampler: what the filter selects *)

Module SamplerFacts.

Import FrameSampler.

Local Open Scope nat_scope.

(** [l] is [l'] with some entries left out, the others in their order. *)
Inductive subsequence {A : Type} : list A -> list A -> Prop :=
| subsequence_nil : subsequence [] []
| subsequence_skip (x : A) (l l' : list A) :
    subsequence l l' -> subsequence l (x :: l')
| subsequence_take (x : A) (l l' : list A) :
    subsequence l l' -> subsequence (x :: l) (x :: l').

Lemma subsequence_refl {A : Type} (l : list A) : subsequence l l.
Proof. induction l; constructor; assumption. Qed.

Lemma subsequence_empty {A : Type} (l : list A) : subsequence [] l.
Proof. induction l; constructor; assumption. Qed.

Lemma subsequence_trans {A : Type} (l1 l2 l3 : list A) :
  subsequence l1 l2 -> subsequence l2 l3 -> subsequence l1 l3.
Proof.
  intros H12 H23. revert l1 H12.
  induction H23 as [|x l l' H IH|x l l' H IH]; intros l1 H12.
  - exact H12.
  - apply subsequence_skip. apply IH. exact H12.
  - inversion H12; subst.
    + apply subsequence_skip. apply IH. assumption.
    + apply subsequence_take. apply IH. assumption.
Qed.

Lemma subsequence_firstn {A : Type} (n : nat) (l : list A) :
  subsequence (firstn n l) l.
Proof.
  revert n. induction l as [|x l IH]; intros [|n]; simpl.
  - constructor.
  - constructor.
  - apply subsequence_empty.
  - apply subsequence_take. apply IH.
Qed.

Lemma subsequence_stride {A : Type} (step : nat) (l : list A) :
  forall skip, subsequence (stride_from step skip l) l.
Proof.
  induction l as [|x l IH]; intros skip; simpl.
  - constructor.
  - destruct skip.
    + apply subsequence_take. apply IH.
    + apply subsequence_skip. apply IH.
Qed.

Lemma subsequence_slice {A : Type} (step : nat) (l sampled : list A) :
  slice_step step l = Ret sampled ->
  subsequence (firstn max_frames sampled) l.
Proof.
  unfold slice_step. destruct (step =? 0); [discriminate|].
  intros H. inversion H; subst.
  apply (subsequence_trans _ (stride_from step 0 l)).
  - apply subsequence_firstn.
  - apply subsequence_stride.
Qed.

Lemma subsequence_length {A : Type} (l l' : list A) :
  subsequence l l' -> List.length l <= List.length l'.
Proof. induction 1; simpl; lia. Qed.

Lemma subsequence_in {A : Type} (l l' : list A) (x : A) :
  subsequence l l' -> In x l -> In x l'.
Proof.
  induction 1 as [|y l l' H IH|y l l' H IH]; simpl; intros Hin.
  - exact Hin.
  - right. exact (IH Hin).
  - destruct Hin as [->|Hin]; [now left|right; exact (IH Hin)].
Qed.

(** The entry at position [k] of a stride is the entry at position
    [skip + k * step] of the list. *)
Lemma nth_error_stride {A : Type} (step : nat) (l : list A) :
  0 < step ->
  forall skip k,
    nth_error (stride_from step skip l) k = nth_error l (skip + k * step).
Proof.
  intros Hstep. induction l as [|x l IH]; intros skip k.
  - simpl. destruct k, (skip + _); reflexivity.
  - simpl. destruct skip as [|s].
    + destruct k as [|k]; [reflexivity|].
      simpl. rewrite IH.
      replace (step + k * step) with (S (step - 1 + k * step)) by lia.
      reflexivity.
    + simpl. apply IH.
Qed.

Lemma stride_one {A : Type} (l : list A) : stride_from 1 0 l = l.
Proof. induction l as [|x l IH]; simpl; [reflexivity|now rewrite IH]. Qed.

(** The step of the handler, by bands of the number of frames. *)
Definition fallback_step (total_frames : nat) : nat :=
  if total_frames <=? 15 then 3
  else if total_frames <=? 30 then 5
  else Nat.max 4 (total_frames / max_frames).

Lemma fallback_step_positive (n : nat) : 3 <= fallback_step n.
Proof.
  unfold fallback_step. destruct (n <=? 15); [lia|].
  destruct (n <=? 30); lia.
Qed.

Lemma fallback_filter_eq (frame_files : list string) :
  fallback_filter frame_files
  = if List.length frame_files <=? 5 then Ret frame_files
    else Ret (firstn max_frames
                (stride_from (fallback_step (List.length frame_files)) 0
                   frame_files)).
Proof.
  unfold fallback_filter. destruct (List.length frame_files <=? 5); [reflexivity|].
  fold (fallback_step (List.length frame_files)).
  unfold slice_step.
  pose proof (fallback_step_positive (List.length frame_files)) as Hp.
  destruct (fallback_step (List.length frame_files) =? 0) eqn:Hz.
  - apply Nat.eqb_eq in Hz. lia.
  - reflexivity.
Qed.

Lemma fallback_subsequence (frame_files : list string) :
  exists kept, fallback_filter frame_files = Ret kept
               /\ subsequence kept frame_files.
Proof.
  rewrite fallback_filter_eq. destruct (List.length frame_files <=? 5).
  - eexists. split; [reflexivity|apply subsequence_refl].
  - eexists. split; [reflexivity|].
    eapply subsequence_trans; [apply subsequence_firstn|apply subsequence_stride].
Qed.

Section Facts.

Variable similar : string -> string -> Q -> outcome bool.

Variable similarity_threshold : Q.

(** The loop only appends frames of its input, in their order. *)
Lemma primary_loop_appends (frames : list string) :
  forall (i : Z) (st st' : filter_state),
    primary_loop similar similarity_threshold i frames st = Ret st' ->
    exists picked,
      unique_frames st' = unique_frames st ++ picked
      /\ subsequence picked frames.
Proof.
  induction frames as [|current rest IH]; simpl; intros i st st' Hrun.
  - inversion Hrun; subst. exists []. rewrite app_nil_r.
    split; [reflexivity|constructor].
  - destruct (i - last_selected_index st <? min_frame_gap)%Z.
    + destruct (IH _ _ _ Hrun) as (picked & Hu & Hs).
      exists picked. split; [exact Hu|now apply subsequence_skip].
    + destruct (is_unique_among similar similarity_threshold current
                  (recent_frames (unique_frames st)))
        as [[|]|e]; simpl in Hrun; try discriminate.
      * destruct (IH _ _ _ Hrun) as (picked & Hu & Hs). simpl in Hu.
        exists (current :: picked). rewrite Hu, <- app_assoc.
        split; [reflexivity|now apply subsequence_take].
      * destruct (IH _ _ _ Hrun) as (picked & Hu & Hs).
        exists picked. split; [exact Hu|now apply subsequence_skip].
Qed.

Lemma primary_subsequence (frame_files kept : list string) :
  primary_filter similar similarity_threshold frame_files = Ret kept ->
  subsequence kept frame_files.
Proof.
  unfold primary_filter. destruct frame_files as [|first rest]; [discriminate|].
  destruct (primary_loop similar similarity_threshold 1 rest
              (mk_filter_state [first] 0)) as [st|e] eqn:Hrun;
    simpl; [|discriminate].
  destruct (primary_loop_appends _ _ _ _ Hrun) as (picked & Hu & Hs).
  simpl in Hu.
  assert (Hall : subsequence (unique_frames st) (first :: rest))
    by (rewrite Hu; now apply subsequence_take).
  destruct (max_frames <? List.length (unique_frames st)).
  - cbv zeta.
    destruct (slice_step _ (unique_frames st)) as [sampled|e] eqn:Hsl;
      simpl; [|discriminate].
    intros H. inversion H; subst.
    exact (subsequence_trans _ _ _ (subsequence_slice _ _ _ Hsl) Hall).
  - intros H. inversion H; subst. exact Hall.
Qed.

Lemma filter_subsequence (frame_files : list string) :
  exists kept,
    filter_unique_frames similar similarity_threshold frame_files = Ret kept
    /\ subsequence kept frame_files.
Proof.
  unfold filter_unique_frames. destruct frame_files as [|first rest].
  - exists []. split; [reflexivity|constructor].
  - destruct (primary_filter similar similarity_threshold (first :: rest))
      as [kept|e] eqn:Hp.
    + exists kept. split; [reflexivity|exact (primary_subsequence _ _ Hp)].
    + apply fallback_subsequence.
Qed.

(** The cap of twelve frames, on both paths and for the empty list. *)
Lemma filter_capped (frame_files kept : list string) :
  filter_unique_frames similar similarity_threshold frame_files = Ret kept ->
  List.length kept <= max_frames.
Proof.
  unfold filter_unique_frames. destruct frame_files as [|first rest].
  - intros H. inversion H; subst. cbn. unfold max_frames. lia.
  - destruct (primary_filter similar similarity_threshold (first :: rest))
      as [k|e] eqn:Hp.
    + intros H. inversion H; subst.
      exact (proj2 (primary_filter_ok _ _ _ _ _ Hp)).
    + destruct (fallback_filter_ok first rest) as (k & Hk & _ & Hcap).
      rewrite Hk. intros H. inversion H; subst. exact Hcap.
Qed.

(** X13. Whatever the comparisons answer or raise, [filter_unique_frames]
    returns a list, and that list is the input with some frames left out:
    the frames kept are frames of the input, in the order of the input,
    none of them repeated more often than the input has it. *)
Theorem filter_returns_subsequence (frame_files : list string) :
  exists kept,
    filter_unique_frames similar similarity_threshold frame_files = Ret kept
    /\ subsequence kept frame_files
    /\ List.length kept <= List.length frame_files
    /\ (forall f, In f kept -> In f frame_files).
Proof.
  destruct (filter_subsequence frame_files) as (kept & Hrun & Hsub).
  exists kept. split; [exact Hrun|]. split; [exact Hsub|].
  split; [exact (subsequence_length _ _ Hsub)|].
  intros f. apply subsequence_in. exact Hsub.
Qed.

(** While every frame is found similar to the first one, the loop keeps
    its state. *)
Lemma primary_loop_all_similar (first : string) (frames : list string) :
  (forall current, In current frames ->
     similar current first similarity_threshold = Ret true) ->
  forall i : Z, (1 <= i)%Z ->
    primary_loop similar similarity_threshold i frames
      (mk_filter_state [first] 0)
    = Ret (mk_filter_state [first] 0).
Proof.
  induction frames as [|current rest IH]; intros Hsim i Hi.
  - reflexivity.
  - cbn [primary_loop last_selected_index unique_frames].
    assert (Hgap : (i - 0 <? min_frame_gap)%Z = false)
      by (apply Z.ltb_ge; unfold min_frame_gap; lia).
    rewrite Hgap.
    change (recent_frames [first]) with [first].
    cbn [is_unique_among]. rewrite (Hsim current (or_introl eq_refl)).
    cbn [bind]. apply IH; [|lia].
    intros c Hc. apply Hsim. now right.
Qed.

(** X14. When every later frame is found similar to the first frame, only
    the first frame is returned. *)
Theorem similar_frames_collapse_to_first (first : string) (rest : list string) :
  (forall current, In current rest ->
     similar current first similarity_threshold = Ret true) ->
  filter_unique_frames similar similarity_threshold (first :: rest)
  = Ret [first].
Proof.
  intros Hsim. unfold filter_unique_frames, primary_filter.
  rewrite (primary_loop_all_similar first rest Hsim 1%Z) by lia.
  reflexivity.
Qed.

Lemma recent_frames_incl (l : list string) : incl (recent_frames l) l.
Proof.
  unfold recent_frames. destruct (3 <? List.length l).
  - intros x Hx. rewrite <- (firstn_skipn (List.length l - 3) l).
    apply in_or_app. now right.
  - apply incl_refl.
Qed.

Lemma is_unique_among_distinct (universe recent : list string) (current : string) :
  (forall a b, In a universe -> In b universe -> a <> b ->
     similar a b similarity_threshold = Ret false) ->
  In current universe -> incl recent universe -> ~ In current recent ->
  is_unique_among similar similarity_threshold current recent = Ret true.
Proof.
  intros Hno Hc. induction recent as [|u rest IH]; intros Hincl Hnew.
  - reflexivity.
  - cbn [is_unique_among].
    rewrite (Hno current u Hc (Hincl u (or_introl eq_refl))).
    + cbn [bind]. apply IH.
      * intros x Hx. apply Hincl. now right.
      * intros Hx. apply Hnew. now right.
    + intros ->. apply Hnew. now left.
Qed.

(** While no comparison finds two different frames similar, the loop keeps
    every frame: the gap test never skips one, and a frame is never
    compared with itself. *)
Lemma primary_loop_all_distinct (universe : list string) :
  (forall a b, In a universe -> In b universe -> a <> b ->
     similar a b similarity_threshold = Ret false) ->
  forall (frames : list string) (i : Z) (st : filter_state),
    incl frames universe -> incl (unique_frames st) universe ->
    NoDup (unique_frames st ++ frames) ->
    (last_selected_index st < i)%Z ->
    exists st',
      primary_loop similar similarity_threshold i frames st = Ret st'
      /\ unique_frames st' = unique_frames st ++ frames.
Proof.
  intros Hno. induction frames as [|current rest IH];
    intros i st Hf Hu Hnd Hlast.
  - exists st. split; [reflexivity|now rewrite app_nil_r].
  - cbn [primary_loop].
    assert (Hgap : (i - last_selected_index st <? min_frame_gap)%Z = false)
      by (apply Z.ltb_ge; unfold min_frame_gap; lia).
    rewrite Hgap.
    assert (Hnew : ~ In current (unique_frames st)).
    { intros Hin. apply NoDup_remove_2 in Hnd. apply Hnd.
      apply in_or_app. now left. }
    rewrite (is_unique_among_distinct universe).
    + cbn [bind].
      destruct (IH (i + 1)%Z (mk_filter_state (unique_frames st ++ [current]) i))
        as (st' & Hrun & Hst').
      * intros x Hx. apply Hf. now right.
      * cbn [unique_frames]. intros x Hx. apply in_app_or in Hx.
        destruct Hx as [Hx|[<-|[]]]; [now apply Hu|].
        apply Hf. now left.
      * cbn [unique_frames]. rewrite <- app_assoc. exact Hnd.
      * cbn [last_selected_index]. lia.
      * exists st'. split; [exact Hrun|].
        rewrite Hst'. cbn [unique_frames]. now rewrite <- app_assoc.
    + exact Hno.
    + apply Hf. now left.
    + intros x Hx. apply Hu. now apply recent_frames_incl.
    + intros Hin. apply Hnew. now apply recent_frames_incl.
Qed.

Lemma primary_filter_all_distinct (frame_files : list string) :
  frame_files <> [] -> NoDup frame_files ->
  (forall a b, In a frame_files -> In b frame_files -> a <> b ->
     similar a b similarity_threshold = Ret false) ->
  primary_filter similar similarity_threshold frame_files
  = if max_frames <? List.length frame_files
    then sampled <- slice_step (List.length frame_files / max_frames)
                      frame_files ;;
         Ret (firstn max_frames sampled)
    else Ret frame_files.
Proof.
  intros Hne Hnd Hno. destruct frame_files as [|first rest]; [congruence|].
  unfold primary_filter.
  destruct (primary_loop_all_distinct (first :: rest) Hno rest 1%Z
              (mk_filter_state [first] 0)) as (st' & Hrun & Hst').
  - intros x Hx. now right.
  - cbn [unique_frames]. intros x [<-|[]]. now left.
  - exact Hnd.
  - cbn [last_selected_index]. lia.
  - rewrite Hrun. cbn [bind]. rewrite Hst'. reflexivity.
Qed.

(** X15. When the frames are pairwise different files and no comparison
    finds two different frames similar, up to twelve frames are returned
    unchanged; of thirteen to twenty-three frames the first twelve are
    returned, the later ones are dropped; of more frames, every
    [n // 12]-th one is returned, twelve at most.  (What the comparison
    answers for a frame and itself plays no part: the loop never asks.) *)
Theorem distinct_frames_kept_up_to_cap (frame_files : list string) :
  NoDup frame_files ->
  (forall a b, In a frame_files -> In b frame_files -> a <> b ->
     similar a b similarity_threshold = Ret false) ->
  (List.length frame_files <= 12 ->
   filter_unique_frames similar similarity_threshold frame_files
   = Ret frame_files)
  /\ (12 < List.length frame_files < 24 ->
      filter_unique_frames similar similarity_threshold frame_files
      = Ret (firstn 12 frame_files))
  /\ (12 < List.length frame_files ->
      filter_unique_frames similar similarity_threshold frame_files
      = Ret (firstn 12 (stride_from (List.length frame_files / 12) 0
                          frame_files))).
Proof.
  intros Hnd Hno.
  assert (Hlong : 12 < List.length frame_files ->
      filter_unique_frames similar similarity_threshold frame_files
      = Ret (firstn 12 (stride_from (List.length frame_files / 12) 0
                          frame_files))).
  { intros Hlen.
    assert (Hne : frame_files <> []) by (intros ->; simpl in Hlen; lia).
    unfold filter_unique_frames.
    rewrite (primary_filter_all_distinct _ Hne Hnd Hno).
    assert (Hcap : (max_frames <? List.length frame_files) = true)
      by (apply Nat.ltb_lt; exact Hlen).
    rewrite Hcap. unfold slice_step, max_frames.
    assert (Hstep : (List.length frame_files / 12 =? 0) = false).
    { apply Nat.eqb_neq.
      pose proof (Nat.Div0.div_le_mono 12 (List.length frame_files) 12) as Hd.
      rewrite Nat.div_same in Hd by lia. lia. }
    rewrite Hstep. cbn [bind].
    destruct frame_files; [congruence|reflexivity]. }
  split; [|split; [|exact Hlong]].
  - intros Hlen. unfold filter_unique_frames.
    destruct frame_files as [|first rest] eqn:Hf; [reflexivity|].
    rewrite <- Hf in *.
    assert (Hne : frame_files <> []) by (rewrite Hf; discriminate).
    rewrite (primary_filter_all_distinct _ Hne Hnd Hno).
    assert (Hcap : (max_frames <? List.length frame_files) = false)
      by (apply Nat.ltb_ge; exact Hlen).
    rewrite Hcap. reflexivity.
  - intros [Hlo Hhi]. rewrite (Hlong Hlo).
    assert (Hone : List.length frame_files / 12 = 1).
    { symmetry. apply (Nat.div_unique _ 12 1 (List.length frame_files - 12));
        lia. }
    rewrite Hone, stride_one. reflexivity.
Qed.

(** X16. When the first comparison raises, the handler takes over and the
    comparisons play no part: up to five frames are returned unchanged, and
    of more frames the one at position [k] of the result is the input frame
    at position [k * step], where [step] is 3 up to fifteen frames, 5 up to
    thirty, and [max(4, n // 12)] beyond. *)
Theorem failed_comparison_samples_by_stride
  (first second : string) (rest : list string) (e : exn) :
  similar second first similarity_threshold = Raise e ->
  exists kept,
    filter_unique_frames similar similarity_threshold
      (first :: second :: rest) = Ret kept
    /\ (List.length (first :: second :: rest) <= 5 ->
        kept = first :: second :: rest)
    /\ (5 < List.length (first :: second :: rest) ->
        List.length kept <= 12
        /\ forall k, k < List.length kept ->
             nth_error kept k
             = nth_error (first :: second :: rest)
                 (k * fallback_step (List.length (first :: second :: rest)))).
Proof.
  intros Hraise.
  assert (Hfall : filter_unique_frames similar similarity_threshold
                    (first :: second :: rest)
                  = fallback_filter (first :: second :: rest)).
  { unfold filter_unique_frames, primary_filter.
    cbn [primary_loop last_selected_index unique_frames].
    change (1 - 0 <? min_frame_gap)%Z with false.
    change (recent_frames [first]) with [first].
    cbn [is_unique_among]. rewrite Hraise. reflexivity. }
  rewrite Hfall, fallback_filter_eq.
  set (frames := first :: second :: rest).
  destruct (List.length frames <=? 5) eqn:H5.
  - exists frames. split; [reflexivity|]. split; [reflexivity|].
    apply Nat.leb_le in H5. lia.
  - eexists. split; [reflexivity|].
    split; [apply Nat.leb_gt in H5; lia|].
    intros _. split; [apply firstn_le_length|].
    intros k Hk. rewrite nth_error_firstn.
    assert (Hk12 : k < max_frames).
    { pose proof (firstn_le_length max_frames
                    (stride_from (fallback_step (List.length frames)) 0 frames)).
      lia. }
    apply Nat.ltb_lt in Hk12. rewrite Hk12.
    rewrite nth_error_stride.
    + reflexivity.
    + pose proof (fallback_step_positive (List.length frames)). lia.
Qed.

End Facts.

Definition always_similar (_ _ : string) (_ : Q) : outcome bool := Ret true.

Lemma similar_frames_collapse_to_first_witness :
  filter_unique_frames always_similar (88 # 100) forty_frames
  = Ret ["frame_0"%string].
Proof.
  apply (similar_frames_collapse_to_first always_similar (88 # 100)
           "frame_0"%string (tl forty_frames)).
  intros current _. reflexivity.
Defined.

(** A comparison that finds a frame similar to itself and to no other
    frame. *)
Definition similar_to_itself (a b : string) (_ : Q) : outcome bool :=
  Ret (String.eqb a b).

Lemma distinct_frames_kept_up_to_cap_witness :
  filter_unique_frames similar_to_itself (88 # 100) (firstn 20 forty_frames)
  = Ret (firstn 12 forty_frames).
Proof.
  assert (Hnd : NoDup (firstn 20 forty_frames)).
  { assert (H : nodup string_dec (firstn 20 forty_frames)
                = firstn 20 forty_frames) by (vm_compute; reflexivity).
    rewrite <- H. apply NoDup_nodup. }
  assert (Hno : forall a b : string,
             In a (firstn 20 forty_frames) -> In b (firstn 20 forty_frames) ->
             a <> b -> similar_to_itself a b (88 # 100) = Ret false).
  { intros a b _ _ Hab. unfold similar_to_itself.
    apply String.eqb_neq in Hab. now rewrite Hab. }
  assert (Hlen : 12 < List.length (firstn 20 forty_frames) < 24)
    by (vm_compute; lia).
  exact (proj1 (proj2 (distinct_frames_kept_up_to_cap
                         similar_to_itself (88 # 100)
                         (firstn 20 forty_frames) Hnd Hno))
               Hlen).
Defined.

Lemma failed_comparison_samples_by_stride_witness :
  exists kept,
    filter_unique_frames always_raises (88 # 100) forty_frames = Ret kept
    /\ (List.length forty_frames <= 5 -> kept = forty_frames)
    /\ (5 < List.length forty_frames ->
        List.length kept <= 12
        /\ forall k, k < List.length kept ->
             nth_error kept k
             = nth_error forty_frames
                 (k * fallback_step (List.length forty_frames))).
Proof.
  apply (failed_comparison_samples_by_stride always_raises (88 # 100)
           "frame_0"%string "frame_1"%string (tl (tl forty_frames))
           (OtherError "comparison failed")).
  reflexivity.
Defined.

End SamplerFacts.

(** ** SimilarityScorer: what decides the verdict *)

Module ScorerFacts.

Import PyNum SimilarityScorer.

Local Open Scope Q_scope.

Lemma max_score_in (first : Q) (rest : list Q) :
  In (max_score first rest) (first :: rest).
Proof.
  unfold max_score. revert first.
  induction rest as [|r rest IH]; intros first; [now left|].
  cbn [fold_left]. destruct (IH (py_max first r)) as [H|H].
  - unfold py_max in H at 1. destruct (Qltb first r).
    + right. left. exact H.
    + left. exact H.
  - right. right. exact H.
Qed.

(** The verdict on a list of scores: some score is above the threshold. *)
Lemma decide_iff (scores : list Q) (threshold : Q) :
  decide scores threshold = true <-> exists s, In s scores /\ threshold < s.
Proof.
  split.
  - destruct scores as [|first rest]; [discriminate|].
    unfold decide. intros H. apply Qltb_lt in H.
    exists (max_score first rest). split; [apply max_score_in|exact H].
  - intros (s & Hin & Hlt). exact (decide_above scores s threshold Hin Hlt).
Qed.

Lemma or_false_true (r : outcome bool) : or_false r = true <-> r = Ret true.
Proof.
  destruct r as [[|]|e]; simpl; split; intros H;
    try reflexivity; try discriminate H.
Qed.

Section Facts.

Context {image : Type} (cv : capabilities image).

(** The frames were prepared, the scores were computed, and one of them is
    above the threshold. *)
Definition some_score_above (hist : image -> image -> outcome Q)
           (img1 img2 : image) (threshold : Q) : Prop :=
  exists (g1 g2 : image) (scores : list Q) (s : Q),
    prepare cv img1 = Ret g1 /\ prepare cv img2 = Ret g2
    /\ similarity_scores cv hist g1 g2 = Ret scores
    /\ In s scores /\ threshold < s.

Lemma compare_prepared_iff (hist : image -> image -> outcome Q)
      (img1 img2 : image) (threshold : Q) :
  compare_prepared cv hist img1 img2 threshold = Ret true
  <-> some_score_above hist img1 img2 threshold.
Proof.
  unfold compare_prepared, some_score_above. split.
  - destruct (prepare cv img1) as [g1|e1] eqn:H1; [|discriminate].
    destruct (prepare cv img2) as [g2|e2] eqn:H2; [|discriminate].
    cbn [bind].
    destruct (similarity_scores cv hist g1 g2) as [scores|e] eqn:Hs;
      [|discriminate].
    cbn [bind]. intros H. inversion H as [Hd].
    apply decide_iff in Hd. destruct Hd as (s & Hin & Hlt).
    exists g1, g2, scores, s.
    split; [reflexivity|]. split; [reflexivity|]. split; [exact Hs|].
    split; assumption.
  - intros (g1 & g2 & scores & s & H1 & H2 & Hs & Hin & Hlt).
    rewrite H1, H2. cbn [bind]. rewrite Hs. cbn [bind]. f_equal.
    apply decide_iff. now exists s.
Qed.

Definition basic_hist (a b : image) : outcome Q :=
  Ret (calculate_basic_similarity cv a b).

Lemma some_score_above_lower (hist : image -> image -> outcome Q)
      (img1 img2 : image) (t t' : Q) :
  t' <= t -> some_score_above hist img1 img2 t ->
  some_score_above hist img1 img2 t'.
Proof.
  intros Hle (g1 & g2 & scores & s & H1 & H2 & Hs & Hin & Hlt).
  exists g1, g2, scores, s.
  split; [exact H1|]. split; [exact H2|]. split; [exact Hs|].
  split; [exact Hin|]. eapply Qle_lt_trans; eassumption.
Qed.

Lemma similar_when_a_score_exceeds (threshold : Q) :
  (forall frame1 frame2 : option image,
     calculate_frame_similarity cv frame1 frame2 threshold = true
     <-> exists f1 f2, frame1 = Some f1 /\ frame2 = Some f2
           /\ some_score_above (compare_hist cv) f1 f2 threshold)
  /\ (forall (path : Type) (imread : path -> option image) (p1 p2 : path),
        calculate_image_similarity cv imread p1 p2 threshold = true
        <-> exists img1 img2, imread p1 = Some img1 /\ imread p2 = Some img2
              /\ some_score_above basic_hist img1 img2 threshold).
Proof.
  split.
  - intros frame1 frame2. unfold calculate_frame_similarity.
    rewrite or_false_true. split.
    + destruct frame1 as [f1|]; [|discriminate].
      destruct frame2 as [f2|]; [|discriminate].
      intros H. exists f1, f2.
      split; [reflexivity|]. split; [reflexivity|].
      now apply compare_prepared_iff.
    + intros (f1 & f2 & -> & -> & H). now apply compare_prepared_iff.
  - intros path imread p1 p2. unfold calculate_image_similarity.
    rewrite or_false_true. split.
    + destruct (imread p1) as [img1|]; [|discriminate].
      destruct (imread p2) as [img2|]; [|discriminate].
      intros H. exists img1, img2.
      split; [reflexivity|]. split; [reflexivity|].
      now apply compare_prepared_iff.
    + intros (img1 & img2 & -> & -> & H). now apply compare_prepared_iff.
Qed.

Lemma similar_at_lower_threshold (t t' : Q) :
  t' <= t ->
  (forall frame1 frame2 : option image,
     calculate_frame_similarity cv frame1 frame2 t = true ->
     calculate_frame_similarity cv frame1 frame2 t' = true)
  /\ (forall (path : Type) (imread : path -> option image) (p1 p2 : path),
        calculate_image_similarity cv imread p1 p2 t = true ->
        calculate_image_similarity cv imread p1 p2 t' = true).
Proof.
  intros Hle. split.
  - intros frame1 frame2. unfold calculate_frame_similarity.
    rewrite !or_false_true.
    destruct frame1 as [f1|]; [|discriminate].
    destruct frame2 as [f2|]; [|discriminate].
    rewrite !compare_prepared_iff. now apply some_score_above_lower.
  - intros path imread p1 p2. unfold calculate_image_similarity.
    rewrite !or_false_true.
    destruct (imread p1) as [img1|]; [|discriminate].
    destruct (imread p2) as [img2|]; [|discriminate].
    rewrite !compare_prepared_iff. now apply some_score_above_lower.
Qed.

(** X17. Each scorer answers "similar" exactly when both frames could be
    read and prepared, the scores could be computed, and at least one of
    the scores is strictly above the threshold.  So a missing or
    unreadable frame is never similar to anything, and lowering the
    threshold never turns "similar" into "not similar". *)
Theorem similar_exactly_when_a_score_exceeds (threshold : Q) :
  (forall frame1 frame2 : option image,
     calculate_frame_similarity cv frame1 frame2 threshold = true
     <-> exists f1 f2, frame1 = Some f1 /\ frame2 = Some f2
           /\ some_score_above (compare_hist cv) f1 f2 threshold)
  /\ (forall (path : Type) (imread : path -> option image) (p1 p2 : path),
        calculate_image_similarity cv imread p1 p2 threshold = true
        <-> exists img1 img2, imread p1 = Some img1 /\ imread p2 = Some img2
              /\ some_score_above basic_hist img1 img2 threshold)
  /\ (forall lower : Q,
        lower <= threshold ->
        (forall frame1 frame2 : option image,
           calculate_frame_similarity cv frame1 frame2 threshold = true ->
           calculate_frame_similarity cv frame1 frame2 lower = true)
        /\ (forall (path : Type) (imread : path -> option image) (p1 p2 : path),
              calculate_image_similarity cv imread p1 p2 threshold = true ->
              calculate_image_similarity cv imread p1 p2 lower = true)).
Proof.
  destruct (similar_when_a_score_exceeds threshold) as [Hframe Himage].
  split; [exact Hframe|]. split; [exact Himage|].
  intros lower Hle. exact (similar_at_lower_threshold threshold lower Hle).
Qed.

(** X18. The two scorers differ when the histogram comparison raises: the
    scorer of the extraction script answers "not similar" whatever the
    other scores are, while the scorer of the analysis script counts the
    histogram score as 0 and still answers "similar" when the structural
    score is above the threshold. *)
Theorem histogram_failure_splits_the_scorers
        (img1 img2 g1 g2 : image) (e : exn) (s threshold : Q) :
  prepare cv img1 = Ret g1 -> prepare cv img2 = Ret g2 ->
  HAS_SCIKIT_IMAGE cv = true -> ssim cv g1 g2 = Ret s ->
  compare_hist cv g1 g2 = Raise e ->
  threshold < s ->
  calculate_frame_similarity cv (Some img1) (Some img2) threshold = false
  /\ forall (path : Type) (imread : path -> option image) (p1 p2 : path),
       imread p1 = Some img1 -> imread p2 = Some img2 ->
       calculate_image_similarity cv imread p1 p2 threshold = true.
Proof.
  intros H1 H2 Has Hs Hh Hlt. split.
  - unfold calculate_frame_similarity, compare_prepared, similarity_scores.
    rewrite H1, H2. cbn [bind]. rewrite Has, Hs. cbn [bind].
    rewrite Hh. reflexivity.
  - intros path imread p1 p2 Hr1 Hr2.
    unfold calculate_image_similarity. rewrite Hr1, Hr2.
    apply or_false_true, compare_prepared_iff.
    unfold some_score_above.
    eexists g1, g2, _, s. split; [exact H1|]. split; [exact H2|].
    unfold similarity_scores. rewrite Has, Hs. cbn [bind].
    split; [reflexivity|]. split; [now left|exact Hlt].
Qed.

End Facts.

(** A stand-in for the libraries in which the histogram comparison raises
    and the other methods compare the images entry by entry. *)
Definition broken_histogram : capabilities (list Z) :=
  mk_capabilities (list Z) true
    (fun img => Ret img)
    same_image_score
    (fun _ _ => Raise (OtherError "calcHist failed"))
    same_image_score.

Lemma similar_exactly_when_a_score_exceeds_witness :
  calculate_frame_similarity exact_match (Some gray_ramp) (Some gray_ramp)
    (75 # 100) = true.
Proof.
  refine (proj1 (proj2 (proj2 (similar_exactly_when_a_score_exceeds
                                 exact_match (88 # 100)))
                   (75 # 100) _)
            (Some gray_ramp) (Some gray_ramp) _).
  - vm_compute. discriminate.
  - reflexivity.
Defined.

Lemma histogram_failure_splits_the_scorers_witness :
  calculate_frame_similarity broken_histogram (Some gray_ramp) (Some gray_ramp)
    (88 # 100) = false
  /\ calculate_image_similarity broken_histogram
       (fun _ : unit => Some gray_ramp) tt tt (88 # 100) = true.
Proof.
  pose proof (histogram_failure_splits_the_scorers broken_histogram
                gray_ramp gray_ramp gray_ramp gray_ramp
                (OtherError "calcHist failed") 1 (88 # 100)
                eq_refl eq_refl eq_refl eq_refl eq_refl eq_refl) as [H1 H2].
  split; [exact H1|].
  exact (H2 unit (fun _ => Some gray_ramp) tt tt eq_refl eq_refl).
Defined.

End ScorerFacts.

(** ** FrameExtractor: what a run leaves behind *)

Module ExtractorFacts.

Import PyStr PyNum PyFormat FrameExtractor.

Local Open Scope Q_scope.

(** The names of an extracted frame, as lines 210 to 229 build them from
    the number of the frame and the minutes and seconds of its time. *)
Definition names_agree (output_dir : string) (f : extracted_frame) : Prop :=
  exists minutes seconds : Z,
    ef_time f = (pad2 minutes ++ ":" ++ pad2 seconds)%string
    /\ ef_filename f
       = ("frame_" ++ str_of_nat (ef_frame_number f) ++ "_"
          ++ (pad2 minutes ++ "m" ++ pad2 seconds ++ "s") ++ ".jpg")%string
    /\ ef_filepath f = path_join output_dir (ef_filename f)
    /\ ef_imageUrl f = ("/temp/" ++ ef_filename f)%string.

Section Facts.

Context {frame : Type}.

Variable resize : frame -> outcome frame.
Variable is_frame_quality_acceptable : frame -> Q -> Q -> bool.
Variable detect_motion : frame -> frame -> Q.
Variable calculate_frame_similarity : frame -> frame -> Q -> bool.
Variable imwrite : string -> frame -> outcome bool.
Variable encode_base64 : frame -> outcome string.
Variable output_dir : string.
Variable frame_interval : Q.
Variable similarity_threshold : Q.

Local Notation "'run_iteration'" :=
  (iteration resize is_frame_quality_acceptable detect_motion
             calculate_frame_similarity imwrite encode_base64 output_dir
             similarity_threshold).

Local Notation "'run_loop'" :=
  (extraction_loop resize is_frame_quality_acceptable detect_motion
                   calculate_frame_similarity imwrite encode_base64 output_dir
                   frame_interval similarity_threshold).

Local Notation "'run_extraction'" :=
  (extract_frames_with_opencv resize is_frame_quality_acceptable detect_motion
                              calculate_frame_similarity imwrite encode_base64
                              output_dir frame_interval similarity_threshold).

(** What holds of the state of the loop at every iteration. *)
Definition consistent (st : @extract_state frame) : Prop :=
  frame_count st = List.length (extracted_frames st)
  /\ map ef_frame_number (extracted_frames st) = seq 0 (frame_count st)
  /\ (skipped_frames st <= 2)%nat
  /\ (last_saved_frame st = None <-> frame_count st = 0%nat)
  /\ Forall (names_agree output_dir) (extracted_frames st).

Lemma initial_state_consistent : consistent initial_state.
Proof.
  unfold consistent, initial_state. cbn.
  repeat split; try reflexivity; try lia; constructor.
Qed.

(** The counter of skipped frames never passes 2. *)
Lemma retention_bound (last : option frame) (current : frame) (skipped : nat) :
  (skipped <= 2)%nat ->
  (snd (retention detect_motion calculate_frame_similarity similarity_threshold
          last current skipped) <= 2)%nat.
Proof.
  intros H. unfold retention. destruct last as [l|]; [|exact H].
  destruct (Qltb motion_threshold (detect_motion l current)); [exact H|].
  destruct (calculate_frame_similarity l current _); [|exact H].
  destruct (skipped mod 3 =? 2)%nat eqn:E; [exact H|].
  apply Nat.eqb_neq in E. cbn [snd].
  assert (Hs : (skipped = 0 \/ skipped = 1 \/ skipped = 2)%nat) by lia.
  destruct Hs as [->|[->| ->]]; [lia|lia|].
  exfalso. apply E. reflexivity.
Qed.

Lemma iteration_consistent (cap : @capture frame) (current_time : Q)
      (st st' : @extract_state frame) :
  consistent st ->
  run_iteration cap current_time st = Ret st' ->
  consistent st'.
Proof.
  intros Hc. unfold iteration.
  destruct (read_frame cap _) as [[raw|]|e]; cbn [bind];
    [|intros H; inversion H; subst; exact Hc|discriminate].
  destruct (resize raw) as [current|e]; cbn [bind]; [|discriminate].
  destruct (negb (is_frame_quality_acceptable current 15 25));
    [intros H; inversion H; subst; exact Hc|].
  pose proof (retention_bound (last_saved_frame st) current (skipped_frames st))
    as Hb.
  destruct (retention detect_motion calculate_frame_similarity
              similarity_threshold (last_saved_frame st) current
              (skipped_frames st)) as [should_save skipped].
  cbn [snd] in Hb.
  destruct Hc as (Hcount & Hnum & Hskip & Hlast & Hnames).
  specialize (Hb Hskip).
  assert (Hkeep : consistent
                    (mk_state (extracted_frames st) (frame_count st)
                              (last_saved_frame st) skipped))
    by (unfold consistent; cbn; repeat split; try apply Hlast; assumption).
  destruct should_save; [|intros H; inversion H; subst; exact Hkeep].
  cbn [frame_count extracted_frames skipped_frames].
  destruct (imwrite _ current) as [[|]|e]; cbn [bind];
    [|intros H; inversion H; subst; exact Hkeep|discriminate].
  destruct (encode_base64 current) as [frame_base64|e]; cbn [bind];
    [|discriminate].
  intros H. inversion H; subst. clear H.
  unfold consistent. cbn [frame_count extracted_frames skipped_frames
                          last_saved_frame].
  split; [rewrite length_app; cbn [List.length]; lia|].
  split.
  { rewrite map_app, Hnum. cbn [map ef_frame_number].
    rewrite seq_S. reflexivity. }
  split; [exact Hb|].
  split; [split; [discriminate|lia]|].
  apply Forall_app. split; [exact Hnames|].
  constructor; [|constructor].
  eexists _, _. cbn [ef_time ef_filename ef_frame_number ef_filepath ef_imageUrl].
  repeat split; reflexivity.
Qed.

Lemma loop_consistent (cap : @capture frame) (duration : Q) :
  forall (fuel : nat) (current_time : Q) (st st' : @extract_state frame),
    consistent st ->
    run_loop fuel cap duration current_time st = Some (Ret st') ->
    consistent st'.
Proof.
  induction fuel as [|fuel IH]; intros ct st st' Hc; [discriminate|].
  cbn [extraction_loop].
  destruct (Qltb ct duration).
  - destruct (run_iteration cap ct st) as [st1|e] eqn:Hit; [|discriminate].
    apply IH. exact (iteration_consistent cap ct st st1 Hc Hit).
  - intros H. inversion H; subst. exact Hc.
Qed.

(** X19. However the video reads and whatever the comparisons answer, when
    the loop ends normally the frames kept are numbered 0, 1, 2, ... in the
    order in which they were kept, the counter of kept frames is their
    number, a frame is remembered for comparison exactly when one was
    kept, and each entry has the file name [frame_<n>_<MM>m<SS>s.jpg] of
    its number and time, the path of that name under the output directory
    and the URL of that name under [/temp/]. *)
Theorem kept_frames_are_numbered_and_named
        (fuel : nat) (cap : @capture frame) (duration : Q) (st : @extract_state frame) :
  run_loop fuel cap duration 0 initial_state = Some (Ret st) ->
  map ef_frame_number (extracted_frames st)
  = seq 0 (List.length (extracted_frames st))
  /\ frame_count st = List.length (extracted_frames st)
  /\ (last_saved_frame st = None <-> extracted_frames st = [])
  /\ Forall (names_agree output_dir) (extracted_frames st).
Proof.
  intros Hrun.
  destruct (loop_consistent cap duration fuel 0 initial_state st
              initial_state_consistent Hrun)
    as (Hcount & Hnum & Hskip & Hlast & Hnames).
  split; [now rewrite <- Hcount|]. split; [exact Hcount|].
  split; [|exact Hnames].
  rewrite Hlast, Hcount. apply length_zero_iff_nil.
Qed.

(** X20. A successful report of the extraction is consistent and bounded:
    [total_frames_extracted] is the number of entries under [frames], and
    [frames_skipped] is never more than 2, however long the video is. *)
Theorem report_counts_agree (fuel : nat) (cap : @capture frame) (result : pydict) :
  run_extraction fuel cap = Some result ->
  py_get "success" result = Some (VBool true) ->
  exists (frames : list extracted_frame) (skipped : nat),
    py_get "frames" result = Some (VList (map frame_entry frames))
    /\ py_get "total_frames_extracted" result
       = Some (VInt (Z.of_nat (List.length frames)))
    /\ py_get "frames_skipped" result = Some (VInt (Z.of_nat skipped))
    /\ (skipped <= 2)%nat.
Proof.
  unfold extract_frames_with_opencv, extract_body.
  destruct (negb (isOpened cap)).
  - intros H. inversion H; subst. discriminate.
  - destruct (run_loop fuel cap (duration_of cap) 0 initial_state)
      as [[st|e]|] eqn:Hrun; intros H; inversion H; subst;
      [|discriminate].
    intros _.
    destruct (loop_consistent cap (duration_of cap) fuel 0 initial_state st
                initial_state_consistent Hrun)
      as (Hcount & Hnum & Hskip & Hlast & Hnames).
    exists (extracted_frames st), (skipped_frames st).
    split; [reflexivity|]. split; [cbn; now rewrite Hcount|].
    split; [reflexivity|exact Hskip].
Qed.

Lemma no_duration (cap : @capture frame) :
  fps cap <= 0 \/ (total_frames cap <= 0)%Z ->
  Qltb 0 (duration_of cap) = false.
Proof.
  intros H. apply Qltb_ge. unfold duration_of.
  destruct (Qltb 0 (fps cap)) eqn:E; [|apply Qle_refl].
  apply Qltb_lt in E. destruct H as [H|H].
  - exfalso. exact (Qlt_not_le _ _ E H).
  - apply Qle_shift_div_r; [exact E|]. rewrite Qmult_0_l.
    change 0 with (inject_Z 0). rewrite <- Zle_Qle. exact H.
Qed.

(** X21. The two runs that read no frame.  A video that cannot be opened
    gives the failure report with the error [Could not open video file].
    An opened video whose frame rate or whose number of frames is not
    positive has duration 0 or less: the run succeeds with no frame, no
    skipped frame and a count of 0. *)
Theorem runs_that_read_nothing (fuel : nat) (cap : @capture frame) :
  (isOpened cap = false ->
   run_extraction fuel cap
   = Some [ ("success", VBool false);
            ("error", VStr "Could not open video file");
            ("frames", VList []) ])
  /\ (isOpened cap = true ->
      fps cap <= 0 \/ (total_frames cap <= 0)%Z ->
      (0 < fuel)%nat ->
      exists result,
        run_extraction fuel cap = Some result
        /\ py_get "success" result = Some (VBool true)
        /\ py_get "frames" result = Some (VList [])
        /\ py_get "total_frames_extracted" result = Some (VInt 0)
        /\ py_get "frames_skipped" result = Some (VInt 0)).
Proof.
  split.
  - intros Hopen. unfold extract_frames_with_opencv, extract_body.
    rewrite Hopen. reflexivity.
  - intros Hopen Hzero Hfuel.
    unfold extract_frames_with_opencv, extract_body. rewrite Hopen.
    cbn [negb]. destruct fuel as [|fuel]; [lia|].
    cbn [extraction_loop]. rewrite (no_duration cap Hzero).
    eexists. split; [reflexivity|]. repeat split; reflexivity.
Qed.

End Facts.

(** The state in which the loop leaves the static scene. *)
Definition static_final : @extract_state (list Z) :=
  match static_loop 8 1 with
  | Some (Ret st) => st
  | _ => initial_state
  end.

Lemma kept_frames_are_numbered_and_named_witness :
  map ef_frame_number (extracted_frames static_final)
  = seq 0 (List.length (extracted_frames static_final))
  /\ Forall (names_agree "out") (extracted_frames static_final).
Proof.
  assert (Hrun : extraction_loop
                   (fun f => Ret f) (fun _ _ _ => true) (fun _ _ => 0)
                   static_similarity (fun _ _ => Ret true)
                   (fun _ => Ret ""%string) "out" 1 (70 # 100)
                   8 static_capture (duration_of static_capture) 0
                   initial_state
                 = Some (Ret static_final))
    by (vm_compute; reflexivity).
  destruct (kept_frames_are_numbered_and_named
              (fun f => Ret f) (fun _ _ _ => true) (fun _ _ => 0)
              static_similarity (fun _ _ => Ret true)
              (fun _ => Ret ""%string) "out" 1 (70 # 100)
              8 static_capture (duration_of static_capture) static_final Hrun)
    as (Hnum & _ & _ & Hnames).
  split; [exact Hnum|exact Hnames].
Defined.

Example static_scene_numbers :
  map ef_frame_number (extracted_frames static_final) = [0; 1; 2; 3; 4]%nat
  /\ map ef_filename (extracted_frames static_final)
     = [ "frame_0_00m00s.jpg"; "frame_1_00m03s.jpg"; "frame_2_00m04s.jpg";
         "frame_3_00m05s.jpg"; "frame_4_00m06s.jpg" ]%string.
Proof. split; vm_compute; reflexivity. Qed.

Definition extraction_of (cap : @capture (list Z)) (fuel : nat)
  : option pydict :=
  extract_frames_with_opencv
    (fun f => Ret f) (fun _ _ _ => true) (fun _ _ => 0) static_similarity
    (fun _ _ => Ret true) (fun _ => Ret ""%string) "out" 1 (70 # 100)
    fuel cap.

Definition static_report : pydict :=
  match extraction_of static_capture 8 with
  | Some result => result
  | None => []
  end.

Lemma report_counts_agree_witness :
  exists (frames : list extracted_frame) (skipped : nat),
    py_get "frames" static_report = Some (VList (map frame_entry frames))
    /\ py_get "total_frames_extracted" static_report
       = Some (VInt (Z.of_nat (List.length frames)))
    /\ py_get "frames_skipped" static_report = Some (VInt (Z.of_nat skipped))
    /\ (skipped <= 2)%nat.
Proof.
  assert (Hrun : extract_frames_with_opencv
                   (fun f => Ret f) (fun _ _ _ => true) (fun _ _ => 0)
                   static_similarity (fun _ _ => Ret true)
                   (fun _ => Ret ""%string) "out" 1 (70 # 100)
                   8 static_capture
                 = Some static_report)
    by (vm_compute; reflexivity).
  assert (Hs : py_get "success" static_report = Some (VBool true))
    by (vm_compute; reflexivity).
  exact (report_counts_agree
           (fun f => Ret f) (fun _ _ _ => true) (fun _ _ => 0)
           static_similarity (fun _ _ => Ret true)
           (fun _ => Ret ""%string) "out" 1 (70 # 100)
           8%nat static_capture static_report Hrun Hs).
Defined.

Definition closed_capture : @capture (list Z) :=
  mk_capture false 30 300 (fun _ => Ret None).

Lemma runs_that_read_nothing_witness :
  extraction_of closed_capture 5
  = Some [ ("success", VBool false);
           ("error", VStr "Could not open video file");
           ("frames", VList []) ]
  /\ exists result,
       extraction_of EntryPoints.empty_capture 5 = Some result
       /\ py_get "success" result = Some (VBool true)
       /\ py_get "frames" result = Some (VList [])
       /\ py_get "total_frames_extracted" result = Some (VInt 0)
       /\ py_get "frames_skipped" result = Some (VInt 0).
Proof.
  split.
  - apply (proj1 (runs_that_read_nothing
                    (fun f => Ret f) (fun _ _ _ => true) (fun _ _ => 0)
                    static_similarity (fun _ _ => Ret true)
                    (fun _ => Ret ""%string) "out" 1 (70 # 100)
                    5%nat closed_capture)).
    reflexivity.
  - apply (proj2 (runs_that_read_nothing
                    (fun f => Ret f) (fun _ _ _ => true) (fun _ _ => 0)
                    static_similarity (fun _ _ => Ret true)
                    (fun _ => Ret ""%string) "out" 1 (70 # 100)
                    5%nat EntryPoints.empty_capture)).
    + reflexivity.
    + right. cbn. lia.
    + lia.
Defined.

End ExtractorFacts.

(** ** BatchOrchestrator: how the frames are cut into batches *)

Module BatchFacts.

Import BatchOrchestrator.

Local Open Scope nat_scope.

(** [total_batches] *)
Definition total_batches (n batch_size : nat) : nat :=
  (n + batch_size - 1) / batch_size.

Lemma firstn_add {A : Type} (s b : nat) (l : list A) :
  firstn (s + b) l = firstn s l ++ firstn b (skipn s l).
Proof.
  revert l. induction s as [|s IH]; intros l; [reflexivity|].
  destruct l as [|x l]; [now rewrite skipn_nil, !firstn_nil|].
  cbn [Nat.add firstn skipn app]. now rewrite IH.
Qed.

Lemma firstn_min_length {A : Type} (b : nat) (l : list A) :
  firstn (Nat.min b (List.length l)) l = firstn b l.
Proof.
  destruct (Nat.le_ge_cases b (List.length l)) as [H|H].
  - now rewrite Nat.min_l.
  - rewrite Nat.min_r by exact H. now rewrite firstn_all, firstn_all2.
Qed.

(** A slice of the width of a batch, cut at the end of the list. *)
Lemma slice_batch {A : Type} (s b : nat) (l : list A) :
  slice s (Nat.min (s + b) (List.length l)) l = firstn b (skipn s l).
Proof.
  unfold slice.
  destruct (Nat.le_ge_cases s (List.length l)) as [H|H].
  - replace (Nat.min (s + b) (List.length l) - s)
      with (Nat.min b (List.length (skipn s l)))
      by (rewrite length_skipn; lia).
    apply firstn_min_length.
  - rewrite (skipn_all2 l H). now rewrite !firstn_nil.
Qed.

Lemma slices_concat {A : Type} (b : nat) (l : list A) (n : nat) :
  List.concat
    (map (fun j => slice (j * b) (Nat.min (j * b + b) (List.length l)) l)
         (seq 0 n))
  = firstn (n * b) l.
Proof.
  induction n as [|n IH]; [reflexivity|].
  rewrite seq_S, map_app, concat_app, IH. cbn [map List.concat Nat.add].
  rewrite app_nil_r, slice_batch.
  replace (S n * b) with (n * b + b) by lia.
  symmetry. apply firstn_add.
Qed.

Lemma total_batches_cover (n b : nat) :
  b <> 0 -> n <= total_batches n b * b.
Proof.
  intros Hb. unfold total_batches.
  pose proof (Nat.mul_succ_div_gt (n + b - 1) b Hb) as H.
  set (q := (n + b - 1) / b) in *.
  rewrite Nat.mul_succ_r in H. rewrite (Nat.mul_comm q b). lia.
Qed.

Lemma batch_starts_inside (n b j : nat) :
  b <> 0 -> j < total_batches n b -> j * b < n.
Proof.
  intros Hb Hj. unfold total_batches in Hj.
  pose proof (Nat.Div0.mul_div_le (n + b - 1) b) as H.
  set (q := (n + b - 1) / b) in *.
  assert (Hq : b * S j <= b * q) by (apply Nat.mul_le_mono_l; lia).
  rewrite Nat.mul_succ_r in Hq. rewrite (Nat.mul_comm j b). lia.
Qed.

Lemma slice_map {A B : Type} (f : A -> B) (s e : nat) (l : list A) :
  slice s e (map f l) = map f (slice s e l).
Proof. unfold slice. now rewrite skipn_map, firstn_map. Qed.

Section Facts.

Variable post : request -> outcome response.
Variable detect_objects_with_yolo : string -> list detection.
Variable yolo_enabled : bool.

(** The detections of one frame, as [process_frames_in_batches] lists them
    before the first batch. *)
Definition detections_for (fd : frame_data) : list detection :=
  if yolo_enabled then detect_objects_with_yolo (fd_filename fd) else [].

Lemma all_detections_eq (frames_data : list frame_data) :
  (if yolo_enabled
   then map (fun fd => detect_objects_with_yolo (fd_filename fd)) frames_data
   else map (fun _ => []) frames_data)
  = map detections_for frames_data.
Proof. unfold detections_for. now destruct yolo_enabled. Qed.

(** X22. With a positive batch size the orchestrator returns normally, and
    the requests it sends cut the frames into consecutive batches: put end
    to end, the batches are the list of frames; every batch has at least
    one frame and at most [batch_size]; batch [j] starts at frame
    [j * batch_size]; and the detections sent with a batch are those of
    its frames, one list per frame.  The second component returned has one
    list of detections per frame. *)
Theorem batches_partition_the_frames
        (frames_data : list frame_data) (batch_size : nat) :
  batch_size <> 0 ->
  let n := total_batches (List.length frames_data) batch_size in
  let all_yolo_detections := map detections_for frames_data in
  let req := batch_request frames_data all_yolo_detections batch_size in
  process_frames_in_batches post detect_objects_with_yolo yolo_enabled
    frames_data batch_size
  = Ret (flat_map
           (fun j => details_of (analyze_batch_with_openrouter post (req j)))
           (seq 0 n),
         all_yolo_detections)
  /\ List.concat (map (fun j => req_frames (req j)) (seq 0 n)) = frames_data
  /\ forall j, j < n ->
       1 <= List.length (req_frames (req j)) <= batch_size
       /\ req_batch_num (req j) = j
       /\ req_start_frame_idx (req j) = j * batch_size
       /\ req_frames (req j)
          = firstn batch_size (skipn (j * batch_size) frames_data)
       /\ req_yolo_detections (req j) = map detections_for (req_frames (req j)).
Proof.
  intros Hb n all_yolo_detections req.
  split; [|split].
  - unfold process_frames_in_batches.
    assert (Hz : (batch_size =? 0) = false) by now apply Nat.eqb_neq.
    rewrite Hz, all_detections_eq, batch_loop_spec. reflexivity.
  - unfold req, batch_request. cbn [req_frames].
    rewrite slices_concat. apply firstn_all2.
    apply total_batches_cover. exact Hb.
  - intros j Hj. unfold req, batch_request.
    cbn [req_frames req_batch_num req_start_frame_idx req_yolo_detections].
    pose proof (batch_starts_inside _ _ _ Hb Hj) as Hstart.
    rewrite slice_batch.
    split.
    { rewrite length_firstn, length_skipn. lia. }
    split; [reflexivity|]. split; [reflexivity|]. split; [reflexivity|].
    unfold all_yolo_detections.
    rewrite slice_map, slice_batch. reflexivity.
Qed.

End Facts.

Definition five_frames : list frame_data :=
  map (fun i => mk_frame_data
                  ("frame_" ++ PyFormat.str_of_nat i ++ "_00m0"
                   ++ PyFormat.str_of_nat i ++ "s.jpg")%string
                  ("00m0" ++ PyFormat.str_of_nat i ++ "s")%string
                  ""%string (Z.of_nat i))
      (seq 0 5).

Lemma batches_partition_the_frames_witness :
  List.concat
    (map (fun j => req_frames
                     (batch_request five_frames
                        (map (detections_for (fun _ => []) false) five_frames)
                        2 j))
         (seq 0 (total_batches (List.length five_frames) 2)))
  = five_frames.
Proof.
  refine (proj1 (proj2 (batches_partition_the_frames
                          (fun _ => Raise (TimeoutError "Read timed out."%string))
                          (fun _ => []) false five_frames 2 _))).
  discriminate.
Defined.

Example five_frames_in_batches_of_two :
  map (fun j => List.length
                  (req_frames (batch_request five_frames [] 2 j)))
      (seq 0 (total_batches 5 2))
  = [2; 2; 1].
Proof. reflexivity. Qed.

End BatchFacts.

(** ** The analysis entry point: loading, fusion and severity *)

Module AnalysisFacts.

Import PyStr PyNum PyText BatchOrchestrator Analysis.
Import SamplerFacts BatchFacts.

Local Open Scope nat_scope.

(** *** The sorted list of frame files *)

Definition ordered (a b : string) : Prop := string_leb a b = true.

Lemma string_leb_total (a b : string) :
  string_leb a b = false -> string_leb b a = true.
Proof.
  unfold string_leb. rewrite (String.compare_antisym b a).
  destruct (String.compare a b); simpl; intros H; try discriminate H;
    reflexivity.
Qed.

Lemma insert_sorted_permutation (x : string) (l : list string) :
  Permutation (insert_sorted x l) (x :: l).
Proof.
  induction l as [|y t IH]; simpl; [apply Permutation_refl|].
  destruct (string_leb x y); [apply Permutation_refl|].
  eapply Permutation_trans; [apply perm_skip, IH|apply perm_swap].
Qed.

Lemma sort_permutation (l : list string) : Permutation (sort l) l.
Proof.
  induction l as [|x l IH]; simpl; [constructor|].
  eapply Permutation_trans; [apply insert_sorted_permutation|].
  now apply perm_skip.
Qed.

Lemma insert_sorted_ordered (x : string) (l : list string) :
  Sorted ordered l -> Sorted ordered (insert_sorted x l).
Proof.
  induction l as [|y t IH]; simpl; intros Hs.
  - repeat constructor.
  - destruct (string_leb x y) eqn:E.
    + constructor; [exact Hs|]. constructor. exact E.
    + inversion Hs as [|? ? Ht Hhd]; subst.
      constructor; [now apply IH|].
      destruct t as [|z t]; simpl.
      * constructor. now apply string_leb_total.
      * destruct (string_leb x z).
        -- constructor. now apply string_leb_total.
        -- inversion Hhd; subst. now constructor.
Qed.

Lemma sort_ordered (l : list string) : Sorted ordered (sort l).
Proof.
  induction l as [|x l IH]; simpl; [constructor|].
  now apply insert_sorted_ordered.
Qed.

(** The test of the listing loop. *)
Definition is_frame_file (file : string) : bool :=
  startswith "frame_" file && endswith ".jpg" file.

(** *** The frames loaded *)

Definition loaded_from (w : world) (unique : list string) (idx : Z)
           (d : frame_data) : Prop :=
  fd_timestamp d = timestamp_of (fd_filename d)
  /\ w_read_base64 w (fd_filename d) = Ret (fd_image_base64 d)
  /\ (idx <= fd_original_index d)%Z
  /\ nth_error unique (Z.to_nat (fd_original_index d - idx))
     = Some (fd_filename d).

Lemma loaded_from_shift (w : world) (x : string) (files : list string)
      (idx : Z) (d : frame_data) :
  loaded_from w files (idx + 1) d -> loaded_from w (x :: files) idx d.
Proof.
  intros (Ht & Hr & Hi & Hn). repeat split; try assumption; [lia|].
  replace (Z.to_nat (fd_original_index d - idx))
    with (S (Z.to_nat (fd_original_index d - (idx + 1)))) by lia.
  exact Hn.
Qed.

Lemma load_frames_spec (w : world) (files : list string) :
  forall idx : Z,
    subsequence (map fd_filename (load_frames w idx files)) files
    /\ Forall (loaded_from w files idx) (load_frames w idx files).
Proof.
  induction files as [|filename rest IH]; intros idx; simpl.
  - split; constructor.
  - destruct (IH (idx + 1)%Z) as [Hsub Hall].
    assert (Hshift : Forall (loaded_from w (filename :: rest) idx)
                            (load_frames w (idx + 1) rest)).
    { eapply Forall_impl; [|exact Hall].
      intros d. apply loaded_from_shift. }
    destruct (w_read_base64 w filename) as [image_base64|e] eqn:Hread.
    + split; [now apply subsequence_take|].
      constructor; [|exact Hshift].
      repeat split; cbn; try assumption; try lia.
      now rewrite Z.sub_diag.
    + split; [now apply subsequence_skip|exact Hshift].
Qed.

(** The frame file can be read and encoded. *)
Definition readable (w : world) (filename : string) : bool :=
  match w_read_base64 w filename with
  | Ret _ => true
  | Raise _ => false
  end.

(** Every readable file is loaded, and no other. *)
Lemma load_frames_names (w : world) (files : list string) :
  forall idx : Z,
    map fd_filename (load_frames w idx files) = filter (readable w) files.
Proof.
  induction files as [|filename rest IH]; intros idx; simpl; [reflexivity|].
  unfold readable at 1.
  destruct (w_read_base64 w filename); simpl; now rewrite IH.
Qed.

(** [load_stage] ends with loaded frames only on this path. *)
Lemma load_stage_loaded (w : world) (frame_files unique : list string)
      (frames_data : list frame_data) :
  load_stage w = Ret (Loaded frame_files unique frames_data) ->
  exists files,
    w_listdir w = Ret files
    /\ frame_files = sort (filter is_frame_file files)
    /\ FrameSampler.filter_unique_frames (w_similar w) (88 # 100) frame_files
       = Ret unique
    /\ frames_data = load_frames w 0 unique
    /\ frames_data <> [].
Proof.
  unfold load_stage.
  destruct (w_makedirs w) as [[]|e]; cbn [bind]; [|discriminate].
  assert (Hc : forall r : outcome loaded,
             match w_cache w with
             | Cached cached => Ret (Early cached)
             | _ => r
             end = Ret (Loaded frame_files unique frames_data) ->
             r = Ret (Loaded frame_files unique frames_data))
    by (intros r; destruct (w_cache w); [trivial|trivial|discriminate]).
  intros H. apply Hc in H. clear Hc.
  destruct (w_listdir w) as [files|e]; cbn [bind] in H; [|discriminate H].
  cbv zeta in H. fold is_frame_file in H.
  destruct (sort (filter is_frame_file files)) as [|f fs] eqn:Hsort;
    [discriminate H|].
  destruct (FrameSampler.filter_unique_frames (w_similar w) (88 # 100)
              (f :: fs)) as [u|e] eqn:Hu; cbn [bind] in H; [|discriminate H].
  pose proof (filter_capped _ _ _ _ Hu) as Hcap.
  unfold FrameSampler.max_frames in Hcap.
  assert (H15 : (15 <? List.length u) = false)
    by (apply Nat.ltb_ge; lia).
  rewrite H15 in H. cbn [bind] in H.
  destruct (load_frames w 0 u) as [|d ds] eqn:Hl; [discriminate H|].
  inversion H; subst.
  exists files. split; [reflexivity|]. split; [now symmetry|].
  split; [exact Hu|]. split; [now symmetry|discriminate].
Qed.

(** X23. When the analysis gets as far as loading frames: the frame files
    are the entries of the directory listing that start with [frame_] and
    end with [.jpg], sorted by code point; the unique frames are what
    [filter_unique_frames] returned for them at threshold 0.88, at most
    twelve, so the additional sampling of more than fifteen frames never
    applies; and the frames loaded are exactly the unique frames that can
    be read, all of them and in their order, each with its position among
    the unique frames as index, the third part of its file name as time
    stamp and the encoding that was read as image. *)
Theorem loaded_frames_are_the_sampled_frame_files
        (w : world) (frame_files unique : list string)
        (frames_data : list frame_data) :
  load_stage w = Ret (Loaded frame_files unique frames_data) ->
  (exists files,
      w_listdir w = Ret files
      /\ Permutation frame_files (filter is_frame_file files)
      /\ Sorted ordered frame_files)
  /\ FrameSampler.filter_unique_frames (w_similar w) (88 # 100) frame_files
     = Ret unique
  /\ subsequence unique frame_files
  /\ List.length unique <= 12
  /\ subsequence (map fd_filename frames_data) unique
  /\ 1 <= List.length frames_data <= 12
  /\ Forall (loaded_from w unique 0) frames_data
  /\ map fd_filename frames_data = filter (readable w) unique.
Proof.
  intros Hload.
  destruct (load_stage_loaded _ _ _ _ Hload)
    as (files & Hlist & Hff & Hu & Hfd & Hne).
  destruct (load_frames_spec w unique 0) as [Hsub Hall].
  rewrite <- Hfd in Hsub, Hall.
  pose proof (filter_capped _ _ _ _ Hu) as Hcap.
  unfold FrameSampler.max_frames in Hcap.
  split.
  { exists files. split; [exact Hlist|]. rewrite Hff.
    split; [apply sort_permutation|apply sort_ordered]. }
  split; [exact Hu|].
  split.
  { destruct (filter_subsequence (w_similar w) (88 # 100) frame_files)
      as (kept & Hk & Hs).
    rewrite Hu in Hk. inversion Hk; subst kept. exact Hs. }
  split; [exact Hcap|]. split; [exact Hsub|].
  split; [|split; [exact Hall|rewrite Hfd; apply load_frames_names]].
  pose proof (subsequence_length _ _ Hsub) as Hlen.
  rewrite length_map in Hlen.
  destruct frames_data; [congruence|]. cbn [List.length] in *. lia.
Qed.

(** The bounds of the batch size and of the number of batches, checked
    for each number of frames from one to twelve. *)
Definition batch_bounds_hold (n : nat) : bool :=
  let batch_size := Nat.min 3 (Nat.max 1 (n / 2)) in
  (1 <=? batch_size) && (batch_size <=? 3)
  && (1 <=? total_batches n batch_size) && (total_batches n batch_size <=? 4).

Lemma batches_bound (n : nat) :
  1 <= n <= 12 ->
  let batch_size := Nat.min 3 (Nat.max 1 (n / 2)) in
  1 <= batch_size <= 3 /\ 1 <= total_batches n batch_size <= 4.
Proof.
  intros Hn. cbv zeta.
  assert (Hall : forallb batch_bounds_hold (seq 1 12) = true) by reflexivity.
  rewrite forallb_forall in Hall.
  assert (Hin : In n (seq 1 12)) by (apply in_seq; lia).
  apply Hall in Hin. unfold batch_bounds_hold in Hin. cbv zeta in Hin.
  rewrite !andb_true_iff, !Nat.leb_le in Hin. lia.
Qed.

(** X24. A run that loads frames sends between one and four requests: the
    batch size is 1, 2 or 3, and the one to twelve frames loaded make at
    most four batches. *)
Theorem at_most_four_requests
        (w : world) (frame_files unique : list string)
        (frames_data : list frame_data) :
  load_stage w = Ret (Loaded frame_files unique frames_data) ->
  let batch_size := Nat.min 3 (Nat.max 1 (List.length frames_data / 2)) in
  1 <= batch_size <= 3
  /\ 1 <= total_batches (List.length frames_data) batch_size <= 4.
Proof.
  intros Hload.
  destruct (load_stage_loaded _ _ _ _ Hload)
    as (files & Hlist & Hff & Hu & Hfd & Hne).
  destruct (load_frames_spec w unique 0) as [Hsub _].
  rewrite <- Hfd in Hsub.
  pose proof (filter_capped _ _ _ _ Hu) as Hcap.
  unfold FrameSampler.max_frames in Hcap.
  pose proof (subsequence_length _ _ Hsub) as Hlen.
  rewrite length_map in Hlen.
  apply batches_bound.
  destruct frames_data; [congruence|]. cbn [List.length] in *. lia.
Qed.

Definition two_files : list string :=
  ["frame_0_00m00s.jpg"; "frame_1_00m01s.jpg"]%string.

Definition two_frames : list frame_data :=
  [ mk_frame_data "frame_0_00m00s.jpg" "00m00s" "AAAA" 0;
    mk_frame_data "frame_1_00m01s.jpg" "00m01s" "AAAA" 1 ].

Lemma loaded_frames_are_the_sampled_frame_files_witness :
  FrameSampler.filter_unique_frames (w_similar timeout_world) (88 # 100)
    two_files = Ret two_files
  /\ subsequence (map fd_filename two_frames) two_files
  /\ Forall (loaded_from timeout_world two_files 0) two_frames
  /\ map fd_filename two_frames = filter (readable timeout_world) two_files.
Proof.
  assert (Hload : load_stage timeout_world
                  = Ret (Loaded two_files two_files two_frames))
    by (vm_compute; reflexivity).
  destruct (loaded_frames_are_the_sampled_frame_files
              timeout_world two_files two_files two_frames Hload)
    as (_ & Hu & _ & _ & Hsub & _ & Hall & Hnames).
  split; [exact Hu|]. split; [exact Hsub|]. split; [exact Hall|exact Hnames].
Defined.

Lemma at_most_four_requests_witness :
  1 <= total_batches (List.length two_frames)
         (Nat.min 3 (Nat.max 1 (List.length two_frames / 2))) <= 4.
Proof.
  assert (Hload : load_stage timeout_world
                  = Ret (Loaded two_files two_files two_frames))
    by (vm_compute; reflexivity).
  exact (proj2 (at_most_four_requests
                  timeout_world two_files two_files two_frames Hload)).
Defined.

(** *** Fusion *)

Definition is_parking (i : safety_issue) : bool :=
  in_list (issue_type i) ["parking"; "vehicle"]%string.

Definition is_waste (i : safety_issue) : bool :=
  in_list (issue_type i) ["waste"; "debris"]%string.

Lemma waste_is_not_parking (i : safety_issue) :
  negb (is_parking i) && is_waste i = is_waste i.
Proof.
  unfold is_parking, is_waste, in_list. cbn [existsb].
  destruct (String.eqb_spec (issue_type i) "parking") as [->|_];
    [reflexivity|].
  destruct (String.eqb_spec (issue_type i) "vehicle") as [->|_];
    reflexivity.
Qed.

(** The details for which a frame with the same index was loaded. *)
Definition has_frame (frames_data : list frame_data) (d : frame_detail) : bool :=
  match find (fun fd => (fd_original_index fd =? frameIndex d)%Z) frames_data with
  | Some _ => true
  | None => false
  end.

Definition source_of (box : pyval) : option pyval :=
  match box with
  | VDict d => py_get "source" d
  | _ => None
  end.

Definition from_ai (box : pyval) : Prop :=
  source_of box = Some (VStr "ai_analysis").

Definition from_detector (box : pyval) : Prop :=
  source_of box = Some (VStr "yolo_detection").

Definition critical (d : detection) : bool :=
  HazardClassifier.is_critical_safety_hazard
    (class_name d) (confidence d) (det_bbox d)
    HazardClassifier.default_base_threshold.

Lemma hazard_boxes_spec (detections : list detection) :
  List.length (hazard_boxes detections)
  = List.length (filter critical detections)
  /\ Forall from_detector (hazard_boxes detections).
Proof.
  induction detections as [|d rest [IHl IHf]]; [split; constructor|].
  cbn [hazard_boxes flat_map filter]. fold (hazard_boxes rest).
  fold (critical d). destruct (critical d).
  - destruct (assess_hazard_severity (class_name d) (det_bbox d))
      as [[[severity reason] priority] immediate_action].
    cbn [app List.length]. split; [now rewrite IHl|].
    constructor; [reflexivity|exact IHf].
  - cbn [app]. split; assumption.
Qed.

Lemma process_issues_spec (frame_index : Z) (issues : list safety_issue) :
  forall (c c' : combined) (boxes boxes' : list pyval),
    process_issues frame_index (c, boxes) issues = Ret (c', boxes') ->
    overall_incorrect_parking c'
    = overall_incorrect_parking c || existsb is_parking issues
    /\ overall_waste_material c'
       = overall_waste_material c || existsb is_waste issues
    /\ List.length (all_explanations c')
       = List.length (all_explanations c) + List.length issues
    /\ processed_frames c' = processed_frames c
    /\ exists new,
         boxes' = boxes ++ new
         /\ List.length new = List.length issues
         /\ Forall from_ai new.
Proof.
  induction issues as [|issue rest IH]; intros c c' boxes boxes' H.
  - cbn in H. inversion H; subst.
    rewrite !orb_false_r, Nat.add_0_r. repeat split.
    exists []. rewrite app_nil_r. repeat split. constructor.
  - cbn [process_issues] in H. unfold process_issue in H at 1.
    destruct (issue_description issue) as [description|]; cbn [bind] in H;
      [|discriminate H].
    apply IH in H.
    cbn [overall_incorrect_parking overall_waste_material all_explanations
         processed_frames] in H.
    destruct H as (Hp & Hw & He & Hf & new & Hb & Hl & Hai).
    fold (is_parking issue) in Hp. fold (is_parking issue) in Hw.
    fold (is_waste issue) in Hw. rewrite waste_is_not_parking in Hw.
    cbn [existsb List.length].
    split; [now rewrite Hp, orb_assoc|].
    split; [now rewrite Hw, orb_assoc|].
    split; [rewrite He, length_app; cbn [List.length]; lia|].
    split; [exact Hf|].
    eexists (_ :: new). rewrite Hb, <- app_assoc.
    split; [reflexivity|]. split; [cbn [List.length]; now rewrite Hl|].
    constructor; [reflexivity|exact Hai].
Qed.

(** A frame object built at position [pos] of the list of details. *)
Definition built_from (frames_data : list frame_data)
           (all_yolo_detections : list (list detection))
           (pd : nat * frame_detail) (f : frame_obj) : Prop :=
  let (pos, d) := pd in
  fo_detail f = d
  /\ fo_time f = timestamp d
  /\ (exists fd,
        find (fun fd => (fd_original_index fd =? frameIndex d)%Z) frames_data
        = Some fd
        /\ fo_filename f = fd_filename fd)
  /\ fo_yolo_detections f = List.length (nth pos all_yolo_detections [])
  /\ exists ai_boxes,
       fo_boundingBoxes f
       = ai_boxes ++ hazard_boxes (nth pos all_yolo_detections [])
       /\ List.length ai_boxes = List.length (safetyIssues d)
       /\ Forall from_ai ai_boxes.

(** The details that have a frame, each with its position in the list. *)
Definition matched (frames_data : list frame_data) (start : nat)
           (details : list frame_detail) : list (nat * frame_detail) :=
  filter (fun pd => has_frame frames_data (snd pd))
         (combine (seq start (List.length details)) details).

Definition matched_issues (frames_data : list frame_data)
           (details : list frame_detail) : list safety_issue :=
  flat_map safetyIssues (filter (has_frame frames_data) details).

Lemma combine_loop_spec (frames_data : list frame_data)
      (all_yolo_detections : list (list detection))
      (details : list frame_detail) :
  forall (k : nat) (c c' : combined),
    combine_loop k details frames_data all_yolo_detections c = Ret c' ->
    overall_incorrect_parking c'
    = overall_incorrect_parking c
      || existsb is_parking (matched_issues frames_data details)
    /\ overall_waste_material c'
       = overall_waste_material c
         || existsb is_waste (matched_issues frames_data details)
    /\ List.length (all_explanations c')
       = List.length (all_explanations c)
         + List.length (matched_issues frames_data details)
    /\ exists new,
         processed_frames c' = processed_frames c ++ new
         /\ Forall2 (built_from frames_data all_yolo_detections)
                    (matched frames_data k details) new.
Proof.
  unfold matched_issues, matched.
  induction details as [|d rest IH]; intros k c c' H.
  - cbn in H. inversion H; subst. cbn.
    rewrite !orb_false_r, Nat.add_0_r. repeat split.
    exists []. rewrite app_nil_r. split; [reflexivity|constructor].
  - cbn [combine_loop] in H.
    cbn [List.length seq combine filter snd].
    destruct (find (fun fd => (fd_original_index fd =? frameIndex d)%Z)
                   frames_data) as [fd|] eqn:Hfind.
    + assert (Hhas : has_frame frames_data d = true)
        by (unfold has_frame; now rewrite Hfind).
      rewrite Hhas.
      destruct (process_issues (frameIndex d) (c, []) (safetyIssues d))
        as [[c1 ai_boxes]|e] eqn:Hp; cbn [bind] in H; [|discriminate H].
      apply process_issues_spec in Hp.
      destruct Hp as (Hp1 & Hw1 & He1 & Hf1 & new1 & Hb1 & Hl1 & Hai1).
      cbn [app] in Hb1. subst ai_boxes.
      apply IH in H.
      cbn [overall_incorrect_parking overall_waste_material all_explanations
           processed_frames] in H.
      destruct H as (Hp2 & Hw2 & He2 & new & Hn & Hall).
      cbn [flat_map]. rewrite !existsb_app, length_app.
      split; [rewrite Hp2, Hp1; now rewrite orb_assoc|].
      split; [rewrite Hw2, Hw1; now rewrite orb_assoc|].
      split; [rewrite He2, He1; lia|].
      eexists (_ :: new). rewrite Hn, Hf1, <- app_assoc.
      split; [reflexivity|].
      constructor; [|exact Hall].
      cbn. split; [reflexivity|]. split; [reflexivity|].
      split; [exists fd; split; [exact Hfind|reflexivity]|].
      split; [reflexivity|].
      exists new1. split; [reflexivity|]. split; assumption.
    + assert (Hhas : has_frame frames_data d = false)
        by (unfold has_frame; now rewrite Hfind).
      rewrite Hhas. apply IH in H. exact H.
Qed.

(** X25. When the fusion loop returns, the flag [incorrectParking] is set
    exactly when some safety issue of a detail that has a frame is of type
    [parking] or [vehicle], and the flag [wasteMaterial] exactly when some
    such issue is of type [waste] or [debris]; there is one explanation per
    such issue.  Issues of details without a frame count for nothing. *)
Theorem flags_follow_issue_types
        (frames_data : list frame_data)
        (all_yolo_detections : list (list detection))
        (details : list frame_detail) (c : combined) :
  combine_loop 0 details frames_data all_yolo_detections empty_combined
  = Ret c ->
  overall_incorrect_parking c
  = existsb is_parking (matched_issues frames_data details)
  /\ overall_waste_material c
     = existsb is_waste (matched_issues frames_data details)
  /\ List.length (all_explanations c)
     = List.length (matched_issues frames_data details).
Proof.
  intros H. apply combine_loop_spec in H.
  destruct H as (Hp & Hw & He & _). cbn in Hp, Hw, He. now repeat split.
Qed.

(** X26. When the fusion loop returns, there is one frame object per
    detail that has a frame, in the order of the details.  The object has
    the time stamp of the detail and the file name of the frame whose
    index the detail names; its boxes are one AI box per safety issue
    followed by the detector boxes; and the detector boxes and the
    detection count are those of the entry of the detection lists at the
    position of the detail in the list of details.  The detector boxes of
    a list of detections are as many as its critical hazards. *)
Theorem frame_objects_follow_details
        (frames_data : list frame_data)
        (all_yolo_detections : list (list detection))
        (details : list frame_detail) (c : combined) :
  combine_loop 0 details frames_data all_yolo_detections empty_combined
  = Ret c ->
  Forall2 (built_from frames_data all_yolo_detections)
          (matched frames_data 0 details) (processed_frames c)
  /\ forall detections,
       List.length (hazard_boxes detections)
       = List.length (filter critical detections)
       /\ Forall from_detector (hazard_boxes detections).
Proof.
  intros H. apply combine_loop_spec in H.
  destruct H as (_ & _ & _ & new & Hn & Hall). cbn in Hn. subst new.
  split; [exact Hall|apply hazard_boxes_spec].
Qed.

(** A detail with a parking issue for the first of two frames, a detail
    for a frame that was not loaded, and a truck in the pathway among the
    detections of the first frame. *)
Definition parking_detail : frame_detail :=
  mk_detail 0 "00:00" "A truck stands in the aisle."
            [mk_issue "parking" "high" (Text "Truck parked in the aisle")
                      (GridLocator.PyString "B2") "Move the truck"]
            "Blocked" "Blocked" [].

Definition stray_detail : frame_detail :=
  mk_detail 7 "00:07" "Debris on the floor."
            [mk_issue "debris" "low" (Text "Debris") (GridLocator.PyString "C1")
                      "Sweep"]
            "Clear" "Clear" [].

Definition truck : detection :=
  mk_detection "truck" (9 # 10) (mk_bbox (3 # 10) (4 # 10) (3 # 10) (3 # 10))
               "vehicle" true "nano" "truck_0.300_0.400".

Definition fused : combined :=
  match combine_loop 0 [parking_detail; stray_detail] two_frames
                     [[truck]; []] empty_combined with
  | Ret c => c
  | Raise _ => empty_combined
  end.

Lemma fused_returns :
  combine_loop 0 [parking_detail; stray_detail] two_frames [[truck]; []]
               empty_combined
  = Ret fused.
Proof. vm_compute. reflexivity. Qed.

Lemma flags_follow_issue_types_witness :
  overall_incorrect_parking fused
  = existsb is_parking
      (matched_issues two_frames [parking_detail; stray_detail])
  /\ overall_waste_material fused
     = existsb is_waste
         (matched_issues two_frames [parking_detail; stray_detail])
  /\ List.length (all_explanations fused)
     = List.length (matched_issues two_frames [parking_detail; stray_detail]).
Proof.
  exact (flags_follow_issue_types two_frames [[truck]; []]
           [parking_detail; stray_detail] fused fused_returns).
Defined.

Lemma frame_objects_follow_details_witness :
  Forall2 (built_from two_frames [[truck]; []])
          (matched two_frames 0 [parking_detail; stray_detail])
          (processed_frames fused).
Proof.
  exact (proj1 (frame_objects_follow_details two_frames [[truck]; []]
                  [parking_detail; stray_detail] fused fused_returns)).
Defined.

Example fused_flags :
  overall_incorrect_parking fused = true
  /\ overall_waste_material fused = false
  /\ map (fun f => List.length (fo_boundingBoxes f)) (processed_frames fused)
     = [2].
Proof. repeat split; vm_compute; reflexivity. Qed.

(** *** The counts of the report *)

Lemma concat_of_empty {A B : Type} (l : list A) :
  List.concat (map (fun _ : A => @nil B) l) = [].
Proof. induction l as [|x l IH]; [reflexivity|exact IH]. Qed.

Lemma report_stage_result (w : world) (frame_files unique : list string)
      (frames_data : list frame_data) (d : pydict) :
  report_stage w frame_files unique frames_data = Ret d ->
  exists all_frame_details c,
    d = result_obj w frame_files unique frames_data all_frame_details
          (if w_has_yolo w
           then map (fun fd => w_detect w (fd_filename fd)) frames_data
           else map (fun _ => []) frames_data)
          c.
Proof.
  unfold report_stage, process_frames_in_batches.
  assert (Hz : (Nat.min 3 (Nat.max 1 (List.length frames_data / 2)) =? 0)
               = false)
    by (apply Nat.eqb_neq, batch_size_positive).
  rewrite Hz. cbn [bind].
  match goal with
  | |- context [combine_loop 0 ?ds frames_data ?yolo empty_combined] =>
      destruct (combine_loop 0 ds frames_data yolo empty_combined)
        as [c|e]; cbn [bind]; [|discriminate];
      intros H; inversion H; subst; exists ds, c; reflexivity
  end.
Qed.

(** X27. The counts of a success report hang together: between one and
    twelve frames were analysed, no more than there are unique frames, and
    no more unique frames than frame files; [similarity_filtered] is the
    difference of the last two; the hazardous objects are among the
    detected ones; and without the detector both counts are 0. *)
Theorem report_counts_are_consistent
        (w : world) (frame_files unique : list string)
        (frames_data : list frame_data) (d : pydict) :
  load_stage w = Ret (Loaded frame_files unique frames_data) ->
  report_stage w frame_files unique frames_data = Ret d ->
  analyze_frames_with_openrouter w = VDict d
  /\ py_get "success" d = Some (VBool true)
  /\ exists analyzed uniq total yolo hazardous : Z,
       py_get "frames_analyzed" d = Some (VInt analyzed)
       /\ py_get "unique_frames" d = Some (VInt uniq)
       /\ py_get "total_frames" d = Some (VInt total)
       /\ py_get "similarity_filtered" d = Some (VInt (total - uniq))
       /\ py_get "yolo_detections" d = Some (VInt yolo)
       /\ py_get "hazardous_objects" d = Some (VInt hazardous)
       /\ (1 <= analyzed <= uniq)%Z /\ (uniq <= total)%Z /\ (uniq <= 12)%Z
       /\ (0 <= hazardous <= yolo)%Z
       /\ (w_has_yolo w = false -> yolo = 0%Z).
Proof.
  intros Hload Hreport.
  split; [unfold analyze_frames_with_openrouter; now rewrite Hload, Hreport|].
  destruct (load_stage_loaded _ _ _ _ Hload)
    as (files & Hlist & Hff & Hu & Hfd & Hne).
  destruct (load_frames_spec w unique 0) as [Hsub _].
  rewrite <- Hfd in Hsub.
  pose proof (filter_capped _ _ _ _ Hu) as Hcap.
  unfold FrameSampler.max_frames in Hcap.
  pose proof (subsequence_length _ _ Hsub) as Hlen.
  rewrite length_map in Hlen.
  destruct (filter_subsequence (w_similar w) (88 # 100) frame_files)
    as (kept & Hk & Hs).
  rewrite Hu in Hk. inversion Hk; subst kept.
  pose proof (subsequence_length _ _ Hs) as Hlen2.
  assert (Hpos : 1 <= List.length frames_data)
    by (destruct frames_data; [congruence|cbn [List.length]; lia]).
  destruct (report_stage_result _ _ _ _ _ Hreport) as (details & c & Hd).
  set (yolo := if w_has_yolo w
               then map (fun fd => w_detect w (fd_filename fd)) frames_data
               else map (fun _ => []) frames_data) in Hd.
  split; [rewrite Hd; reflexivity|].
  exists (Z.of_nat (List.length frames_data)),
    (Z.of_nat (List.length unique)),
    (Z.of_nat (List.length frame_files)),
    (Z.of_nat (List.length (List.concat yolo))),
    (Z.of_nat (List.length (filter potential_hazard (List.concat yolo)))).
  rewrite Hd.
  split; [reflexivity|]. split; [reflexivity|]. split; [reflexivity|].
  split; [reflexivity|]. split; [reflexivity|]. split; [reflexivity|].
  split; [lia|]. split; [lia|]. split; [lia|].
  split.
  { pose proof (filter_length_le potential_hazard (List.concat yolo)). lia. }
  intros Hoff. unfold yolo. rewrite Hoff, concat_of_empty. reflexivity.
Qed.

Definition timeout_report : pydict :=
  match report_stage timeout_world two_files two_files two_frames with
  | Ret d => d
  | Raise _ => []
  end.

Lemma report_counts_are_consistent_witness :
  analyze_frames_with_openrouter timeout_world = VDict timeout_report
  /\ py_get "success" timeout_report = Some (VBool true).
Proof.
  assert (Hload : load_stage timeout_world
                  = Ret (Loaded two_files two_files two_frames))
    by (vm_compute; reflexivity).
  assert (Hreport : report_stage timeout_world two_files two_files two_frames
                    = Ret timeout_report)
    by (vm_compute; reflexivity).
  destruct (report_counts_are_consistent
              timeout_world two_files two_files two_frames timeout_report
              Hload Hreport) as (Hrun & Hs & _).
  split; [exact Hrun|exact Hs].
Defined.

(** *** A run in which no request is answered *)

Lemma flat_map_nothing {A B : Type} (f : A -> list B) (l : list A) :
  (forall x, f x = []) -> flat_map f l = [].
Proof.
  intros H. induction l as [|x l IH]; simpl; [reflexivity|].
  now rewrite H, IH.
Qed.

(** X28. When every batch fails, for a time-out, a refusal or an answer
    that cannot be parsed, a run that loaded frames still ends with a
    success report: no frame detail, no frame object, both flags false and
    the explanation that no safety violations were detected.  Without the
    detector the only mitigation is the preventive one. *)
Theorem failed_batches_read_as_no_violations
        (w : world) (frame_files unique : list string)
        (frames_data : list frame_data) :
  load_stage w = Ret (Loaded frame_files unique frames_data) ->
  (forall req, exists error,
      analyze_batch_with_openrouter (w_post w) req = BatchFailure error) ->
  let report := analyze_frames_with_openrouter w in
  top_entry "success" report = Some (VBool true)
  /\ analysis_entry "frameDetails" report = Some (VList [])
  /\ analysis_entry "frames" report = Some (VList [])
  /\ analysis_entry "incorrectParking" report = Some (VBool false)
  /\ analysis_entry "wasteMaterial" report = Some (VBool false)
  /\ analysis_entry "explanation" report
     = Some (VStr ("Analyzed "
                   ++ PyFormat.str_of_nat (List.length frames_data)
                   ++ " unique frames - no safety violations detected."))
  /\ (w_has_yolo w = false ->
      analysis_entry "mitigationStrategies" report
      = Some (VList [mitigation_value
                       MitigationSynthesizer.preventive_record])).
Proof.
  intros Hload Hfail report.
  assert (Hrun : report
                 = VDict (result_obj w frame_files unique frames_data []
                            (if w_has_yolo w
                             then map (fun fd => w_detect w (fd_filename fd))
                                      frames_data
                             else map (fun _ => []) frames_data)
                            empty_combined)).
  { unfold report, analyze_frames_with_openrouter. rewrite Hload.
    unfold report_stage, process_frames_in_batches.
    assert (Hz : (Nat.min 3 (Nat.max 1 (List.length frames_data / 2)) =? 0)
                 = false)
      by (apply Nat.eqb_neq, batch_size_positive).
    rewrite Hz. cbn [bind]. rewrite batch_loop_spec.
    rewrite flat_map_nothing; [reflexivity|].
    intros j. destruct (Hfail (batch_request frames_data
                                (if w_has_yolo w
                                 then map (fun fd => w_detect w (fd_filename fd))
                                          frames_data
                                 else map (fun _ => []) frames_data)
                                (Nat.min 3 (Nat.max 1
                                              (List.length frames_data / 2)))
                                j)) as [error Herr].
    now rewrite Herr. }
  rewrite Hrun.
  split; [reflexivity|]. split; [reflexivity|]. split; [reflexivity|].
  split; [reflexivity|]. split; [reflexivity|]. split; [reflexivity|].
  intros Hoff. rewrite Hoff. unfold analysis_entry, result_obj.
  rewrite concat_of_empty. reflexivity.
Qed.

(** Two frames and a service that never answers. *)
Definition outage_world : world :=
  mk_world (Ret tt) NoCache
           (Ret ["frame_0_00m00s.jpg"; "frame_1_00m01s.jpg"]%string)
           (fun _ _ _ => Ret false)
           (fun _ => Ret "AAAA"%string)
           false (fun _ => [])
           (fun _ => Raise (TimeoutError "Read timed out."%string)).

Lemma failed_batches_read_as_no_violations_witness :
  top_entry "success" (analyze_frames_with_openrouter outage_world)
  = Some (VBool true)
  /\ analysis_entry "explanation" (analyze_frames_with_openrouter outage_world)
     = Some (VStr "Analyzed 2 unique frames - no safety violations detected.").
Proof.
  assert (Hload : load_stage outage_world
                  = Ret (Loaded two_files two_files two_frames))
    by (vm_compute; reflexivity).
  destruct (failed_batches_read_as_no_violations
              outage_world two_files two_files two_frames Hload)
    as (Hs & _ & _ & _ & _ & He & _).
  - intros req. eexists. reflexivity.
  - split; [exact Hs|exact He].
Defined.

(** *** Severity *)

Definition priority_of (cls : string) (b : bbox) : Z :=
  let '(_, _, priority, _) := assess_hazard_severity cls b in priority.

(** [object_size] and [center_x], as the code computes them. *)
Definition object_size (b : bbox) : float :=
  (PyFloat.nearest (box_w b) * PyFloat.nearest (box_h b))%float.

Definition centre_x (b : bbox) : float :=
  (PyFloat.nearest (box_x b) + PyFloat.nearest (box_w b) / 2)%float.

Definition is_vehicle (cls : string) : bool :=
  any_in ["car"; "truck"; "bus"; "motorcycle"; "bicycle"]%string (lower cls).

(** X29. The four levels of [assess_hazard_severity] hang together: the
    priority is 1 to 4, the severity is the name of the priority
    (critical, high, medium, low), and immediate action is asked for
    exactly at priorities 1 and 2.  A vehicle is always at priority 1, and
    nothing else is.  Another object is at priority 2 exactly when its
    computed area [w * h] exceeds 0.1; it is at priority 3 exactly when
    its area does not exceed 0.1 but exceeds 0.05 and its computed center
    [x + w/2] passes the test [0.3 <= center_x <= 0.7]; in all other cases
    it is at priority 4.  The confidence plays no part. *)
Theorem severity_levels_agree (cls : string) (b : bbox) :
  (let '(severity, _, priority, immediate_action) :=
     assess_hazard_severity cls b in
   (1 <= priority <= 4)%Z
   /\ severity
      = nth (Z.to_nat (priority - 1)) ["critical"; "high"; "medium"; "low"]%string
            ""%string
   /\ immediate_action = (priority <=? 2)%Z)
  /\ (priority_of cls b = 1%Z <-> is_vehicle cls = true)
  /\ (priority_of cls b = 2%Z
      <-> is_vehicle cls = false /\ PrimFloat.ltb 0.1 (object_size b) = true)
  /\ (priority_of cls b = 3%Z
      <-> is_vehicle cls = false
          /\ PrimFloat.ltb 0.1 (object_size b) = false
          /\ PrimFloat.ltb 0.05 (object_size b) = true
          /\ PrimFloat.leb 0.3 (centre_x b) = true
          /\ PrimFloat.leb (centre_x b) 0.7 = true).
Proof.
  unfold priority_of, assess_hazard_severity.
  fold (is_vehicle cls) (object_size b) (centre_x b). cbv zeta.
  destruct (is_vehicle cls).
  { repeat split; try lia; try discriminate; try tauto;
      intros [H _]; discriminate. }
  destruct (PrimFloat.ltb 0.1 (object_size b)).
  { repeat split; try lia; try discriminate; try tauto;
      intros (_ & H & _); discriminate. }
  destruct (PrimFloat.leb 0.3 (centre_x b));
    destruct (PrimFloat.leb (centre_x b) 0.7);
    destruct (PrimFloat.ltb 0.05 (object_size b)); cbn [andb];
    repeat split; try lia; try discriminate; try tauto;
    try (intros [_ H]; discriminate);
    try (intros (_ & _ & H1 & H2 & H3); discriminate).
Qed.

Definition small_box : bbox := mk_bbox (4 # 10) (4 # 10) (2 # 10) (1 # 10).

Definition large_box : bbox := mk_bbox (3 # 10) (3 # 10) (4 # 10) (3 # 10).

Example table_severities :
  priority_of "dining table" small_box = 4%Z
  /\ priority_of "dining table" large_box = 2%Z
  /\ priority_of "truck" small_box = 1%Z.
Proof. repeat split; vm_compute; reflexivity. Qed.

(** Two couches whose boxes have the same center by the decimals, 0.7:
    the code computes 0.6 + 0.2 / 2 as 0.7 and 0.55 + 0.3 / 2 as
    0.7000000000000001, so the smaller couch is rated medium and the
    larger one low. *)
Example couches_at_the_border :
  centre_x (mk_bbox (6 # 10) (4 # 10) (2 # 10) (3 # 10)) = 0.7%float
  /\ centre_x (mk_bbox (55 # 100) (4 # 10) (3 # 10) (3 # 10))
     = 0.7000000000000001%float
  /\ priority_of "couch" (mk_bbox (6 # 10) (4 # 10) (2 # 10) (3 # 10)) = 3%Z
  /\ priority_of "couch" (mk_bbox (55 # 100) (4 # 10) (3 # 10) (3 # 10)) = 4%Z.
Proof. repeat split; vm_compute; reflexivity. Qed.

End AnalysisFacts.

(** ** File names: from the extraction to the analysis *)

Module NameFacts.

Import PyStr PyFormat PyText FrameExtractor Analysis.
Import ExtractorFacts AnalysisFacts.

Local Open Scope string_scope.

Fixpoint all_chars (p : ascii -> bool) (s : string) : bool :=
  match s with
  | EmptyString => true
  | String c t => p c && all_chars p t
  end.

(** The character differs from [x]. *)
Definition avoids (x : ascii) (c : ascii) : bool := negb (Ascii.eqb c x).

Lemma all_chars_app (p : ascii -> bool) (a b : string) :
  all_chars p (a ++ b) = all_chars p a && all_chars p b.
Proof.
  induction a as [|c a IH]; simpl; [reflexivity|].
  now rewrite IH, andb_assoc.
Qed.

Lemma all_chars_weaken (p q : ascii -> bool) (s : string) :
  (forall c, p c = true -> q c = true) ->
  all_chars p s = true -> all_chars q s = true.
Proof.
  intros Hpq. induction s as [|c s IH]; simpl; [reflexivity|].
  rewrite !andb_true_iff. intros [Hc Hs]. split; [now apply Hpq|now apply IH].
Qed.

Lemma string_app_assoc (a b c : string) : (a ++ b) ++ c = a ++ (b ++ c).
Proof. induction a as [|x a IH]; simpl; [reflexivity|now rewrite IH]. Qed.

Lemma string_length_app (a b : string) :
  String.length (a ++ b) = (String.length a + String.length b)%nat.
Proof. induction a as [|x a IH]; simpl; [reflexivity|now rewrite IH]. Qed.

Lemma substring_all (s : string) : substring 0 (String.length s) s = s.
Proof. induction s as [|c s IH]; simpl; [reflexivity|now rewrite IH]. Qed.

Lemma substring_suffix (a b : string) :
  substring (String.length a) (String.length b) (a ++ b) = b.
Proof. induction a as [|c a IH]; simpl; [apply substring_all|exact IH]. Qed.

Lemma endswith_app (a b : string) : endswith b (a ++ b) = true.
Proof.
  unfold endswith. rewrite string_length_app.
  replace (String.length a + String.length b - String.length b)%nat
    with (String.length a) by lia.
  rewrite substring_suffix, String.eqb_refl, andb_true_r.
  apply Nat.leb_le. lia.
Qed.

(** *** Digits *)

Lemma digits_of_uint (d : Decimal.uint) :
  all_chars is_digit (DecimalString.NilEmpty.string_of_uint d) = true.
Proof. induction d; simpl; try reflexivity; exact IHd. Qed.

Lemma str_of_N_digits (n : N) : all_chars is_digit (str_of_N n) = true.
Proof.
  unfold str_of_N, DecimalString.NilZero.string_of_uint.
  destruct (N.to_uint n) eqn:E; try reflexivity;
    rewrite <- E; pose proof (digits_of_uint (N.to_uint n)) as H;
    rewrite E in *; exact H.
Qed.

Lemma pad2_digits (n : Z) : all_chars is_digit (pad2 n) = true.
Proof.
  unfold pad2. rewrite all_chars_app, str_of_N_digits.
  now destruct (n <? 10)%Z.
Qed.

Lemma digit_avoids (x c : ascii) :
  is_digit x = false -> is_digit c = true -> avoids x c = true.
Proof.
  intros Hx Hc. unfold avoids. apply negb_true_iff, Ascii.eqb_neq.
  intros ->. congruence.
Qed.

Lemma digits_avoid (x : ascii) (s : string) :
  is_digit x = false -> all_chars is_digit s = true ->
  all_chars (avoids x) s = true.
Proof.
  intros Hx. apply all_chars_weaken. intros c. now apply digit_avoids.
Qed.

(** The time stamp [<MM>m<SS>s] of a file name. *)
Definition stamp (minutes seconds : Z) : string :=
  pad2 minutes ++ "m" ++ pad2 seconds ++ "s".

Lemma stamp_avoids (x : ascii) (minutes seconds : Z) :
  is_digit x = false -> avoids x "m" = true -> avoids x "s" = true ->
  all_chars (avoids x) (stamp minutes seconds) = true.
Proof.
  intros Hx Hm Hs. unfold stamp.
  rewrite !all_chars_app, !(digits_avoid x _ Hx (pad2_digits _)).
  cbn [all_chars]. now rewrite Hm, Hs.
Qed.

(** *** The operations of the analysis on such a name *)

Lemma split_char_plain (sep : ascii) (s : string) :
  all_chars (avoids sep) s = true -> split_char sep s = [s].
Proof.
  induction s as [|c s IH]; simpl; [reflexivity|].
  rewrite andb_true_iff. intros [Hc Hs].
  unfold avoids in Hc. apply negb_true_iff in Hc. rewrite Hc.
  now rewrite (IH Hs).
Qed.

Lemma remove_all_aux_empty (fuel : nat) (old : string) :
  remove_all_aux fuel old "" = "".
Proof. now destruct fuel. Qed.

Lemma remove_jpg_suffix (p : string) :
  all_chars (avoids ".") p = true ->
  forall fuel, (String.length p < fuel)%nat ->
    remove_all_aux fuel ".jpg" (p ++ ".jpg") = p.
Proof.
  induction p as [|c p IH]; intros Hp fuel Hfuel.
  - destruct fuel as [|fuel]; [lia|]. cbn. apply remove_all_aux_empty.
  - destruct fuel as [|fuel]; [lia|].
    cbn [all_chars] in Hp. apply andb_true_iff in Hp as [Hc Hp].
    unfold avoids in Hc. apply negb_true_iff in Hc.
    cbn [append remove_all_aux startswith].
    rewrite Ascii.eqb_sym, Hc. cbn [andb].
    rewrite (IH Hp); [reflexivity|]. cbn [String.length] in Hfuel. lia.
Qed.

Lemma remove_jpg_extension (p : string) :
  all_chars (avoids ".") p = true -> remove_all ".jpg" (p ++ ".jpg") = p.
Proof.
  intros Hp. unfold remove_all. apply remove_jpg_suffix; [exact Hp|].
  rewrite string_length_app. lia.
Qed.

(** The name that the extraction gives to frame [n] kept at the given
    minutes and seconds. *)
Definition frame_name (n : nat) (minutes seconds : Z) : string :=
  "frame_" ++ str_of_nat n ++ "_" ++ stamp minutes seconds ++ ".jpg".

Lemma frame_name_read_back (n : nat) (minutes seconds : Z) :
  is_frame_file (frame_name n minutes seconds) = true
  /\ timestamp_of (frame_name n minutes seconds) = stamp minutes seconds.
Proof.
  assert (Hname : frame_name n minutes seconds
                  = ("frame_" ++ str_of_nat n ++ "_" ++ stamp minutes seconds)
                    ++ ".jpg").
  { unfold frame_name. now rewrite !string_app_assoc. }
  split.
  - unfold is_frame_file. rewrite Hname at 2. rewrite endswith_app.
    reflexivity.
  - unfold timestamp_of. rewrite Hname, remove_jpg_extension.
    + change ("frame_" ++ str_of_nat n ++ "_" ++ stamp minutes seconds)
        with ("frame" ++ String "_" (str_of_nat n
                                     ++ String "_" (stamp minutes seconds))).
      rewrite !GridFacts.split_char_app.
      rewrite (split_char_plain "_" (str_of_nat n)),
        (split_char_plain "_" (stamp minutes seconds)); [reflexivity| |].
      * now apply stamp_avoids.
      * apply digits_avoid; [reflexivity|apply str_of_N_digits].
    + rewrite !all_chars_app.
      rewrite (digits_avoid "." (str_of_nat n)), stamp_avoids;
        try reflexivity.
      apply str_of_N_digits.
Qed.

Section Facts.

Context {frame : Type}.

Variable resize : frame -> outcome frame.
Variable is_frame_quality_acceptable : frame -> Q -> Q -> bool.
Variable detect_motion : frame -> frame -> Q.
Variable calculate_frame_similarity : frame -> frame -> Q -> bool.
Variable imwrite : string -> frame -> outcome bool.
Variable encode_base64 : frame -> outcome string.
Variable output_dir : string.
Variable frame_interval : Q.
Variable similarity_threshold : Q.

(** X30. Every frame that the extraction keeps has a file name that the
    analysis accepts as a frame file, and the time stamp that the analysis
    reads from the name is [<MM>m<SS>s] for the minutes and seconds of the
    time [<MM>:<SS>] that the extraction recorded for the frame. *)
Theorem extracted_names_are_read_back
        (fuel : nat) (cap : @capture frame) (duration : Q)
        (st : @extract_state frame) :
  extraction_loop resize is_frame_quality_acceptable detect_motion
                  calculate_frame_similarity imwrite encode_base64 output_dir
                  frame_interval similarity_threshold
                  fuel cap duration 0 initial_state
  = Some (Ret st) ->
  Forall (fun f =>
            is_frame_file (ef_filename f) = true
            /\ exists minutes seconds : Z,
                 ef_time f = pad2 minutes ++ ":" ++ pad2 seconds
                 /\ timestamp_of (ef_filename f)
                    = pad2 minutes ++ "m" ++ pad2 seconds ++ "s")
         (extracted_frames st).
Proof.
  intros Hrun.
  pose proof (loop_consistent resize is_frame_quality_acceptable detect_motion
                calculate_frame_similarity imwrite encode_base64 output_dir
                frame_interval similarity_threshold cap duration fuel 0
                initial_state st (initial_state_consistent output_dir) Hrun)
    as (_ & _ & _ & _ & Hnames).
  eapply Forall_impl; [|exact Hnames].
  intros f (minutes & seconds & Htime & Hname & _ & _).
  fold (stamp minutes seconds) in Hname.
  fold (frame_name (ef_frame_number f) minutes seconds) in Hname.
  destruct (frame_name_read_back (ef_frame_number f) minutes seconds)
    as [Hfile Hstamp].
  rewrite Hname. split; [exact Hfile|].
  exists minutes, seconds. split; [exact Htime|exact Hstamp].
Qed.

End Facts.

Lemma extracted_names_are_read_back_witness :
  Forall (fun f =>
            is_frame_file (ef_filename f) = true
            /\ exists minutes seconds : Z,
                 ef_time f = pad2 minutes ++ ":" ++ pad2 seconds
                 /\ timestamp_of (ef_filename f)
                    = pad2 minutes ++ "m" ++ pad2 seconds ++ "s")
         (extracted_frames static_final).
Proof.
  assert (Hrun : extraction_loop
                   (fun f => Ret f) (fun _ _ _ => true) (fun _ _ => 0%Q)
                   static_similarity (fun _ _ => Ret true)
                   (fun _ => Ret "") "out" 1%Q (70 # 100)
                   8 static_capture (duration_of static_capture) 0%Q
                   initial_state
                 = Some (Ret static_final))
    by (vm_compute; reflexivity).
  exact (extracted_names_are_read_back
           (fun f => Ret f) (fun _ _ _ => true) (fun _ _ => 0%Q)
           static_similarity (fun _ _ => Ret true)
           (fun _ => Ret "") "out" 1%Q (70 # 100)
           8%nat static_capture (duration_of static_capture) static_final Hrun).
Defined.

End NameFacts.
